(** * Expense tracker: models and controllers

    A shallow embedding of the persistence access layer
    ([database/db_connection.py]), the domain models ([models/user.py],
    [models/expense.py]), the validation helpers ([utils/helpers.py]) and
    the two controllers ([controllers/auth_controller.py],
    [controllers/expense_controller.py]), followed by the properties the
    specification states about them and by further properties of the
    same code: how the reports fit together, what the writing paths
    leave behind, the accounts and the session, and the validators.

    Conventions of the embedding:
    - money is a DECIMAL with two fractional digits, held as an integer
      number of cents; floating point is not modelled: where the code
      applies [float(...)] to a decimal, the conversion is a parameter;
    - a Python [str] is a [string] whose characters are the code points
      below 256; in that range the class [\d] is exactly ['0'..'9'];
    - the MySQL server is the record [world]: its three tables, whether a
      statement can be carried out at all ([online]), and a journal of the
      statements that reached the server;
    - the columns [created_at] and [updated_at] are readings of the
      server clock and are left out;
    - the schema is not part of the sources: its keys and its foreign
      key enter the statements as hypotheses ([category_key],
      [expense_key], [category_reference], [dates_valid]), and the
      collation's equality on strings and the SHA-256 digest are
      parameters. *)

From Stdlib Require Import ZArith List String Ascii Bool Lia.
From Stdlib Require Import Permutation Sorting.Sorted.
Import ListNotations.
Open Scope string_scope.
Open Scope list_scope.
Open Scope Z_scope.

Set Implicit Arguments.

(* ================================================================== *)
(** ** Data model                                                       *)
(* ================================================================== *)

(** A calendar date, as MySQL's DATE and Python's [datetime.date]. *)
Record date := mkDate { year : Z; month : Z; day : Z }.

(** [a <= b] on dates: lexicographic on (year, month, day). *)
Definition date_leb (a b : date) : bool :=
  (year a <? year b)
  || ((year a =? year b)
      && ((month a <? month b)
          || ((month a =? month b) && (day a <=? day b)))).

(** What a DATE column can hold: a month of the calendar and a day of it. *)
Definition valid_date (d : date) : Prop :=
  1 <= month d <= 12 /\ 1 <= day d <= 31.

(** One row of [users]. *)
Module UserRow.
Record t := mk {
  user_id : Z;
  username : string;
  email : string;
  password : string;          (* the stored hash *)
  full_name : string;
  is_active : bool
}.
End UserRow.

(** One row of [categories]. *)
Module CategoryRow.
Record t := mk {
  category_id : Z;
  category_name : string;
  icon : string;
  color : string
}.
End CategoryRow.

(** One row of [expenses]. [notes] is the only nullable column. *)
Module ExpenseRow.
Record t := mk {
  expense_id : Z;
  user_id : Z;
  category_id : Z;
  amount : Z;                 (* cents *)
  description : string;
  expense_date : date;
  payment_method : string;
  notes : option string
}.
End ExpenseRow.

(** The Python object [User] of [models/user.py]. *)
Module UserObject.
Record t := mk {
  user_id : Z;
  username : string;
  email : string;
  full_name : string;
  is_active : bool
}.
End UserObject.

(** The Python object [Expense] of [models/expense.py]; the last three
    attributes are filled by the join with [categories] and are [None]
    on an object built by [Expense.create]. *)
Module ExpenseObject.
Record t := mk {
  expense_id : Z;
  user_id : Z;
  category_id : Z;
  amount : Z;
  description : string;
  expense_date : date;
  payment_method : string;
  notes : option string;
  category_name : option string;
  category_icon : option string;
  category_color : option string
}.
End ExpenseObject.

(** The kinds of statement that [execute_query] sends to the server. *)
Inductive statement := SELECT | INSERT | UPDATE | DELETE.

(** The server, plus the one piece of process-wide state of the
    application: [AuthController._current_user]. *)
Record world := mkWorld {
  users : list UserRow.t;
  categories : list CategoryRow.t;
  expenses : list ExpenseRow.t;
  online : bool;
  journal : list statement;
  current_user : option UserObject.t
}.

(* ================================================================== *)
(** ** A state monad over [world]                                       *)
(* ================================================================== *)

Definition M (A : Type) : Type := world -> A * world.

Definition ret {A} (a : A) : M A := fun w => (a, w).

Definition bind {A B} (m : M A) (k : A -> M B) : M B :=
  fun w => let (a, w') := m w in k a w'.

Declare Scope monad_scope.
Delimit Scope monad_scope with monad.
Notation "x <- m ;; k" := (bind m (fun x => k))
  (at level 61, m at next level, right associativity) : monad_scope.
Notation "' p <- m ;; k" := (bind m (fun x => let 'p := x in k))
  (at level 61, p pattern, m at next level, right associativity) : monad_scope.
Open Scope monad_scope.

Definition result_of {A} (r : A * world) : A := fst r.
Definition world_of {A} (r : A * world) : world := snd r.

Definition set_users (us : list UserRow.t) (w : world) : world :=
  mkWorld us (categories w) (expenses w) (online w) (journal w)
          (current_user w).

Definition set_expenses (es : list ExpenseRow.t) (w : world) : world :=
  mkWorld (users w) (categories w) es (online w) (journal w)
          (current_user w).

Definition log (s : statement) (w : world) : world :=
  mkWorld (users w) (categories w) (expenses w) (online w)
          (journal w ++ [s]) (current_user w).

Definition set_current_user (u : option UserObject.t) : M unit :=
  fun w => (tt, mkWorld (users w) (categories w) (expenses w) (online w)
                        (journal w) u).

Definition get_current_user : M (option UserObject.t) :=
  fun w => (current_user w, w).

(* ================================================================== *)
(** ** database/db_connection.py                                        *)
(* ================================================================== *)

Module Database.

(** [execute_query(query, params, fetch=True)]: [None] when no
    connection is obtained or the statement raises; otherwise the rows
    of [cursor.fetchall()]. A rejected statement is rolled back, so
    [online w = false] stands for both ways of failing. *)
Definition execute_query {R} (rows : world -> list R)
  : M (option (list R)) :=
  fun w => if online w then (Some (rows w), log SELECT w)
           else (None, w).

(** [execute_query(query, params, fetch=False)]: commits and returns
    [cursor.lastrowid]. The statement is given by its effect on the
    tables and by the row id the server reports for it: the generated
    key for an INSERT into an AUTO_INCREMENT table, [0] for a statement
    that generates no key (UPDATE, DELETE). *)
Definition execute_update (kind : statement)
           (effect : world -> Z * world) : M (option Z) :=
  fun w => if online w
           then let (rowid, w') := effect w in (Some rowid, log kind w')
           else (None, w).

End Database.

(* ================================================================== *)
(** ** The SQL the models use                                           *)
(* ================================================================== *)

Module SQL.

(** Aggregates over a group; all but COUNT are NULL on no rows. *)
Definition SUM (l : list Z) : option Z :=
  match l with [] => None | _ => Some (fold_right Z.add 0 l) end.

Definition COUNT {A} (l : list A) : Z := Z.of_nat (List.length l).

Definition MAX (l : list Z) : option Z :=
  match l with [] => None | x :: t => Some (fold_right Z.max x t) end.

Definition MIN (l : list Z) : option Z :=
  match l with [] => None | x :: t => Some (fold_right Z.min x t) end.

(** Division of exact decimals: the quotient rounded half away from
    zero, for a positive divisor. *)
Definition div_round (a b : Z) : Z :=
  Z.sgn a * ((2 * Z.abs a + b) / (2 * b)).

(** AVG of a DECIMAL(_,2) column: a decimal with four more fractional
    digits ([div_precision_increment]), here in millionths. *)
Definition AVG (l : list Z) : option Z :=
  match l with
  | [] => None
  | _ => Some (div_round (fold_right Z.add 0 l * 10000) (COUNT l))
  end.

Definition COALESCE (v : option Z) (d : Z) : Z :=
  match v with Some x => x | None => d end.

(** [l JOIN r ON on]. *)
Definition join {A B} (on : A -> B -> bool) (l : list A) (r : list B)
  : list (A * B) :=
  flat_map (fun a => map (fun b => (a, b)) (filter (on a) r)) l.

(** [l LEFT JOIN r ON on]: a row of [l] without partner is kept once,
    with NULLs for the columns of [r]. *)
Definition left_join {A B} (on : A -> B -> bool) (l : list A)
           (r : list B) : list (A * option B) :=
  flat_map (fun a => match filter (on a) r with
                     | [] => [(a, None)]
                     | bs => map (fun b => (a, Some b)) bs
                     end) l.

(** [GROUP BY key]: the distinct keys, each with its rows. *)
Definition group_by {R} (key : R -> Z) (rows : list R)
  : list (Z * list R) :=
  map (fun k => (k, filter (fun r => key r =? k) rows))
      (nodup Z.eq_dec (map key rows)).

(** [ORDER BY]: insertion of [x] before the first row that must not
    precede it. [before a b] says that [a] may stand before [b]. *)
Fixpoint insert {R} (before : R -> R -> bool) (x : R) (l : list R)
  : list R :=
  match l with
  | [] => [x]
  | y :: t => if before x y then x :: y :: t
              else y :: insert before x t
  end.

Definition order_by {R} (before : R -> R -> bool) (l : list R)
  : list R :=
  fold_right (insert before) [] l.

End SQL.

(** Python truthiness of an optional integer argument: [None] and [0]
    are false. *)
Definition truthy (v : option Z) : bool :=
  match v with Some n => negb (n =? 0) | None => false end.

(* ================================================================== *)
(** ** Regular expressions, as far as [utils/helpers.py] uses them      *)
(* ================================================================== *)

Module Re.

Inductive regex :=
| Void                               (* matches nothing *)
| Eps                                (* the empty word *)
| Class (p : ascii -> bool)          (* [...] *)
| Cat (r s : regex)
| Alt (r s : regex)
| Star (r : regex).

Fixpoint nullable (r : regex) : bool :=
  match r with
  | Void => false
  | Eps => true
  | Class _ => false
  | Cat r s => nullable r && nullable s
  | Alt r s => nullable r || nullable s
  | Star _ => true
  end.

(** The words [w] such that [c :: w] is matched by [r]. *)
Fixpoint deriv (c : ascii) (r : regex) : regex :=
  match r with
  | Void => Void
  | Eps => Void
  | Class p => if p c then Eps else Void
  | Cat r s =>
      if nullable r then Alt (Cat (deriv c r) s) (deriv c s)
      else Cat (deriv c r) s
  | Alt r s => Alt (deriv c r) (deriv c s)
  | Star r => Cat (deriv c r) (Star r)
  end.

(** The whole of [s] is matched by [r]. *)
Fixpoint accepts (r : regex) (s : string) : bool :=
  match s with
  | EmptyString => nullable r
  | String c t => accepts (deriv c r) t
  end.

(** [r{n}], [r{0,n}], [r{m,n}], [r{m,}] and [r+]. *)
Fixpoint times (n : nat) (r : regex) : regex :=
  match n with O => Eps | S k => Cat r (times k r) end.

Fixpoint upto (n : nat) (r : regex) : regex :=
  match n with O => Eps | S k => Alt Eps (Cat r (upto k r)) end.

Definition between (m n : nat) (r : regex) : regex :=
  Cat (times m r) (upto (n - m) r).

Definition at_least (m : nat) (r : regex) : regex :=
  Cat (times m r) (Star r).

Definition plus (r : regex) : regex := at_least 1 r.

Definition newline : ascii := Ascii.ascii_of_nat 10.

(** [re.match('^' + body + '$', s) is not None]. Without MULTILINE,
    [$] holds at the end of the string and also just before a newline
    that is the last character of the string. *)
Definition match_anchored (body : regex) (s : string) : bool :=
  accepts (Cat body (Alt Eps (Class (Ascii.eqb newline)))) s.

(** [re.search(cls, s) is not None] for a one-character pattern. *)
Fixpoint search (p : ascii -> bool) (s : string) : bool :=
  match s with
  | EmptyString => false
  | String c t => p c || search p t
  end.

(** Character classes. *)
Definition in_range (lo hi c : ascii) : bool :=
  ((nat_of_ascii lo <=? nat_of_ascii c)
   && (nat_of_ascii c <=? nat_of_ascii hi))%nat.

Definition one_of (cs : string) (c : ascii) : bool :=
  search (Ascii.eqb c) cs.

Definition lower := in_range "a" "z".
Definition upper := in_range "A" "Z".
Definition digit := in_range "0" "9".
Definition letter (c : ascii) : bool := upper c || lower c.
Definition alnum (c : ascii) : bool := lower c || upper c || digit c.

(** The words of a regular expression, as a relation; [accepts] decides
    it. *)
Inductive matches : regex -> string -> Prop :=
| m_eps : matches Eps EmptyString
| m_class p c : p c = true -> matches (Class p) (String c EmptyString)
| m_cat r s x y : matches r x -> matches s y -> matches (Cat r s) (x ++ y)
| m_alt_l r s x : matches r x -> matches (Alt r s) x
| m_alt_r r s x : matches s x -> matches (Alt r s) x
| m_star_nil r : matches (Star r) EmptyString
| m_star_cons r x y :
    matches r x -> matches (Star r) y -> matches (Star r) (x ++ y).

(** Every character of [s] is in the class [p]. *)
Fixpoint every (p : ascii -> bool) (s : string) : bool :=
  match s with
  | EmptyString => true
  | String c t => p c && every p t
  end.

(** The last character of [s] is [c]. *)
Fixpoint ends_with (c : ascii) (s : string) : bool :=
  match s with
  | EmptyString => false
  | String a EmptyString => Ascii.eqb a c
  | String _ t => ends_with c t
  end.

End Re.

(* ================================================================== *)
(** ** utils/helpers.py                                                 *)
(* ================================================================== *)

Module Helpers.

Section Hashing.
(** [hashlib.sha256(s.encode()).hexdigest()]. *)
Variable sha256_hexdigest : string -> string.

Definition hash_password (password : string) : string :=
  sha256_hexdigest password.

Definition verify_password (password hashed : string) : bool :=
  String.eqb (hash_password password) hashed.
End Hashing.

(** [^[a-zA-Z0-9._%+-]+@[a-zA-Z0-9.-]+\.[a-zA-Z]{2,}$] *)
Definition email_pattern : Re.regex :=
  Re.Cat (Re.plus (Re.Class (fun c => Re.alnum c || Re.one_of "._%+-" c)))
 (Re.Cat (Re.Class (Ascii.eqb "@"))
 (Re.Cat (Re.plus (Re.Class (fun c => Re.alnum c || Re.one_of ".-" c)))
 (Re.Cat (Re.Class (Ascii.eqb "."))
         (Re.at_least 2 (Re.Class Re.letter))))).

Definition validate_email (email : string) : bool :=
  Re.match_anchored email_pattern email.

(** [^[a-zA-Z0-9_]{3,20}$] *)
Definition word_char (c : ascii) : bool :=
  Re.alnum c || Ascii.eqb c "_".

Definition username_pattern : Re.regex :=
  Re.between 3 20 (Re.Class word_char).

Definition validate_username (username : string) : bool :=
  Re.match_anchored username_pattern username.

Definition validate_password (password : string) : bool * string :=
  if (String.length password <? 6)%nat then
    (false, "Password must be at least 6 characters")
  else if negb (Re.search Re.letter password) then
    (false, "Password must contain at least one letter")
  else if negb (Re.search Re.digit password) then
    (false, "Password must contain at least one number")
  else (true, "Password is valid").

(** [months[month_num - 1]] behind the guard [1 <= month_num <= 12]. *)
Definition month_names : list string :=
  ["January"; "February"; "March"; "April"; "May"; "June";
   "July"; "August"; "September"; "October"; "November"; "December"].

Definition get_month_name (month_num : Z) : string :=
  if (1 <=? month_num) && (month_num <=? 12)
  then nth (Z.to_nat (month_num - 1)) month_names EmptyString
  else EmptyString.

Definition month_short_names : list string :=
  ["Jan"; "Feb"; "Mar"; "Apr"; "May"; "Jun";
   "Jul"; "Aug"; "Sep"; "Oct"; "Nov"; "Dec"].

Definition get_month_short_name (month_num : Z) : string :=
  if (1 <=? month_num) && (month_num <=? 12)
  then nth (Z.to_nat (month_num - 1)) month_short_names EmptyString
  else EmptyString.

(** The first [n] characters of [s], all of it when it is shorter. *)
Fixpoint take (n : nat) (s : string) : string :=
  match n, s with
  | S k, String c t => String c (take k t)
  | _, _ => EmptyString
  end.

(** The slice [text[:k]]: the first [k] characters for [k >= 0], all but
    the last [-k] for [k < 0]. *)
Definition slice_to (k : Z) (text : string) : string :=
  if 0 <=? k then take (Z.to_nat k) text
  else take (String.length text - Z.to_nat (- k)) text.

Definition truncate_text (text : string) (max_length : Z) : string :=
  if Z.of_nat (String.length text) <=? max_length then text
  else (slice_to (max_length - 3) text ++ "...")%string.

End Helpers.

(** Python truthiness of a [str]: the empty string is false. *)
Definition nonempty (s : string) : bool :=
  match s with EmptyString => false | String _ _ => true end.

Definition truthy_str (v : option string) : bool :=
  match v with Some s => nonempty s | None => false end.

Definition is_not_None {A} (v : option A) : bool :=
  match v with Some _ => true | None => false end.

(* ================================================================== *)
(** ** models/user.py                                                   *)
(* ================================================================== *)

Module User.

Section Platform.
(** The digest behind [hash_password], and [=] on the string columns
    of [users] under their collation. *)
Variable sha256_hexdigest : string -> string.
Variable sql_eq : string -> string -> bool.

(** The key AUTO_INCREMENT gives to the next row. *)
Definition next_id (ids : list Z) : Z := 1 + fold_right Z.max 0 ids.

Definition of_row (user_data : UserRow.t) : UserObject.t :=
  UserObject.mk (UserRow.user_id user_data)
                (UserRow.username user_data)
                (UserRow.email user_data)
                (UserRow.full_name user_data)
                (UserRow.is_active user_data).

(** INSERT INTO users (username, email, password, full_name) *)
Definition insert_user (username email hashed full_name : string)
           (w : world) : Z * world :=
  let id := next_id (map UserRow.user_id (users w)) in
  (id, set_users
         (users w ++ [UserRow.mk id username email hashed full_name true])
         w).

Definition create (username email password full_name : string)
  : M (option UserObject.t) :=
  let hashed_password :=
    Helpers.hash_password sha256_hexdigest password in
  user_id <- Database.execute_update INSERT
               (insert_user username email hashed_password full_name) ;;
  ret (match user_id with
       | Some id =>
           if truthy user_id
           then Some (UserObject.mk id username email full_name true)
           else None
       | None => None
       end).

(** WHERE (username = %s OR email = %s) AND is_active = TRUE *)
Definition login_match (username : string) (r : UserRow.t) : bool :=
  (sql_eq (UserRow.username r) username
   || sql_eq (UserRow.email r) username)
  && UserRow.is_active r.

Definition authenticate (username password : string)
  : M (option UserObject.t) :=
  result <- Database.execute_query
              (fun w => filter (login_match username) (users w)) ;;
  ret (match result with
       | Some (user_data :: _) =>
           if Helpers.verify_password sha256_hexdigest password
                (UserRow.password user_data)
           then Some (of_row user_data)
           else None
       | _ => None
       end).

(** SELECT COUNT( * ) as count FROM users WHERE ... *)
Definition count_users (p : UserRow.t -> bool)
  : M (option (list Z)) :=
  Database.execute_query (fun w => [SQL.COUNT (filter p (users w))]).

(** [result and result[0]['count'] > 0] *)
Definition found (result : option (list Z)) : bool :=
  match result with
  | Some (count :: _) => 0 <? count
  | _ => false
  end.

(** [User.exists(username=None, email=None)] *)
Definition exists_ (username email : option string)
  : M (bool * option string) :=
  by_name <-
    match username with
    | Some u =>
        if truthy_str username
        then result <- count_users
                         (fun r => sql_eq (UserRow.username r) u) ;;
             ret (found result)
        else ret false
    | None => ret false
    end ;;
  if by_name then ret (true, Some "username")
  else
    by_email <-
      match email with
      | Some e =>
          if truthy_str email
          then result <- count_users
                           (fun r => sql_eq (UserRow.email r) e) ;;
               ret (found result)
          else ret false
      | None => ret false
      end ;;
    if by_email then ret (true, Some "email")
    else ret (false, None).

(** The SET clause of [User.update], one entry per column. *)
Inductive assignment :=
| Set_full_name (v : string)
| Set_email (v : string).

Definition assign (r : UserRow.t) (a : assignment) : UserRow.t :=
  match a with
  | Set_full_name v =>
      UserRow.mk (UserRow.user_id r) (UserRow.username r)
                 (UserRow.email r) (UserRow.password r) v
                 (UserRow.is_active r)
  | Set_email v =>
      UserRow.mk (UserRow.user_id r) (UserRow.username r) v
                 (UserRow.password r) (UserRow.full_name r)
                 (UserRow.is_active r)
  end.

Definition given (f : string -> assignment) (v : option string)
  : list assignment :=
  match v with
  | Some s => if truthy_str v then [f s] else []
  | None => []
  end.

(** UPDATE users SET ... WHERE user_id = %s *)
Definition update_users (updates : list assignment) (user_id : Z)
           (w : world) : Z * world :=
  (0, set_users
        (map (fun r => if UserRow.user_id r =? user_id
                       then fold_left assign updates r else r)
             (users w))
        w).

Definition update (self : UserObject.t) (full_name email : option string)
  : M bool :=
  let updates := given Set_full_name full_name
                 ++ given Set_email email in
  match updates with
  | [] => ret false
  | _ =>
      result <- Database.execute_update UPDATE
                  (update_users updates (UserObject.user_id self)) ;;
      ret (is_not_None result)
  end.

(** UPDATE users SET password = %s WHERE user_id = %s *)
Definition update_password (hashed : string) (user_id : Z) (w : world)
  : Z * world :=
  (0, set_users
        (map (fun r => if UserRow.user_id r =? user_id
                       then UserRow.mk (UserRow.user_id r)
                              (UserRow.username r) (UserRow.email r) hashed
                              (UserRow.full_name r) (UserRow.is_active r)
                       else r)
             (users w))
        w).

Definition change_password (self : UserObject.t)
           (old_password new_password : string) : M (bool * string) :=
  result <- Database.execute_query
              (fun w => map UserRow.password
                          (filter (fun r => UserRow.user_id r
                                            =? UserObject.user_id self)
                                  (users w))) ;;
  let verified :=
    match result with
    | Some (stored :: _) =>
        Helpers.verify_password sha256_hexdigest old_password stored
    | _ => false
    end in
  if negb verified then ret (false, "Current password is incorrect")
  else
    let new_hashed := Helpers.hash_password sha256_hexdigest new_password in
    result <- Database.execute_update UPDATE
                (update_password new_hashed (UserObject.user_id self)) ;;
    if is_not_None result then ret (true, "Password changed successfully")
    else ret (false, "Failed to update password").

(** SELECT ... FROM users WHERE username = %s *)
Definition get_by_username (username : string) : M (option UserObject.t) :=
  result <- Database.execute_query
              (fun w => filter (fun r => sql_eq (UserRow.username r) username)
                               (users w)) ;;
  ret (match result with
       | Some (user_data :: _) => Some (of_row user_data)
       | _ => None
       end).

End Platform.

End User.

(* ================================================================== *)
(** ** models/expense.py                                                *)
(* ================================================================== *)

(** A row of [get_category_totals]. *)
Module CategoryTotal.
Record t := mk {
  category_id : Z;
  category_name : string;
  icon : string;
  color : string;
  total : Z;
  count : Z
}.
End CategoryTotal.

(** A row of [get_monthly_totals]. *)
Module MonthTotal.
Record t := mk { month : Z; total : Z; count : Z }.
End MonthTotal.

(** The row of [get_expense_stats]; [average] is in millionths. *)
Module Stats.
Record t := mk {
  total : Z;
  average : Z;
  max_expense : Z;
  min_expense : Z;
  count : Z
}.
End Stats.

(** A row of [get_daily_totals]. *)
Module DayTotal.
Record t := mk { day : Z; total : Z; count : Z }.
End DayTotal.

(** A Python [dict] with integer keys: insertion-ordered; assigning to a
    key that is present replaces its value in place, assigning to a new
    key appends. *)
Module Dict.
Definition t (V : Type) : Type := list (Z * V).

Fixpoint set {V} (k : Z) (v : V) (d : t V) : t V :=
  match d with
  | [] => [(k, v)]
  | (k', v') :: rest =>
      if k' =? k then (k, v) :: rest else (k', v') :: set k v rest
  end.

Fixpoint get {V} (k : Z) (d : t V) : option V :=
  match d with
  | [] => None
  | (k', v') :: rest => if k' =? k then Some v' else get k rest
  end.

Definition values {V} (d : t V) : list V := map snd d.
End Dict.

(** [range(a, b)] for [a <= b]. *)
Definition range (a b : Z) : list Z :=
  map (fun i => a + Z.of_nat i) (seq 0 (Z.to_nat (b - a))).

Module Expense.

(** [Expense( **data)] on a row of expenses joined with its category. *)
Definition of_row (data : ExpenseRow.t * CategoryRow.t)
  : ExpenseObject.t :=
  let (e, c) := data in
  ExpenseObject.mk (ExpenseRow.expense_id e) (ExpenseRow.user_id e)
    (ExpenseRow.category_id e) (ExpenseRow.amount e)
    (ExpenseRow.description e) (ExpenseRow.expense_date e)
    (ExpenseRow.payment_method e) (ExpenseRow.notes e)
    (Some (CategoryRow.category_name c)) (Some (CategoryRow.icon c))
    (Some (CategoryRow.color c)).

(** FROM expenses e JOIN categories c ON e.category_id = c.category_id *)
Definition expenses_with_category (w : world)
  : list (ExpenseRow.t * CategoryRow.t) :=
  SQL.join (fun e c => ExpenseRow.category_id e =? CategoryRow.category_id c)
           (expenses w) (categories w).

(** [if user_id: query += " AND e.user_id = %s"] *)
Definition and_user (user_id : option Z) (e : ExpenseRow.t) : bool :=
  match user_id with
  | Some u => if truthy user_id then ExpenseRow.user_id e =? u else true
  | None => true
  end.

Definition get_by_id (expense_id : Z) (user_id : option Z)
  : M (option ExpenseObject.t) :=
  result <- Database.execute_query
              (fun w => filter
                          (fun d => (ExpenseRow.expense_id (fst d) =? expense_id)
                                    && and_user user_id (fst d))
                          (expenses_with_category w)) ;;
  ret (match result with
       | Some (data :: _) => Some (of_row data)
       | _ => None
       end).

(** [if start_date: query += " AND expense_date >= %s"] and the same
    for [end_date]. *)
Definition and_dates (start_date end_date : option date)
           (e : ExpenseRow.t) : bool :=
  match start_date with
  | Some s => date_leb s (ExpenseRow.expense_date e)
  | None => true
  end
  && match end_date with
     | Some d => date_leb (ExpenseRow.expense_date e) d
     | None => true
     end.

(** [if category_id: query += " AND category_id = %s"] *)
Definition and_category (category_id : option Z) (e : ExpenseRow.t)
  : bool :=
  match category_id with
  | Some c => if truthy category_id then ExpenseRow.category_id e =? c
              else true
  | None => true
  end.

Section Float.
(** [float(d)] for a decimal [d] given in cents; [0.0] is [float 0]. *)
Variable F : Type.
Variable float : Z -> F.

Definition get_total_expenses (user_id : Z)
           (start_date end_date : option date) (category_id : option Z)
  : M F :=
  result <- Database.execute_query
              (fun w =>
                 [SQL.COALESCE
                    (SQL.SUM
                       (map ExpenseRow.amount
                          (filter (fun e => (ExpenseRow.user_id e =? user_id)
                                            && and_dates start_date end_date e
                                            && and_category category_id e)
                                  (expenses w))))
                    0]) ;;
  ret (match result with
       | Some (total :: _) => float total
       | _ => float 0
       end).
End Float.

(** ON c.category_id = e.category_id AND e.user_id = %s [AND dates] *)
Definition on_category (user_id : Z) (start_date end_date : option date)
           (c : CategoryRow.t) (e : ExpenseRow.t) : bool :=
  (CategoryRow.category_id c =? ExpenseRow.category_id e)
  && (ExpenseRow.user_id e =? user_id)
  && and_dates start_date end_date e.

(** The rows of a group of the left join whose [e] side is not NULL. *)
Definition non_null (g : list (CategoryRow.t * option ExpenseRow.t))
  : list ExpenseRow.t :=
  flat_map (fun r => match snd r with Some e => [e] | None => [] end) g.

(** The select list of [get_category_totals] on one group:
    COALESCE(SUM(e.amount), 0) and COUNT(e.expense_id) skip the NULLs;
    the columns of [c] are those of any row of the group. *)
Definition category_total
           (kg : Z * list (CategoryRow.t * option ExpenseRow.t))
  : CategoryTotal.t :=
  let (k, g) := kg in
  let (name, looks) :=
    match g with
    | (c, _) :: _ => (CategoryRow.category_name c,
                      (CategoryRow.icon c, CategoryRow.color c))
    | [] => (EmptyString, (EmptyString, EmptyString))
    end in
  CategoryTotal.mk k name (fst looks) (snd looks)
    (SQL.COALESCE (SQL.SUM (map ExpenseRow.amount (non_null g))) 0)
    (SQL.COUNT (map ExpenseRow.expense_id (non_null g))).

Definition total_desc (a b : CategoryTotal.t) : bool :=
  CategoryTotal.total b <=? CategoryTotal.total a.

Definition get_category_totals (user_id : Z)
           (start_date end_date : option date)
  : M (list CategoryTotal.t) :=
  result <- Database.execute_query
              (fun w =>
                 SQL.order_by total_desc
                   (map category_total
                      (SQL.group_by
                         (fun r => CategoryRow.category_id (fst r))
                         (SQL.left_join
                            (on_category user_id start_date end_date)
                            (categories w) (expenses w))))) ;;
  ret (match result with
       | Some (r :: rs) => r :: rs
       | _ => []
       end).

Definition month_total (kg : Z * list ExpenseRow.t) : MonthTotal.t :=
  let (k, g) := kg in
  MonthTotal.mk k (SQL.COALESCE (SQL.SUM (map ExpenseRow.amount g)) 0)
                (SQL.COUNT g).

Definition month_asc (a b : MonthTotal.t) : bool :=
  MonthTotal.month a <=? MonthTotal.month b.

Definition in_year (user_id year_ : Z) (e : ExpenseRow.t) : bool :=
  (ExpenseRow.user_id e =? user_id)
  && (year (ExpenseRow.expense_date e) =? year_).

(** The SELECT of [get_monthly_totals]. *)
Definition monthly_rows (user_id year_ : Z) (w : world)
  : list MonthTotal.t :=
  SQL.order_by month_asc
    (map month_total
       (SQL.group_by (fun e => month (ExpenseRow.expense_date e))
                     (filter (in_year user_id year_) (expenses w)))).

(** The loop [for row in result: monthly_data[row['month']] = row]. *)
Definition fill (rows : list MonthTotal.t) (d : Dict.t MonthTotal.t)
  : Dict.t MonthTotal.t :=
  fold_left (fun d row => Dict.set (MonthTotal.month row) row d) rows d.

Definition get_monthly_totals (user_id year_ : Z)
  : M (list MonthTotal.t) :=
  result <- Database.execute_query (monthly_rows user_id year_) ;;
  let monthly_data : Dict.t MonthTotal.t :=
    map (fun i => (i, MonthTotal.mk i 0 0)) (range 1 13) in
  let monthly_data :=
    match result with
    | Some rows => fill rows monthly_data
    | None => monthly_data
    end in
  ret (Dict.values monthly_data).

Definition stats_row (g : list Z) : Stats.t :=
  Stats.mk (SQL.COALESCE (SQL.SUM g) 0) (SQL.COALESCE (SQL.AVG g) 0)
           (SQL.COALESCE (SQL.MAX g) 0) (SQL.COALESCE (SQL.MIN g) 0)
           (SQL.COUNT g).

Definition get_expense_stats (user_id : Z)
           (start_date end_date : option date) : M Stats.t :=
  result <- Database.execute_query
              (fun w =>
                 [stats_row
                    (map ExpenseRow.amount
                       (filter (fun e => (ExpenseRow.user_id e =? user_id)
                                         && and_dates start_date end_date e)
                               (expenses w)))]) ;;
  ret (match result with
       | Some (row :: _) => row
       | _ => Stats.mk 0 0 0 0 0
       end).

(** The SET clause of [Expense.update], one entry per column. *)
Inductive assignment :=
| Set_category_id (v : Z)
| Set_amount (v : Z)
| Set_description (v : string)
| Set_expense_date (v : date)
| Set_payment_method (v : string)
| Set_notes (v : string).

Definition assign (e : ExpenseRow.t) (a : assignment) : ExpenseRow.t :=
  let 'ExpenseRow.mk id user cat amt descr dt pay nts := e in
  match a with
  | Set_category_id v => ExpenseRow.mk id user v amt descr dt pay nts
  | Set_amount v => ExpenseRow.mk id user cat v descr dt pay nts
  | Set_description v => ExpenseRow.mk id user cat amt v dt pay nts
  | Set_expense_date v => ExpenseRow.mk id user cat amt descr v pay nts
  | Set_payment_method v => ExpenseRow.mk id user cat amt descr dt v nts
  | Set_notes v => ExpenseRow.mk id user cat amt descr dt pay (Some v)
  end.

(** [if x is not None: updates.append(...); params.append(x)] *)
Definition given {A} (f : A -> assignment) (v : option A)
  : list assignment :=
  match v with Some x => [f x] | None => [] end.

(** UPDATE expenses SET ... WHERE expense_id = %s *)
Definition update_expenses (updates : list assignment) (expense_id : Z)
           (w : world) : Z * world :=
  (0, set_expenses
        (map (fun e => if ExpenseRow.expense_id e =? expense_id
                       then fold_left assign updates e else e)
             (expenses w))
        w).

(** The list [updates] that [Expense.update] builds from its
    arguments. *)
Definition set_clause (category_id amount : option Z)
           (description : option string) (expense_date : option date)
           (payment_method notes : option string) : list assignment :=
  given Set_category_id category_id
  ++ given Set_amount amount
  ++ given Set_description description
  ++ given Set_expense_date expense_date
  ++ given Set_payment_method payment_method
  ++ given Set_notes notes.

Definition update (self : ExpenseObject.t)
           (category_id amount : option Z) (description : option string)
           (expense_date : option date)
           (payment_method notes : option string) : M bool :=
  let updates := set_clause category_id amount description expense_date
                            payment_method notes in
  match updates with
  | [] => ret false
  | _ =>
      result <- Database.execute_update UPDATE
                  (update_expenses updates (ExpenseObject.expense_id self)) ;;
      ret (is_not_None result)
  end.

(** DELETE FROM expenses WHERE expense_id = %s *)
Definition delete (self : ExpenseObject.t) : M bool :=
  result <- Database.execute_update DELETE
              (fun w =>
                 (0, set_expenses
                       (filter (fun e => negb (ExpenseRow.expense_id e
                                               =? ExpenseObject.expense_id self))
                               (expenses w))
                       w)) ;;
  ret (is_not_None result).

(** DELETE FROM expenses WHERE expense_id = %s AND user_id = %s *)
Definition delete_by_id (expense_id user_id : Z) : M bool :=
  result <- Database.execute_update DELETE
              (fun w =>
                 (0, set_expenses
                       (filter (fun e => negb ((ExpenseRow.expense_id e
                                                =? expense_id)
                                               && (ExpenseRow.user_id e
                                                   =? user_id)))
                               (expenses w))
                       w)) ;;
  ret (is_not_None result).

(** INSERT INTO expenses (user_id, category_id, amount, description,
    expense_date, payment_method, notes) *)
Definition insert_expense (user_id category_id amount : Z)
           (description : string) (expense_date : date)
           (payment_method : string) (notes : option string)
           (w : world) : Z * world :=
  let id := User.next_id (map ExpenseRow.expense_id (expenses w)) in
  (id, set_expenses
         (expenses w
          ++ [ExpenseRow.mk id user_id category_id amount description
                            expense_date payment_method notes])
         w).

Definition create (user_id category_id amount : Z) (description : string)
           (expense_date : date) (payment_method : string)
           (notes : option string) : M (option ExpenseObject.t) :=
  expense_id <- Database.execute_update INSERT
                  (insert_expense user_id category_id amount description
                                  expense_date payment_method notes) ;;
  ret (match expense_id with
       | Some id =>
           if truthy expense_id
           then Some (ExpenseObject.mk id user_id category_id amount
                        description expense_date payment_method notes
                        None None None)
           else None
       | None => None
       end).

Definition day_total (kg : Z * list ExpenseRow.t) : DayTotal.t :=
  let (k, g) := kg in
  DayTotal.mk k (SQL.COALESCE (SQL.SUM (map ExpenseRow.amount g)) 0)
              (SQL.COUNT g).

Definition day_asc (a b : DayTotal.t) : bool :=
  DayTotal.day a <=? DayTotal.day b.

(** WHERE user_id = %s AND YEAR(expense_date) = %s
    AND MONTH(expense_date) = %s *)
Definition in_month (user_id year_ month_ : Z) (e : ExpenseRow.t) : bool :=
  (ExpenseRow.user_id e =? user_id)
  && (year (ExpenseRow.expense_date e) =? year_)
  && (month (ExpenseRow.expense_date e) =? month_).

Definition get_daily_totals (user_id year_ month_ : Z)
  : M (list DayTotal.t) :=
  result <- Database.execute_query
              (fun w =>
                 SQL.order_by day_asc
                   (map day_total
                      (SQL.group_by
                         (fun e => day (ExpenseRow.expense_date e))
                         (filter (in_month user_id year_ month_)
                                 (expenses w))))) ;;
  ret (match result with
       | Some (r :: rs) => r :: rs
       | _ => []
       end).

Section Clock.
(** The column [created_at] of a row of [expenses]. *)
Variable created_at : ExpenseRow.t -> Z.

(** ORDER BY e.expense_date DESC, e.created_at DESC *)
Definition newest_first (a b : ExpenseRow.t * CategoryRow.t) : bool :=
  let da := ExpenseRow.expense_date (fst a) in
  let db := ExpenseRow.expense_date (fst b) in
  negb (date_leb da db)
  || (date_leb db da && (created_at (fst b) <=? created_at (fst a))).

(** [if limit: query += f" LIMIT {limit} OFFSET {offset}"] *)
Definition limit_offset {R} (limit : option nat) (offset : nat)
           (rows : list R) : list R :=
  match limit with
  | Some (S n) => firstn (S n) (skipn offset rows)
  | _ => rows
  end.

Definition get_user_expenses (user_id : Z)
           (start_date end_date : option date) (category_id : option Z)
           (limit : option nat) (offset : nat)
  : M (list ExpenseObject.t) :=
  result <- Database.execute_query
              (fun w =>
                 limit_offset limit offset
                   (SQL.order_by newest_first
                      (filter
                         (fun d => (ExpenseRow.user_id (fst d) =? user_id)
                                   && and_dates start_date end_date (fst d)
                                   && and_category category_id (fst d))
                         (expenses_with_category w)))) ;;
  ret (match result with
       | Some rows => map of_row rows
       | None => []
       end).

Definition get_recent_expenses (user_id : Z) (limit : option nat)
  : M (list ExpenseObject.t) :=
  get_user_expenses user_id None None None limit 0.
End Clock.

End Expense.

(* ================================================================== *)
(** ** controllers/expense_controller.py                                *)
(* ================================================================== *)

Module ExpenseController.

(** What a caller may pass as [amount]: something [float()] accepts,
    given in cents, or a text for which it raises [ValueError]. *)
Inductive amount_arg :=
| Number (cents : Z)
| NotANumber.

(** The keyword arguments of [update_expense]; [None] is an absent
    key. *)
Record kwargs := mkKwargs {
  category_id : option Z;
  amount : option amount_arg;
  description : option string;
  expense_date : option date;
  payment_method : option string;
  notes : option string
}.

Definition update_expense (expense_id user_id : Z) (kw : kwargs)
  : M (bool * string) :=
  expense <- Expense.get_by_id expense_id (Some user_id) ;;
  match expense with
  | None => ret (false, "Expense not found")
  | Some expense =>
      let checked : bool * string + option Z :=
        match amount kw with
        | None => inr None
        | Some NotANumber => inl (false, "Invalid amount")
        | Some (Number a) =>
            if a <=? 0 then inl (false, "Amount must be greater than 0")
            else inr (Some a)
        end in
      match checked with
      | inl failure => ret failure
      | inr amount =>
          success <- Expense.update expense (category_id kw) amount
                       (description kw) (expense_date kw)
                       (payment_method kw) (notes kw) ;;
          if (success : bool)
          then ret (true, "Expense updated successfully!")
          else ret (false, "Failed to update expense")
      end
  end.

Definition delete_expense (expense_id user_id : Z) : M (bool * string) :=
  success <- Expense.delete_by_id expense_id user_id ;;
  if (success : bool)
  then ret (true, "Expense deleted successfully!")
  else ret (false, "Failed to delete expense").

Definition get_expense_by_id (expense_id user_id : Z)
  : M (option ExpenseObject.t) :=
  Expense.get_by_id expense_id (Some user_id).

(** What a caller may pass as [amount] to [add_expense]: a number,
    given in cents; a text that [float()] reads as a number, such as the
    content of an entry field; or a text that [float()] does not
    accept. Numbers are whole numbers of cents: a number with more
    decimals, which the column rounds, and the values [nan] and [inf]
    have no counterpart here, and the statements about [add_expense]
    say nothing of the amount that is stored. *)
Inductive amount_input :=
| Amount (cents : Z)
| Numeral (cents : Z)
| Text (s : string).

(** Python truthiness of an amount: a number other than zero, a text
    that is not empty; a text that [float()] reads is not empty. *)
Definition amount_given (a : amount_input) : bool :=
  match a with
  | Amount cents => negb (cents =? 0)
  | Numeral _ => true
  | Text s => nonempty s
  end.

(** [float(amount)]; [None] stands for [ValueError]. *)
Definition float_of (a : amount_input) : option Z :=
  match a with
  | Amount cents => Some cents
  | Numeral cents => Some cents
  | Text _ => None
  end.

Definition add_expense (user_id category_id : Z) (amount : amount_input)
           (description : string) (expense_date : option date)
           (payment_method : string) (notes : option string)
  : M (bool * string * option ExpenseObject.t) :=
  match expense_date with
  | Some on_date =>
      if negb (truthy (Some user_id) && truthy (Some category_id)
               && amount_given amount && nonempty description)
      then ret (false, "Please fill all required fields", None)
      else
        match float_of amount with
        | None => ret (false, "Invalid amount", None)
        | Some cents =>
            if cents <=? 0
            then ret (false, "Amount must be greater than 0", None)
            else
              expense <- Expense.create user_id category_id cents
                           description on_date payment_method notes ;;
              match expense with
              | Some e => ret (true, "Expense added successfully!", Some e)
              | None => ret (false, "Failed to add expense", None)
              end
        end
  | None => ret (false, "Please fill all required fields", None)
  end.

Definition get_expenses := Expense.get_user_expenses.

Section Dashboard.
(** [float(d)] for a decimal [d] given in cents and for one given in
    millionths; the row order [created_at]; the reading [today] of
    [datetime.now()] and its rendering by [strftime('%B %Y')]. *)
Variable F : Type.
Variable float : Z -> F.
Variable float_millionths : Z -> F.
Variable created_at : ExpenseRow.t -> Z.
Variable today : date.
Variable month_label : date -> string.

Record dashboard := mkDashboard {
  monthly_total : F;
  monthly_average : F;
  monthly_count : Z;
  today_total : F;
  yearly_total : F;
  category_totals : list CategoryTotal.t;
  recent_expenses : list ExpenseObject.t;
  monthly_trend : list MonthTotal.t;
  current_month : string
}.

(** [today.replace(day=1)], and the first day of the month after it. *)
Definition month_start : date := mkDate (year today) (month today) 1.

Definition month_end : date :=
  if month today =? 12 then mkDate (year today + 1) 1 1
  else mkDate (year today) (month today + 1) 1.

Definition get_dashboard_data (user_id : Z) : M dashboard :=
  monthly_stats <- Expense.get_expense_stats user_id (Some month_start)
                     (Some month_end) ;;
  today_total <- Expense.get_total_expenses float user_id (Some today)
                   (Some today) None ;;
  yearly_total <- Expense.get_total_expenses float user_id
                    (Some (mkDate (year today) 1 1))
                    (Some (mkDate (year today) 12 31)) None ;;
  category_totals <- Expense.get_category_totals user_id (Some month_start)
                       (Some month_end) ;;
  recent_expenses <- Expense.get_recent_expenses created_at user_id
                       (Some 5%nat) ;;
  monthly_trend <- Expense.get_monthly_totals user_id (year today) ;;
  ret (mkDashboard (float (Stats.total monthly_stats))
                   (float_millionths (Stats.average monthly_stats))
                   (Stats.count monthly_stats)
                   today_total yearly_total category_totals
                   recent_expenses monthly_trend (month_label today)).
End Dashboard.

End ExpenseController.

(* ================================================================== *)
(** ** controllers/auth_controller.py                                   *)
(* ================================================================== *)

Module AuthController.

Section Platform.
Variable sha256_hexdigest : string -> string.
Variable sql_eq : string -> string -> bool.

Definition response : Type := bool * string * option UserObject.t.

Definition login (username password : string) : M response :=
  if negb (nonempty username) || negb (nonempty password) then
    ret (false, "Please enter username and password", None)
  else
    user <- User.authenticate sha256_hexdigest sql_eq username password ;;
    match user with
    | Some u =>
        _ <- set_current_user (Some u) ;;
        ret (true,
             ("Welcome back, " ++ UserObject.full_name u ++ "!")%string,
             Some u)
    | None => ret (false, "Invalid username or password", None)
    end.

Definition register
           (username email password confirm_password full_name : string)
  : M response :=
  if negb (forallb nonempty
             [username; email; password; confirm_password; full_name])
  then ret (false, "All fields are required", None)
  else if negb (Helpers.validate_username username) then
    ret (false,
         "Username must be 3-20 characters (letters, numbers, underscore)",
         None)
  else if negb (Helpers.validate_email email) then
    ret (false, "Please enter a valid email address", None)
  else
    let (valid, msg) := Helpers.validate_password password in
    if negb valid then ret (false, msg, None)
    else if negb (String.eqb password confirm_password) then
      ret (false, "Passwords do not match", None)
    else
      ' (exists_, field) <- User.exists_ sql_eq (Some username)
                              (Some email) ;;
      if (exists_ : bool) then
        match field with
        | Some "username" => ret (false, "Username already taken", None)
        | _ => ret (false, "Email already registered", None)
        end
      else
        user <- User.create sha256_hexdigest username email password
                  full_name ;;
        match user with
        | Some u =>
            _ <- set_current_user (Some u) ;;
            ret (true, "Registration successful! Welcome!", Some u)
        | None =>
            ret (false, "Registration failed. Please try again.", None)
        end.

Definition logout : M (bool * string) :=
  _ <- set_current_user None ;;
  ret (true, "Logged out successfully").

Definition is_logged_in : M bool :=
  user <- get_current_user ;;
  ret (is_not_None user).

Definition update_profile (full_name email : option string)
  : M (bool * string) :=
  current <- get_current_user ;;
  match current with
  | None => ret (false, "Not logged in")
  | Some user =>
      let address := match email with Some e => e | None => EmptyString end in
      if truthy_str email && negb (Helpers.validate_email address)
      then ret (false, "Please enter a valid email address")
      else
        taken <-
          (if truthy_str email
              && negb (String.eqb address (UserObject.email user))
           then ' (exists_, _) <- User.exists_ sql_eq None email ;;
                ret (exists_ : bool)
           else ret false) ;;
        if (taken : bool) then ret (false, "Email already registered")
        else
          success <- User.update user full_name email ;;
          if (success : bool) then
            let renamed :=
              match full_name with
              | Some n =>
                  if truthy_str full_name
                  then UserObject.mk (UserObject.user_id user)
                         (UserObject.username user) (UserObject.email user)
                         n (UserObject.is_active user)
                  else user
              | None => user
              end in
            let moved :=
              match email with
              | Some e =>
                  if truthy_str email
                  then UserObject.mk (UserObject.user_id renamed)
                         (UserObject.username renamed) e
                         (UserObject.full_name renamed)
                         (UserObject.is_active renamed)
                  else renamed
              | None => renamed
              end in
            _ <- set_current_user (Some moved) ;;
            ret (true, "Profile updated successfully")
          else ret (false, "Failed to update profile")
  end.

Definition change_password
           (old_password new_password confirm_password : string)
  : M (bool * string) :=
  current <- get_current_user ;;
  match current with
  | None => ret (false, "Not logged in")
  | Some user =>
      if negb (String.eqb new_password confirm_password)
      then ret (false, "New passwords do not match")
      else
        let (valid, msg) := Helpers.validate_password new_password in
        if negb valid then ret (false, msg)
        else User.change_password sha256_hexdigest user old_password
                                  new_password
  end.

End Platform.

End AuthController.

(* ================================================================== *)
(** * Properties                                                        *)
(* ================================================================== *)

(** ** Scenario worlds used to exercise the statements *)

Module Scenario.

Definition food := CategoryRow.mk 1 "Food" "F" "#FF0000".
Definition travel := CategoryRow.mk 2 "Travel" "T" "#00FF00".
Definition bills := CategoryRow.mk 3 "Bills" "B" "#0000FF".

Definition march (d : Z) : date := mkDate 2024 3 d.

(** User 1 has three expenses in March, all in "Food"; user 2 has one
    expense, in "Travel". *)
Definition lunch :=
  ExpenseRow.mk 1 1 1 10000 "lunch" (march 2) "Cash" None.
Definition dinner :=
  ExpenseRow.mk 2 1 1 25050 "dinner" (march 9) "UPI" (Some "team").
Definition snack :=
  ExpenseRow.mk 3 1 1 4950 "snack" (march 21) "Cash" None.
Definition ticket :=
  ExpenseRow.mk 7 2 2 70000 "ticket" (mkDate 2024 4 5) "Credit Card" None.

(** Passwords are stored under the digest [digest]. *)
Definition digest (s : string) : string := ("#" ++ s)%string.

Definition alice :=
  UserRow.mk 1 "alice" "alice@example.com" (digest "wonder1") "Alice" true.
Definition bob :=
  UserRow.mk 2 "bob" "bob@example.com" (digest "builder2") "Bob" true.

Definition w0 : world :=
  mkWorld [alice; bob] [food; travel; bills]
          [lunch; dinner; snack; ticket] true [] None.

Definition offline : world :=
  mkWorld [alice; bob] [food; travel; bills]
          [lunch; dinner; snack; ticket] false [] None.

End Scenario.

(** The primary key of [categories] and the foreign key of [expenses]
    into it, as the schema declares them. *)
Definition category_key (w : world) : Prop :=
  NoDup (map CategoryRow.category_id (categories w)).

Definition expense_key (w : world) : Prop :=
  NoDup (map ExpenseRow.expense_id (expenses w)).

Definition category_reference (w : world) : Prop :=
  forall e, In e (expenses w) ->
            In (ExpenseRow.category_id e)
               (map CategoryRow.category_id (categories w)).

Definition dates_valid (w : world) : Prop :=
  Forall (fun e => valid_date (ExpenseRow.expense_date e)) (expenses w).

(** Sum of a list of amounts. *)
Definition sum (l : list Z) : Z := fold_right Z.add 0 l.

(** Rounding a value in millionths to two decimals (to cents), half to
    even as Python's [round]. *)
Definition round2 (millionths : Z) : Z :=
  let q := millionths / 10000 in
  let r := millionths mod 10000 in
  if r <? 5000 then q
  else if 5000 <? r then q + 1
  else if Z.even q then q else q + 1.

(** The rows an aggregate over [user_id] and an optional date range
    ranges over. *)
Definition in_filters (user_id : Z) (start_date end_date : option date)
           (e : ExpenseRow.t) : bool :=
  (ExpenseRow.user_id e =? user_id)
  && Expense.and_dates start_date end_date e.

(** The row with key [expense_id] held by [user_id]. *)
Definition owned (expense_id user_id : Z) (e : ExpenseRow.t) : bool :=
  (ExpenseRow.expense_id e =? expense_id)
  && (ExpenseRow.user_id e =? user_id).

Definition others (user_id : Z) (e : ExpenseRow.t) : bool :=
  negb (ExpenseRow.user_id e =? user_id).

(** The first entry of a list of (passed, message) checks that did not
    pass. *)
Definition first_failure (checks : list (bool * string))
  : option (bool * string) :=
  find (fun c => negb (fst c)) checks.


Section RegistrationChecks.
Variable sql_eq : string -> string -> bool.
Variable w : world.
Variables username email password confirm_password full_name : string.

Definition username_taken : bool :=
  online w
  && existsb (fun r => sql_eq (UserRow.username r) username) (users w).

Definition email_taken : bool :=
  online w
  && existsb (fun r => sql_eq (UserRow.email r) email) (users w).

(** The checks of registration from the user name on, each with the
    message of its failure; [name_ok] and [address_ok] are the outcomes
    of the two pattern checks. *)
Definition checks_from_name (name_ok address_ok : bool)
  : list (bool * string) :=
  [ (name_ok,
     "Username must be 3-20 characters (letters, numbers, underscore)");
    (address_ok, "Please enter a valid email address");
    ((6 <=? String.length password)%nat,
     "Password must be at least 6 characters");
    (Re.search Re.letter password,
     "Password must contain at least one letter");
    (Re.search Re.digit password,
     "Password must contain at least one number");
    (String.eqb password confirm_password, "Passwords do not match");
    (negb username_taken, "Username already taken");
    (negb email_taken, "Email already registered") ].

(** The guard on empty fields. *)
Definition all_fields : bool * string :=
  (forallb nonempty
     [username; email; password; confirm_password; full_name],
   "All fields are required").






(** The checks as [register] makes them, through the validators. *)
Definition register_checks : list (bool * string) :=
  all_fields
    :: checks_from_name (Helpers.validate_username username)
                        (Helpers.validate_email email).
End RegistrationChecks.

Section LoginCases.
Variable sha256_hexdigest : string -> string.
Variable sql_eq : string -> string -> bool.
Variable w : world.

(** No active account goes by the name. *)
Definition unknown_user (username : string) : Prop :=
  forall r, In r (users w) -> User.login_match sql_eq username r = false.

(** An active account goes by the name, and the password is not the
    one of the account the name selects. *)
Definition wrong_password (username password : string) : Prop :=
  exists r rest,
    filter (User.login_match sql_eq username) (users w) = r :: rest
    /\ Helpers.hash_password sha256_hexdigest password
       <> UserRow.password r.
End LoginCases.

(** A column after an update: the supplied value, or the value it had. *)
Definition kept_or_set {A} (supplied : option A) (before after : A) : Prop :=
  match supplied with
  | Some v => after = v
  | None => after = before
  end.

(** The amount that [update_expense] passes on to [Expense.update]. *)
Definition supplied_amount (kw : ExpenseController.kwargs) : option Z :=
  match ExpenseController.amount kw with
  | Some (ExpenseController.Number a) => Some a
  | _ => None
  end.

(** [new] is what a partial update of the row with key [expense_id] by
    the fields of [kw] makes of [old]: another row is left as it is, and
    in the row itself a column changes only if it is supplied. *)
Definition partial_update (expense_id : Z) (kw : ExpenseController.kwargs)
           (old new : ExpenseRow.t) : Prop :=
  ExpenseRow.expense_id new = ExpenseRow.expense_id old
  /\ ExpenseRow.user_id new = ExpenseRow.user_id old
  /\ if ExpenseRow.expense_id old =? expense_id then
       kept_or_set (ExpenseController.category_id kw)
                   (ExpenseRow.category_id old) (ExpenseRow.category_id new)
       /\ kept_or_set (supplied_amount kw)
                      (ExpenseRow.amount old) (ExpenseRow.amount new)
       /\ kept_or_set (ExpenseController.description kw)
                      (ExpenseRow.description old)
                      (ExpenseRow.description new)
       /\ kept_or_set (ExpenseController.expense_date kw)
                      (ExpenseRow.expense_date old)
                      (ExpenseRow.expense_date new)
       /\ kept_or_set (ExpenseController.payment_method kw)
                      (ExpenseRow.payment_method old)
                      (ExpenseRow.payment_method new)
       /\ match ExpenseController.notes kw with
          | Some v => ExpenseRow.notes new = Some v
          | None => ExpenseRow.notes new = ExpenseRow.notes old
          end
     else new = old.

(** The rows whose key is not [expense_id]. *)
Definition other_keys (expense_id : Z) (e : ExpenseRow.t) : bool :=
  negb (ExpenseRow.expense_id e =? expense_id).

(** The amounts [get_expense_stats] aggregates. *)
Definition stats_amounts (user_id : Z) (start_date end_date : option date)
           (w : world) : list Z :=
  map ExpenseRow.amount
      (filter (in_filters user_id start_date end_date) (expenses w)).

(** An update that names no field. *)
Definition no_fields : ExpenseController.kwargs :=
  ExpenseController.mkKwargs None None None None None None.

(** The entry of category [c]: its columns, the sum of the amounts of
    the expenses of the user in the range that belong to it, and their
    number. *)
Definition category_entry (user_id : Z) (start_date end_date : option date)
           (w : world) (c : CategoryRow.t) : CategoryTotal.t :=
  let matching :=
    filter (Expense.on_category user_id start_date end_date c)
           (expenses w) in
  CategoryTotal.mk (CategoryRow.category_id c) (CategoryRow.category_name c)
                   (CategoryRow.icon c) (CategoryRow.color c)
                   (sum (map ExpenseRow.amount matching))
                   (Z.of_nat (List.length matching)).

(** The entry of month [m] of a year: the sum and the number of the
    expenses of the user dated in that month of the year. *)
Definition month_entry (user_id year_ : Z) (w : world) (m : Z)
  : MonthTotal.t :=
  let matching :=
    filter (fun e => Expense.in_year user_id year_ e
                     && (month (ExpenseRow.expense_date e) =? m))
           (expenses w) in
  MonthTotal.mk m (sum (map ExpenseRow.amount matching))
                (Z.of_nat (List.length matching)).

(** The world with the expenses of [user_id] alone. *)
Definition own_rows (user_id : Z) (w : world) : world :=
  set_expenses (filter (fun e => ExpenseRow.user_id e =? user_id)
                       (expenses w)) w.

(** The stored row behind an [Expense] object. *)
Definition row_of (x : ExpenseObject.t) : ExpenseRow.t :=
  ExpenseRow.mk (ExpenseObject.expense_id x) (ExpenseObject.user_id x)
                (ExpenseObject.category_id x) (ExpenseObject.amount x)
                (ExpenseObject.description x)
                (ExpenseObject.expense_date x)
                (ExpenseObject.payment_method x) (ExpenseObject.notes x).

(** No two rows of [users] carry the same user name, or the same
    address, under the collation. *)
Definition names_distinct (sql_eq : string -> string -> bool)
           (l : list UserRow.t) : Prop :=
  ForallOrdPairs
    (fun a b => sql_eq (UserRow.username a) (UserRow.username b) = false) l.

Definition addresses_distinct (sql_eq : string -> string -> bool)
           (l : list UserRow.t) : Prop :=
  ForallOrdPairs
    (fun a b => sql_eq (UserRow.email a) (UserRow.email b) = false) l.

(** The primary key of [users]. *)
Definition user_key (w : world) : Prop :=
  NoDup (map UserRow.user_id (users w)).

(** The cached [_current_user] agrees with every stored row that
    carries its key. *)
Definition session_coherent (w : world) : Prop :=
  forall u, current_user w = Some u ->
            forall r, In r (users w) ->
                      UserRow.user_id r = UserObject.user_id u ->
                      User.of_row r = u.

(** The row of [users] with the stored hash replaced. *)
Definition with_password (hashed : string) (r : UserRow.t) : UserRow.t :=
  UserRow.mk (UserRow.user_id r) (UserRow.username r) (UserRow.email r)
             hashed (UserRow.full_name r) (UserRow.is_active r).

(** The session of a world in which [u] is logged in. *)
Definition logged_in (u : UserObject.t) (w : world) : world :=
  world_of (set_current_user (Some u) w).

(** A text column after [update_profile]: the supplied value when one
    is supplied and is not empty, or the value it had. *)
Definition supplied_text (supplied : option string) (before : string)
  : string :=
  match supplied with
  | Some s => if nonempty s then s else before
  | None => before
  end.

(** A row of [users], and a [User] object, after a change of profile. *)
Definition profile_row (full_name email : option string) (r : UserRow.t)
  : UserRow.t :=
  UserRow.mk (UserRow.user_id r) (UserRow.username r)
             (supplied_text email (UserRow.email r)) (UserRow.password r)
             (supplied_text full_name (UserRow.full_name r))
             (UserRow.is_active r).

Definition profile_object (full_name email : option string)
           (u : UserObject.t) : UserObject.t :=
  UserObject.mk (UserObject.user_id u) (UserObject.username u)
                (supplied_text email (UserObject.email u))
                (supplied_text full_name (UserObject.full_name u))
                (UserObject.is_active u).

(** Equality of dates. *)
Definition date_eqb (a b : date) : bool :=
  (year a =? year b) && (month a =? month b) && (day a =? day b).

(** The expenses of a user dated on the day [d]. *)
Definition dated (user_id : Z) (d : date) (e : ExpenseRow.t) : bool :=
  (ExpenseRow.user_id e =? user_id)
  && date_eqb (ExpenseRow.expense_date e) d.

(** Two rows that agree in every column but the amount. *)
Definition same_but_amount (a b : ExpenseRow.t) : Prop :=
  ExpenseRow.expense_id a = ExpenseRow.expense_id b
  /\ ExpenseRow.user_id a = ExpenseRow.user_id b
  /\ ExpenseRow.category_id a = ExpenseRow.category_id b
  /\ ExpenseRow.description a = ExpenseRow.description b
  /\ ExpenseRow.expense_date a = ExpenseRow.expense_date b
  /\ ExpenseRow.payment_method a = ExpenseRow.payment_method b
  /\ ExpenseRow.notes a = ExpenseRow.notes b.

(** The rows that the WHERE clause of [get_user_expenses] selects. *)
Definition selected (user_id : Z) (start_date end_date : option date)
           (category_id : option Z) (w : world)
  : list (ExpenseRow.t * CategoryRow.t) :=
  filter (fun d => (ExpenseRow.user_id (fst d) =? user_id)
                   && Expense.and_dates start_date end_date (fst d)
                   && Expense.and_category category_id (fst d))
         (Expense.expenses_with_category w).

(** A list that the server may return for [rows] under ORDER BY
    expense_date DESC, created_at DESC: the rows, each of them allowed
    to stand before all that follow it. Rows that tie may come in
    either order. *)
Definition newest_first_order (created_at : ExpenseRow.t -> Z)
           (rows result : list (ExpenseRow.t * CategoryRow.t)) : Prop :=
  Permutation result rows
  /\ StronglySorted
       (fun a b => Expense.newest_first created_at a b = true) result.

(** No two expenses of the user tie in that order: they differ in the
    date or in [created_at]. *)
Definition no_ties (created_at : ExpenseRow.t -> Z) (user_id : Z)
           (w : world) : Prop :=
  forall e1 e2,
    In e1 (expenses w) -> In e2 (expenses w) ->
    ExpenseRow.user_id e1 = user_id -> ExpenseRow.user_id e2 = user_id ->
    ExpenseRow.expense_date e1 = ExpenseRow.expense_date e2 ->
    created_at e1 = created_at e2 ->
    e1 = e2.

(** Case analysis on every comparison of integers in the goal. *)
Ltac compare_all :=
  repeat match goal with
         | |- context [?a <? ?b] => destruct (Z.ltb_spec a b)
         | |- context [?a <=? ?b] => destruct (Z.leb_spec a b)
         | |- context [?a =? ?b] => destruct (Z.eqb_spec a b)
         end;
  cbn [andb orb negb]; try reflexivity; try lia; try (exfalso; lia).

(* ------------------------------------------------------------------ *)
(** ** Lists, sums and aggregates                                       *)
(* ------------------------------------------------------------------ *)

Lemma coalesce_sum (l : list Z) : SQL.COALESCE (SQL.SUM l) 0 = sum l.
Proof. destruct l; reflexivity. Qed.

Lemma sum_perm (l1 l2 : list Z) : Permutation l1 l2 -> sum l1 = sum l2.
Proof.
  induction 1; unfold sum in *; simpl; lia.
Qed.

Lemma filter_none {A} (p : A -> bool) (l : list A) :
  (forall x, In x l -> p x = false) -> filter p l = [].
Proof.
  induction l as [|a l IH]; intros H; simpl; [reflexivity|].
  rewrite (H a (or_introl eq_refl)). apply IH.
  intros x Hx. apply H. now right.
Qed.

Lemma filter_all {A} (p : A -> bool) (l : list A) :
  (forall x, In x l -> p x = true) -> filter p l = l.
Proof.
  induction l as [|a l IH]; intros H; simpl; [reflexivity|].
  rewrite (H a (or_introl eq_refl)). f_equal. apply IH.
  intros x Hx. apply H. now right.
Qed.

Lemma in_join {A B} (on : A -> B -> bool) (l : list A) (r : list B) a b :
  In (a, b) (SQL.join on l r) -> In a l /\ In b r /\ on a b = true.
Proof.
  unfold SQL.join. rewrite in_flat_map.
  intros [a' [Ha Hin]]. rewrite in_map_iff in Hin.
  destruct Hin as [b' [Heq Hb]]. inversion Heq; subst.
  apply filter_In in Hb. tauto.
Qed.

(** A permutation of three known amounts is one of their six orders. *)
Lemma perm3_cases (l : list Z) (a b c : Z) :
  Permutation l [a; b; c] ->
  l = [a; b; c] \/ l = [a; c; b] \/ l = [b; a; c]
  \/ l = [b; c; a] \/ l = [c; a; b] \/ l = [c; b; a].
Proof.
  intros H.
  pose proof (Permutation_length H) as Hlen.
  destruct l as [|x [|y [|z [|? ?]]]]; simpl in Hlen; try discriminate.
  clear Hlen.
  assert (Hx : In x [a; b; c])
    by (eapply Permutation_in; [exact H | now left]).
  destruct Hx as [Hx | [Hx | [Hx | []]]]; subst x.
  - apply Permutation_cons_inv in H.
    apply Permutation_length_2_inv in H.
    destruct H as [H|H]; inversion H; subst; auto 10.
  - apply (@Permutation_cons_app_inv _ _ [a] [c]) in H. simpl in H.
    apply Permutation_length_2_inv in H.
    destruct H as [H|H]; inversion H; subst; auto 10.
  - apply (@Permutation_cons_app_inv _ _ [a; b] []) in H. simpl in H.
    apply Permutation_length_2_inv in H.
    destruct H as [H|H]; inversion H; subst; auto 10.
Qed.

(* ------------------------------------------------------------------ *)
(** ** Statistics of a date range                                       *)
(* ------------------------------------------------------------------ *)

Lemma get_expense_stats_online w user_id start_date end_date :
  online w = true ->
  result_of (Expense.get_expense_stats user_id start_date end_date w)
  = Expense.stats_row (stats_amounts user_id start_date end_date w).
Proof.
  intros Hon. unfold Expense.get_expense_stats, bind, ret,
    Database.execute_query, result_of.
  rewrite Hon. reflexivity.
Qed.

(** C9, as stated, fails: with the three expenses 100.00, 250.50 and
    49.50 of user 1 in March 2024, the average that [get_expense_stats]
    returns is 133.333333, which rounds to 133.33 and not to 133.50. *)
Lemma stats_average_not_133_50 :
  let s := result_of (Expense.get_expense_stats 1
                        (Some (mkDate 2024 3 1)) (Some (mkDate 2024 3 31))
                        Scenario.w0) in
  stats_amounts 1 (Some (mkDate 2024 3 1)) (Some (mkDate 2024 3 31))
                Scenario.w0 = [10000; 25050; 4950]
  /\ Stats.average s = 133333333
  /\ round2 (Stats.average s) = 13333
  /\ round2 (Stats.average s) <> 13350.
Proof. vm_compute. repeat split; congruence. Qed.

(** C9, amended: for a user whose expenses in the queried range are
    exactly three, of amounts 100.00, 250.50 and 49.50 in any order,
    [get_expense_stats] returns total 400.00, average 133.333333 (133.33
    when rounded to two decimals), max 250.50, min 49.50 and count 3. *)
Theorem stats_of_three_expenses w user_id start_date end_date :
  online w = true ->
  Permutation (stats_amounts user_id start_date end_date w)
              [10000; 25050; 4950] ->
  let s := result_of
             (Expense.get_expense_stats user_id start_date end_date w) in
  Stats.total s = 40000
  /\ Stats.average s = 133333333
  /\ round2 (Stats.average s) = 13333
  /\ Stats.max_expense s = 25050
  /\ Stats.min_expense s = 4950
  /\ Stats.count s = 3.
Proof.
  intros Hon Hperm s. subst s.
  rewrite (get_expense_stats_online _ _ _ _ Hon).
  apply perm3_cases in Hperm.
  destruct Hperm as [H|[H|[H|[H|[H|H]]]]]; rewrite H;
    vm_compute; repeat split; reflexivity.
Qed.

Lemma stats_of_three_expenses_witness :
  let s := result_of (Expense.get_expense_stats 1
                        (Some (mkDate 2024 3 1)) (Some (mkDate 2024 3 31))
                        Scenario.w0) in
  Stats.total s = 40000
  /\ Stats.average s = 133333333
  /\ round2 (Stats.average s) = 13333
  /\ Stats.max_expense s = 25050
  /\ Stats.min_expense s = 4950
  /\ Stats.count s = 3.
Proof.
  apply (stats_of_three_expenses Scenario.w0 1
           (Some (mkDate 2024 3 1)) (Some (mkDate 2024 3 31))).
  - reflexivity.
  - vm_compute. apply Permutation_refl.
Defined.

(* ------------------------------------------------------------------ *)
(** ** Updates without fields                                           *)
(* ------------------------------------------------------------------ *)

Lemma get_by_id_tables expense_id user_id w :
  let w' := world_of (Expense.get_by_id expense_id user_id w) in
  users w' = users w /\ categories w' = categories w
  /\ expenses w' = expenses w /\ current_user w' = current_user w
  /\ online w' = online w.
Proof.
  unfold Expense.get_by_id, bind, ret, Database.execute_query, world_of.
  destruct (online w) eqn:Hon; simpl; auto.
Qed.

(** C10: [Expense.update] with every optional argument absent, and
    [User.update] with both arguments absent, return [False] and leave
    the world as it was: no row changes and no statement reaches the
    server. Through the controller, an update that names no field is
    answered with a failure and changes no table. *)
Theorem update_without_fields_fails w :
  (forall self : ExpenseObject.t,
      Expense.update self None None None None None None w = (false, w))
  /\ (forall self : UserObject.t, User.update self None None w = (false, w))
  /\ (forall expense_id user_id,
         let r := ExpenseController.update_expense expense_id user_id
                    no_fields w in
         fst (result_of r) = false
         /\ expenses (world_of r) = expenses w
         /\ users (world_of r) = users w
         /\ categories (world_of r) = categories w).
Proof.
  split; [reflexivity | split; [reflexivity|]].
  intros expense_id user_id r. subst r.
  pose proof (get_by_id_tables expense_id (Some user_id) w) as Ht.
  unfold ExpenseController.update_expense, bind, result_of, world_of in *.
  destruct (Expense.get_by_id expense_id (Some user_id) w) as [[x|] w'];
    simpl in *; tauto.
Qed.

(* ------------------------------------------------------------------ *)
(** ** Deleting by id and user                                          *)
(* ------------------------------------------------------------------ *)

(** C4, as stated, fails: user 1 asks to delete expense 7, which user 2
    owns. No row is removed, and yet the call reports success, with the
    same answer that user 2 gets for the deletion that does remove the
    row. *)
Lemma delete_of_foreign_row_reports_success :
  let r := ExpenseController.delete_expense 7 1 Scenario.w0 in
  In Scenario.ticket (expenses Scenario.w0)
  /\ ExpenseRow.expense_id Scenario.ticket = 7
  /\ ExpenseRow.user_id Scenario.ticket = 2
  /\ expenses (world_of r) = expenses Scenario.w0
  /\ result_of r = (true, "Expense deleted successfully!")
  /\ result_of (Expense.delete_by_id 7 1 Scenario.w0) = true
  /\ result_of r
     = result_of (ExpenseController.delete_expense 7 2 Scenario.w0)
  /\ expenses (world_of (ExpenseController.delete_expense 7 2 Scenario.w0))
     = [Scenario.lunch; Scenario.dinner; Scenario.snack].
Proof. vm_compute. intuition. Qed.

Lemma filter_others_not_owned expense_id user_id (es : list ExpenseRow.t) :
  filter (others user_id)
         (filter (fun e => negb (owned expense_id user_id e)) es)
  = filter (others user_id) es.
Proof.
  induction es as [|e es IH]; simpl; [reflexivity|].
  unfold owned, others in *.
  destruct (ExpenseRow.expense_id e =? expense_id),
           (ExpenseRow.user_id e =? user_id) eqn:Hu; simpl;
    rewrite ?Hu; simpl; rewrite IH; reflexivity.
Qed.

(** C4, amended: [delete_by_id] removes exactly the rows that match both
    the expense id and the user id, so a row of another user is never
    removed; it reports success exactly when the statement was carried
    out, whether or not a row matched, and [delete_expense] words its
    answer accordingly. *)
Theorem delete_by_id_reports_execution w expense_id user_id :
  let r := Expense.delete_by_id expense_id user_id w in
  result_of r = online w
  /\ expenses (world_of r)
     = (if online w
        then filter (fun e => negb (owned expense_id user_id e)) (expenses w)
        else expenses w)
  /\ filter (others user_id) (expenses (world_of r))
     = filter (others user_id) (expenses w)
  /\ result_of (ExpenseController.delete_expense expense_id user_id w)
     = (if online w then (true, "Expense deleted successfully!")
        else (false, "Failed to delete expense"))
  /\ world_of (ExpenseController.delete_expense expense_id user_id w)
     = world_of r.
Proof.
  unfold ExpenseController.delete_expense, Expense.delete_by_id, bind, ret,
    Database.execute_update, result_of, world_of.
  destruct (online w) eqn:Hon; cbn [fst snd is_not_None].
  - cbn [expenses log set_expenses].
    repeat split; try reflexivity.
    apply filter_others_not_owned.
  - repeat split; reflexivity.
Qed.

(* ------------------------------------------------------------------ *)
(** ** ORDER BY and GROUP BY                                            *)
(* ------------------------------------------------------------------ *)

Section OrderBy.
Context {R : Type} (before : R -> R -> bool).

Lemma insert_perm x l : Permutation (SQL.insert before x l) (x :: l).
Proof.
  induction l as [|y t IH]; simpl; [apply Permutation_refl|].
  destruct (before x y); [apply Permutation_refl|].
  eapply perm_trans; [apply perm_skip, IH | apply perm_swap].
Qed.

Lemma order_by_perm l : Permutation (SQL.order_by before l) l.
Proof.
  induction l as [|x t IH]; simpl; [constructor|].
  eapply perm_trans; [apply insert_perm | now apply perm_skip].
Qed.

Lemma in_order_by x l : In x (SQL.order_by before l) <-> In x l.
Proof.
  split; apply Permutation_in;
    [apply order_by_perm | apply Permutation_sym, order_by_perm].
Qed.

Hypothesis before_total :
  forall a b, before a b = false -> before b a = true.
Hypothesis before_trans :
  forall a b c, before a b = true -> before b c = true ->
                before a c = true.

Let precedes (a b : R) : Prop := before a b = true.

Lemma insert_sorted x l :
  StronglySorted precedes l ->
  StronglySorted precedes (SQL.insert before x l).
Proof.
  induction 1 as [|y t Hs IH Hall]; simpl.
  - repeat constructor.
  - destruct (before x y) eqn:Hxy.
    + constructor; [now constructor|].
      constructor; [exact Hxy|].
      eapply Forall_impl; [|exact Hall].
      intros z Hyz. eapply before_trans; eassumption.
    + constructor; [exact IH|].
      rewrite Forall_forall in *. intros z Hz.
      apply (Permutation_in _ (insert_perm x t)) in Hz.
      destruct Hz as [<-|Hz]; [now apply before_total | now apply Hall].
Qed.

Lemma order_by_sorted l : StronglySorted precedes (SQL.order_by before l).
Proof.
  induction l as [|x t IH]; simpl; [constructor | now apply insert_sorted].
Qed.
End OrderBy.

Lemma strongly_sorted_weaken {A} (P Q : A -> A -> Prop) (l : list A) :
  (forall a b, P a b -> Q a b) -> StronglySorted P l -> StronglySorted Q l.
Proof.
  intros Himp. induction 1 as [|a l Hs IH Hall]; constructor; [exact IH|].
  eapply Forall_impl; [|exact Hall]. intros b. apply Himp.
Qed.

Lemma in_group_by {R} (key : R -> Z) (rows : list R) k g :
  In (k, g) (SQL.group_by key rows) ->
  In k (map key rows) /\ g = filter (fun r => key r =? k) rows.
Proof.
  unfold SQL.group_by. rewrite in_map_iff.
  intros [k' [Heq Hin]]. inversion Heq; subst.
  apply nodup_In in Hin. auto.
Qed.

(** Grouping the concatenation of blocks, each block non-empty and
    carrying the key of its origin, under pairwise distinct keys: the
    groups are the blocks. *)
Section GroupBlocks.
Context {A R : Type} (id : A -> Z) (key : R -> Z) (block : A -> list R).
Hypothesis block_key : forall a r, In r (block a) -> key r = id a.
Hypothesis block_nonempty : forall a, block a <> [].

Lemma keys_of_blocks l k :
  In k (map key (flat_map block l)) -> In k (map id l).
Proof.
  rewrite in_map_iff. intros [r [Hk Hr]].
  apply in_flat_map in Hr. destruct Hr as [a [Ha Hr]].
  rewrite in_map_iff. exists a. split; [|exact Ha].
  rewrite <- Hk. symmetry. now apply block_key.
Qed.

Lemma nodup_constant_prefix (l1 l2 : list Z) k :
  l1 <> [] -> (forall x, In x l1 -> x = k) -> ~ In k l2 ->
  nodup Z.eq_dec (l1 ++ l2) = k :: nodup Z.eq_dec l2.
Proof.
  induction l1 as [|x [|y t] IH]; intros Hne Hall Hnot;
    [congruence | |].
  - simpl. rewrite (Hall x (or_introl eq_refl)).
    destruct (in_dec Z.eq_dec k l2); [contradiction | reflexivity].
  - assert (Hx : x = k) by (apply Hall; now left).
    assert (Hy : y = k) by (apply Hall; right; now left).
    change ((x :: y :: t) ++ l2) with (x :: ((y :: t) ++ l2)).
    cbn [nodup].
    destruct (in_dec Z.eq_dec x ((y :: t) ++ l2)) as [_|Hn].
    + apply IH; [discriminate | | exact Hnot].
      intros z Hz. apply Hall. now right.
    + exfalso. apply Hn. subst. now left.
Qed.

Lemma distinct_keys_of_blocks l :
  NoDup (map id l) ->
  nodup Z.eq_dec (map key (flat_map block l)) = map id l.
Proof.
  induction l as [|a l IH]; intros Hnd; [reflexivity|].
  inversion Hnd as [|? ? Hnot Hnd']; subst.
  simpl. rewrite map_app.
  rewrite nodup_constant_prefix with (k := id a).
  - now rewrite IH.
  - intros Hnil. apply map_eq_nil in Hnil. now apply block_nonempty in Hnil.
  - intros x Hx. rewrite in_map_iff in Hx.
    destruct Hx as [r [<- Hr]]. now apply block_key.
  - intros Hin. apply Hnot. now apply keys_of_blocks.
Qed.

Lemma group_of_block l a :
  NoDup (map id l) -> In a l ->
  filter (fun r => key r =? id a) (flat_map block l) = block a.
Proof.
  induction l as [|b l IH]; intros Hnd Hin; [contradiction|].
  inversion Hnd as [|? ? Hnot Hnd']; subst.
  simpl. rewrite filter_app.
  destruct Hin as [->|Hin].
  - rewrite filter_all, filter_none, app_nil_r; [reflexivity | |].
    + intros r Hr. apply in_flat_map in Hr. destruct Hr as [c [Hc Hr]].
      apply Z.eqb_neq. rewrite (block_key _ _ Hr). intros Heq.
      apply Hnot. rewrite <- Heq. now apply in_map.
    + intros r Hr. apply Z.eqb_eq. now apply block_key.
  - rewrite filter_none; [now apply IH|].
    intros r Hr. apply Z.eqb_neq. rewrite (block_key _ _ Hr).
    intros Heq. apply Hnot. rewrite Heq. now apply in_map.
Qed.

Lemma group_by_blocks l :
  NoDup (map id l) ->
  SQL.group_by key (flat_map block l) = map (fun a => (id a, block a)) l.
Proof.
  intros Hnd. unfold SQL.group_by.
  rewrite distinct_keys_of_blocks by exact Hnd. rewrite map_map.
  apply map_ext_in. intros a Ha. now rewrite group_of_block.
Qed.
End GroupBlocks.

(* ------------------------------------------------------------------ *)
(** ** Monthly totals                                                   *)
(* ------------------------------------------------------------------ *)

Section DictFacts.
Context {V : Type}.

Lemma dict_set_keys k (v : V) d :
  In k (map fst d) -> map fst (Dict.set k v d) = map fst d.
Proof.
  induction d as [|[k' v'] d IH]; simpl; [contradiction|].
  intros Hin. destruct (k' =? k) eqn:Hk.
  - apply Z.eqb_eq in Hk. now subst.
  - simpl. f_equal. apply IH. destruct Hin as [Heq|Hin]; [|exact Hin].
    apply Z.eqb_neq in Hk. contradiction.
Qed.

Lemma dict_set_entries (P : Z -> V -> Prop) k v d :
  P k v -> Forall (fun kv => P (fst kv) (snd kv)) d ->
  Forall (fun kv => P (fst kv) (snd kv)) (Dict.set k v d).
Proof.
  intros Hp. induction 1 as [|[k' v'] d Hkv Hd IH]; simpl.
  - now repeat constructor.
  - destruct (k' =? k); constructor; auto.
Qed.

Lemma dict_get_set_other k k' (v : V) d :
  k <> k' -> Dict.get k' (Dict.set k v d) = Dict.get k' d.
Proof.
  intros Hne. induction d as [|[k0 v0] d IH]; simpl.
  - destruct (k =? k') eqn:Hk; [apply Z.eqb_eq in Hk; contradiction|].
    reflexivity.
  - destruct (k0 =? k) eqn:Hk0; simpl.
    + apply Z.eqb_eq in Hk0. subst k0.
      destruct (k =? k') eqn:Hk; [apply Z.eqb_eq in Hk; contradiction|].
      reflexivity.
    + now rewrite IH.
Qed.

Lemma dict_get_value k (v : V) d :
  Dict.get k d = Some v -> In v (Dict.values d).
Proof.
  induction d as [|[k0 v0] d IH]; simpl; [discriminate|].
  destruct (k0 =? k); [intros [= ->]; now left | right; now apply IH].
Qed.
End DictFacts.

Lemma fill_keys rows d :
  (forall row, In row rows -> In (MonthTotal.month row) (map fst d)) ->
  map fst (Expense.fill rows d) = map fst d.
Proof.
  revert d. induction rows as [|row rows IH]; intros d H; [reflexivity|].
  simpl. rewrite IH.
  - apply dict_set_keys, H. now left.
  - intros r Hr. rewrite dict_set_keys by (apply H; now left).
    apply H. now right.
Qed.

Lemma fill_entries rows d :
  Forall (fun kv => MonthTotal.month (snd kv) = fst kv) d ->
  Forall (fun kv => MonthTotal.month (snd kv) = fst kv) (Expense.fill rows d).
Proof.
  revert d. induction rows as [|row rows IH]; intros d H; [exact H|].
  simpl. apply IH.
  now apply (dict_set_entries (fun k v => MonthTotal.month v = k)).
Qed.

Lemma fill_get_other rows d m :
  ~ In m (map MonthTotal.month rows) ->
  Dict.get m (Expense.fill rows d) = Dict.get m d.
Proof.
  revert d. induction rows as [|row rows IH]; intros d H; [reflexivity|].
  simpl in *. rewrite IH by tauto.
  apply dict_get_set_other. tauto.
Qed.

(** Every row of the SELECT of [get_monthly_totals] carries the month of
    an expense of the user in the year. *)
Lemma monthly_rows_month user_id year_ w row :
  In row (Expense.monthly_rows user_id year_ w) ->
  exists e, In e (expenses w)
            /\ Expense.in_year user_id year_ e = true
            /\ month (ExpenseRow.expense_date e) = MonthTotal.month row.
Proof.
  unfold Expense.monthly_rows. rewrite in_order_by, in_map_iff.
  intros [[k g] [Hrow Hin]]. apply in_group_by in Hin.
  destruct Hin as [Hk _]. rewrite in_map_iff in Hk.
  destruct Hk as [e [Hm He]]. apply filter_In in He.
  exists e. subst row. simpl. tauto.
Qed.

(** C1: for every user and year, [get_monthly_totals] returns exactly 12
    entries, whose months are 1, 2, ..., 12 in this order, and the entry
    of a month in which the user has no expense of that year is total 0
    and count 0. The dates stored in [expenses] are calendar dates. *)
Theorem get_monthly_totals_twelve w user_id year_ :
  dates_valid w ->
  let r := result_of (Expense.get_monthly_totals user_id year_ w) in
  List.length r = 12%nat
  /\ map MonthTotal.month r = [1; 2; 3; 4; 5; 6; 7; 8; 9; 10; 11; 12]
  /\ forall m, 1 <= m <= 12 ->
       (forall e, In e (expenses w) ->
                  Expense.in_year user_id year_ e = true ->
                  month (ExpenseRow.expense_date e) <> m) ->
       In (MonthTotal.mk m 0 0) r.
Proof.
  intros Hvalid r.
  set (zero := map (fun i => (i, MonthTotal.mk i 0 0)) (range 1 13)).
  assert (Hr : exists rows,
             r = Dict.values (Expense.fill rows zero)
             /\ forall row, In row rows ->
                  exists e, In e (expenses w)
                    /\ Expense.in_year user_id year_ e = true
                    /\ month (ExpenseRow.expense_date e)
                       = MonthTotal.month row).
  { subst r. unfold Expense.get_monthly_totals, bind, ret,
      Database.execute_query, result_of.
    destruct (online w).
    - exists (Expense.monthly_rows user_id year_ w). split; [reflexivity|].
      intros row. apply monthly_rows_month.
    - exists []. split; [reflexivity | contradiction]. }
  destruct Hr as [rows [-> Hrows]].
  assert (Hkeys : map fst (Expense.fill rows zero)
                  = [1; 2; 3; 4; 5; 6; 7; 8; 9; 10; 11; 12]).
  { rewrite fill_keys; [reflexivity|].
    intros row Hrow. destruct (Hrows row Hrow) as [e [He [_ Hm]]].
    unfold dates_valid in Hvalid. rewrite Forall_forall in Hvalid.
    destruct (Hvalid e He) as [Hmonth _]. rewrite <- Hm.
    change (map fst zero) with [1; 2; 3; 4; 5; 6; 7; 8; 9; 10; 11; 12].
    simpl. lia. }
  assert (Hmonths : map MonthTotal.month (Dict.values (Expense.fill rows zero))
                    = map fst (Expense.fill rows zero)).
  { unfold Dict.values. rewrite map_map.
    apply map_ext_in. intros kv Hkv.
    assert (Hall := @fill_entries rows zero).
    rewrite !Forall_forall in Hall. apply Hall; [|exact Hkv].
    intros kv0 Hkv0. unfold zero in Hkv0. rewrite in_map_iff in Hkv0.
    destruct Hkv0 as [i [<- _]]. reflexivity. }
  split; [|split].
  - unfold Dict.values. rewrite length_map, <- (length_map fst), Hkeys.
    reflexivity.
  - now rewrite Hmonths.
  - intros m Hm Hnone. apply dict_get_value with (k := m).
    rewrite fill_get_other.
    + unfold zero. change (range 1 13)
        with [1; 2; 3; 4; 5; 6; 7; 8; 9; 10; 11; 12].
      assert (Hcases : m = 1 \/ m = 2 \/ m = 3 \/ m = 4 \/ m = 5 \/ m = 6
                       \/ m = 7 \/ m = 8 \/ m = 9 \/ m = 10 \/ m = 11
                       \/ m = 12) by lia.
      repeat (destruct Hcases as [->|Hcases]; [reflexivity|]).
      subst m. reflexivity.
    + rewrite in_map_iff. intros [row [Hrm Hrow]].
      destruct (Hrows row Hrow) as [e [He [Hy Hme]]].
      apply (Hnone e He Hy). congruence.
Qed.

Lemma get_monthly_totals_twelve_witness :
  let r := result_of (Expense.get_monthly_totals 1 2024 Scenario.w0) in
  List.length r = 12%nat
  /\ map MonthTotal.month r = [1; 2; 3; 4; 5; 6; 7; 8; 9; 10; 11; 12]
  /\ In (MonthTotal.mk 4 0 0) r
  /\ In (MonthTotal.mk 3 40000 3) r.
Proof.
  destruct (get_monthly_totals_twelve (w := Scenario.w0) 1 2024)
    as [Hlen [Hmonths Hzero]].
  - unfold dates_valid, valid_date. simpl.
    repeat constructor; simpl; lia.
  - split; [exact Hlen | split; [exact Hmonths | split]].
    + apply Hzero; [lia|].
      intros e He Hy. simpl in He.
      destruct He as [<-|[<-|[<-|[<-|[]]]]]; simpl; try lia.
      discriminate Hy.
    + vm_compute. tauto.
Defined.

(* ------------------------------------------------------------------ *)
(** ** Totals by category                                               *)
(* ------------------------------------------------------------------ *)

Lemma non_null_some (c : CategoryRow.t) (es : list ExpenseRow.t) :
  Expense.non_null (map (fun e => (c, Some e)) es) = es.
Proof.
  unfold Expense.non_null.
  induction es as [|e es IH]; simpl; [reflexivity | now rewrite IH].
Qed.

Lemma category_total_of_block user_id start_date end_date w c :
  Expense.category_total
    (CategoryRow.category_id c,
     match filter (Expense.on_category user_id start_date end_date c)
                  (expenses w) with
     | [] => [(c, None)]
     | bs => map (fun b => (c, Some b)) bs
     end)
  = category_entry user_id start_date end_date w c.
Proof.
  unfold category_entry, Expense.category_total.
  destruct (filter _ (expenses w)) as [|e es] eqn:Hf.
  - reflexivity.
  - rewrite non_null_some, coalesce_sum.
    unfold SQL.COUNT. rewrite length_map. reflexivity.
Qed.

Lemma category_groups user_id start_date end_date w :
  category_key w ->
  map Expense.category_total
      (SQL.group_by (fun r => CategoryRow.category_id (fst r))
         (SQL.left_join (Expense.on_category user_id start_date end_date)
                        (categories w) (expenses w)))
  = map (category_entry user_id start_date end_date w) (categories w).
Proof.
  intros Hkey. unfold SQL.left_join.
  rewrite group_by_blocks with (id := CategoryRow.category_id).
  - rewrite map_map. apply map_ext. intros c.
    apply category_total_of_block.
  - intros c r Hr. destruct (filter _ (expenses w)).
    + destruct Hr as [<-|[]]. reflexivity.
    + apply in_map_iff in Hr. destruct Hr as [b [<- _]]. reflexivity.
  - intros c. destruct (filter _ (expenses w)); discriminate.
  - exact Hkey.
Qed.

Lemma get_category_totals_online user_id start_date end_date w :
  online w = true -> category_key w ->
  result_of (Expense.get_category_totals user_id start_date end_date w)
  = SQL.order_by Expense.total_desc
      (map (category_entry user_id start_date end_date w) (categories w)).
Proof.
  intros Hon Hkey.
  unfold Expense.get_category_totals, bind, ret, Database.execute_query,
    result_of.
  rewrite Hon. simpl. rewrite category_groups by exact Hkey.
  destruct (SQL.order_by _ _); reflexivity.
Qed.

(** C8: with the server reachable and [category_id] the key of
    [categories], [get_category_totals] returns one entry per category,
    each with the sum and the number of the matching expenses (so total
    0 and count 0 for a category without matching expense), sorted by
    total in descending order. *)
Theorem get_category_totals_complete_sorted
        w user_id start_date end_date :
  online w = true ->
  category_key w ->
  let r := result_of
             (Expense.get_category_totals user_id start_date end_date w) in
  Permutation r (map (category_entry user_id start_date end_date w)
                     (categories w))
  /\ Permutation (map CategoryTotal.category_id r)
                 (map CategoryRow.category_id (categories w))
  /\ (forall c, In c (categories w) ->
        (forall e, In e (expenses w) ->
           Expense.on_category user_id start_date end_date c e = false) ->
        In (CategoryTotal.mk (CategoryRow.category_id c)
              (CategoryRow.category_name c) (CategoryRow.icon c)
              (CategoryRow.color c) 0 0) r)
  /\ StronglySorted
       (fun a b => CategoryTotal.total b <= CategoryTotal.total a) r.
Proof.
  intros Hon Hkey r. subst r.
  rewrite get_category_totals_online by assumption.
  assert (Hperm := order_by_perm Expense.total_desc
                     (map (category_entry user_id start_date end_date w)
                          (categories w))).
  split; [exact Hperm | split; [|split]].
  - apply (Permutation_map CategoryTotal.category_id) in Hperm.
    rewrite map_map in Hperm. exact Hperm.
  - intros c Hc Hnone. apply in_order_by, in_map_iff.
    exists c. split; [|exact Hc].
    unfold category_entry. rewrite filter_none by exact Hnone.
    reflexivity.
  - eapply strongly_sorted_weaken;
      [|apply order_by_sorted with (before := Expense.total_desc)].
    + intros a b H. unfold Expense.total_desc in H. lia.
    + unfold Expense.total_desc. intros a b H. lia.
    + unfold Expense.total_desc. intros a b c Hab Hbc. lia.
Qed.

Lemma scenario_category_key : category_key Scenario.w0.
Proof.
  unfold category_key. simpl.
  repeat constructor; simpl; intuition discriminate.
Qed.

Lemma scenario_category_reference : category_reference Scenario.w0.
Proof.
  intros e He. simpl in He.
  destruct He as [<-|[<-|[<-|[<-|[]]]]]; simpl; tauto.
Qed.

Lemma get_category_totals_complete_sorted_witness :
  let r := result_of (Expense.get_category_totals 1 None None Scenario.w0) in
  Permutation (map CategoryTotal.category_id r) [1; 2; 3]
  /\ In (CategoryTotal.mk 3 "Bills" "B" "#0000FF" 0 0) r
  /\ StronglySorted
       (fun a b => CategoryTotal.total b <= CategoryTotal.total a) r.
Proof.
  destruct (get_category_totals_complete_sorted (w := Scenario.w0) 1 None None
              eq_refl scenario_category_key)
    as [_ [Hids [Hzero Hsorted]]].
  split; [exact Hids | split; [|exact Hsorted]].
  apply (Hzero Scenario.bills).
  - simpl. tauto.
  - intros e He. simpl in He.
    destruct He as [<-|[<-|[<-|[<-|[]]]]]; reflexivity.
Defined.

(* ------------------------------------------------------------------ *)
(** ** Reconciliation of the totals                                     *)
(* ------------------------------------------------------------------ *)

Lemma sum_map_zero {A} (l : list A) : sum (map (fun _ => 0) l) = 0.
Proof. induction l as [|a l IH]; [reflexivity|]. unfold sum in *. simpl. lia. Qed.

Lemma sum_map_add {A} (f g : A -> Z) (l : list A) :
  sum (map (fun a => f a + g a) l) = sum (map f l) + sum (map g l).
Proof.
  induction l as [|a l IH]; [reflexivity|]. unfold sum in *. simpl. lia.
Qed.

(** Over rows with pairwise distinct keys, exactly one row has a key
    that occurs. *)
Lemma sum_at_key {A} (id : A -> Z) (l : list A) (k v : Z) :
  NoDup (map id l) -> In k (map id l) ->
  sum (map (fun a => if id a =? k then v else 0) l) = v.
Proof.
  induction l as [|a l IH]; intros Hnd Hin; [contradiction|].
  inversion Hnd as [|? ? Hnot Hnd']; subst.
  unfold sum in *. simpl.
  destruct (id a =? k) eqn:Hk.
  - apply Z.eqb_eq in Hk. subst k.
    assert (Hz : fold_right Z.add 0
                   (map (fun b => if id b =? id a then v else 0) l) = 0).
    { transitivity (sum (map (fun _ : A => 0) l)); [|apply sum_map_zero].
      unfold sum. f_equal. apply map_ext_in. intros b Hb.
      destruct (id b =? id a) eqn:Hba; [|reflexivity].
      apply Z.eqb_eq in Hba. exfalso. apply Hnot. rewrite <- Hba.
      now apply in_map. }
    lia.
  - rewrite IH; [lia | exact Hnd' |].
    destruct Hin as [Heq|Hin]; [|exact Hin].
    apply Z.eqb_neq in Hk. contradiction.
Qed.

Lemma sum_over_categories user_id start_date end_date
      (cats : list CategoryRow.t) (es : list ExpenseRow.t) :
  NoDup (map CategoryRow.category_id cats) ->
  (forall e, In e es ->
             In (ExpenseRow.category_id e)
                (map CategoryRow.category_id cats)) ->
  sum (map (fun c =>
              sum (map ExpenseRow.amount
                     (filter (Expense.on_category user_id start_date
                                end_date c) es)))
           cats)
  = sum (map ExpenseRow.amount
           (filter (in_filters user_id start_date end_date) es)).
Proof.
  intros Hnd. induction es as [|e es IH]; intros Href.
  - simpl. apply sum_map_zero.
  - assert (Hsplit : forall c,
               sum (map ExpenseRow.amount
                      (filter (Expense.on_category user_id start_date
                                 end_date c) (e :: es)))
               = (if CategoryRow.category_id c =? ExpenseRow.category_id e
                  then (if in_filters user_id start_date end_date e
                        then ExpenseRow.amount e else 0)
                  else 0)
                 + sum (map ExpenseRow.amount
                          (filter (Expense.on_category user_id start_date
                                     end_date c) es))).
    { intros c. simpl. unfold Expense.on_category at 1, in_filters.
      destruct (CategoryRow.category_id c =? ExpenseRow.category_id e),
               (ExpenseRow.user_id e =? user_id),
               (Expense.and_dates start_date end_date e);
        reflexivity. }
    rewrite (map_ext _ _ Hsplit), sum_map_add, IH.
    + rewrite sum_at_key; [| exact Hnd | apply Href; now left].
      simpl. destruct (in_filters user_id start_date end_date e);
        reflexivity.
    + intros x Hx. apply Href. now right.
Qed.

(** C2: for every user and every choice of the date filters, the totals
    of the entries of [get_category_totals] add up to the value of
    [get_total_expenses] under the same filters: the decimal sum, taken
    to a float as [get_total_expenses] takes its own. [category_id] is
    the key of [categories] and every expense refers to a category. *)
Theorem category_totals_reconcile (F : Type) (float : Z -> F)
        w user_id start_date end_date :
  category_key w ->
  category_reference w ->
  float (sum (map CategoryTotal.total
                (result_of
                   (Expense.get_category_totals user_id start_date
                                                end_date w))))
  = result_of
      (Expense.get_total_expenses float user_id start_date end_date None w).
Proof.
  intros Hkey Href.
  destruct (online w) eqn:Hon.
  - rewrite get_category_totals_online by assumption.
    rewrite (sum_perm (Permutation_map CategoryTotal.total
                         (order_by_perm Expense.total_desc _))).
    rewrite map_map. simpl.
    rewrite sum_over_categories; [| exact Hkey | exact Href].
    unfold Expense.get_total_expenses, bind, ret, Database.execute_query,
      result_of.
    rewrite Hon. simpl. rewrite coalesce_sum.
    do 3 f_equal. apply filter_ext. intros e. unfold in_filters.
    now rewrite andb_true_r.
  - unfold Expense.get_category_totals, Expense.get_total_expenses, bind,
      ret, Database.execute_query, result_of.
    rewrite Hon. reflexivity.
Qed.

(** In the witness a float is the number of cents it stands for. *)
Lemma category_totals_reconcile_witness :
  sum (map CategoryTotal.total
         (result_of (Expense.get_category_totals 1
                       (Some (mkDate 2024 3 5)) None Scenario.w0)))
  = result_of (Expense.get_total_expenses (fun cents => cents) 1
                 (Some (mkDate 2024 3 5)) None None Scenario.w0)
  /\ result_of (Expense.get_total_expenses (fun cents => cents) 1
                  (Some (mkDate 2024 3 5)) None None Scenario.w0) = 30000.
Proof.
  split; [|reflexivity].
  apply (@category_totals_reconcile Z (fun cents => cents) Scenario.w0 1
           (Some (mkDate 2024 3 5)) None
           scenario_category_key scenario_category_reference).
Defined.

(* ------------------------------------------------------------------ *)
(** ** Reading, updating and deleting one expense                       *)
(* ------------------------------------------------------------------ *)

Lemma nodup_key_unique {A} (id : A -> Z) (l : list A) a b :
  NoDup (map id l) -> In a l -> In b l -> id a = id b -> a = b.
Proof.
  induction l as [|x l IH]; intros Hnd Ha Hb Heq; [contradiction|].
  inversion Hnd as [|? ? Hnot Hnd']; subst.
  destruct Ha as [->|Ha], Hb as [->|Hb]; auto.
  - exfalso. apply Hnot. rewrite Heq. now apply in_map.
  - exfalso. apply Hnot. rewrite <- Heq. now apply in_map.
Qed.

(** With a user id that Python takes as true, [get_by_id] returns only a
    row of that user with the key asked for. *)
Lemma get_by_id_some expense_id user_id w x :
  user_id <> 0 ->
  result_of (Expense.get_by_id expense_id (Some user_id) w) = Some x ->
  exists e c, In e (expenses w) /\ In c (categories w)
              /\ x = Expense.of_row (e, c)
              /\ owned expense_id user_id e = true.
Proof.
  intros Hu Hres.
  unfold Expense.get_by_id, bind, ret, Database.execute_query, result_of
    in Hres.
  destruct (online w); [|discriminate Hres].
  cbv beta iota in Hres. cbn [fst] in Hres.
  match type of Hres with
  | context [filter ?p ?l] =>
      destruct (filter p l) as [|[e c] rest] eqn:Hf; [discriminate Hres|];
      assert (Hin : In (e, c) (filter p l)) by (rewrite Hf; now left)
  end.
  injection Hres as <-.
  apply filter_In in Hin. destruct Hin as [Hjoin Hp].
  apply in_join in Hjoin. destruct Hjoin as [He [Hc _]].
  exists e, c. repeat split; try assumption.
  unfold owned. cbn [fst] in Hp. unfold Expense.and_user, truthy in Hp.
  apply Z.eqb_neq in Hu. rewrite Hu in Hp. exact Hp.
Qed.

Lemma get_by_id_none expense_id user_id w :
  user_id <> 0 ->
  (forall e, In e (expenses w) -> owned expense_id user_id e = false) ->
  result_of (Expense.get_by_id expense_id (Some user_id) w) = None.
Proof.
  intros Hu Hnone.
  destruct (result_of (Expense.get_by_id expense_id (Some user_id) w))
    as [x|] eqn:Hr; [|reflexivity].
  apply get_by_id_some in Hr; [|exact Hu].
  destruct Hr as [e [c [He [_ [_ Ho]]]]].
  rewrite (Hnone e He) in Ho. discriminate.
Qed.

Lemma update_unfold self category_id amount description expense_date
      payment_method notes w :
  Expense.update self category_id amount description expense_date
                 payment_method notes w
  = match Expense.set_clause category_id amount description expense_date
                             payment_method notes with
    | [] => (false, w)
    | updates =>
        if online w
        then (true,
              log UPDATE
                (set_expenses
                   (map (fun e =>
                           if ExpenseRow.expense_id e
                              =? ExpenseObject.expense_id self
                           then fold_left Expense.assign updates e else e)
                        (expenses w))
                   w))
        else (false, w)
    end.
Proof.
  unfold Expense.update, bind, ret, Database.execute_update,
    Expense.update_expenses.
  destruct (Expense.set_clause _ _ _ _ _ _); [reflexivity|].
  destruct (online w); reflexivity.
Qed.

(** What the SET clause makes of a row: key and owner stay, and each
    column is the supplied value or the one it had. *)
Lemma set_clause_columns e category_id amount description expense_date
      payment_method notes :
  let e' := fold_left Expense.assign
              (Expense.set_clause category_id amount description
                                  expense_date payment_method notes) e in
  ExpenseRow.expense_id e' = ExpenseRow.expense_id e
  /\ ExpenseRow.user_id e' = ExpenseRow.user_id e
  /\ kept_or_set category_id (ExpenseRow.category_id e)
                 (ExpenseRow.category_id e')
  /\ kept_or_set amount (ExpenseRow.amount e) (ExpenseRow.amount e')
  /\ kept_or_set description (ExpenseRow.description e)
                 (ExpenseRow.description e')
  /\ kept_or_set expense_date (ExpenseRow.expense_date e)
                 (ExpenseRow.expense_date e')
  /\ kept_or_set payment_method (ExpenseRow.payment_method e)
                 (ExpenseRow.payment_method e')
  /\ match notes with
     | Some v => ExpenseRow.notes e' = Some v
     | None => ExpenseRow.notes e' = ExpenseRow.notes e
     end.
Proof.
  destruct e, category_id, amount, description, expense_date,
    payment_method, notes; simpl; repeat split; reflexivity.
Qed.

Lemma filter_map_keyed (p : ExpenseRow.t -> bool)
      (f : ExpenseRow.t -> ExpenseRow.t) k (es : list ExpenseRow.t) :
  (forall e, In e es -> ExpenseRow.expense_id e = k -> p e = false) ->
  (forall e, In e es -> ExpenseRow.expense_id e = k -> p (f e) = false) ->
  filter p (map (fun e => if ExpenseRow.expense_id e =? k then f e else e) es)
  = filter p es.
Proof.
  induction es as [|e es IH]; intros H1 H2; [reflexivity|].
  simpl. destruct (ExpenseRow.expense_id e =? k) eqn:Hk.
  - apply Z.eqb_eq in Hk.
    rewrite (H1 e (or_introl eq_refl) Hk), (H2 e (or_introl eq_refl) Hk).
    apply IH; intros x Hx; [apply H1 | apply H2]; now right.
  - rewrite IH; [reflexivity | |]; intros x Hx;
      [apply H1 | apply H2]; now right.
Qed.

Lemma forall2_map {A} (R : A -> A -> Prop) (f : A -> A) (l : list A) :
  (forall a, In a l -> R a (f a)) -> Forall2 R l (map f l).
Proof.
  induction l as [|a l IH]; intros H; simpl; constructor.
  - apply H. now left.
  - apply IH. intros b Hb. apply H. now right.
Qed.

(** [update_expense] either fails and leaves the tables alone, or found
    an object [x] and ran the UPDATE keyed by [x]. *)
Lemma update_expense_cases expense_id user_id kw w :
  let r := ExpenseController.update_expense expense_id user_id kw w in
  (fst (result_of r) = false
   /\ expenses (world_of r) = expenses w)
  \/ (result_of r = (true, "Expense updated successfully!")
      /\ exists x,
          result_of (Expense.get_by_id expense_id (Some user_id) w) = Some x
          /\ expenses (world_of r)
             = map (fun e =>
                      if ExpenseRow.expense_id e
                         =? ExpenseObject.expense_id x
                      then fold_left Expense.assign
                             (Expense.set_clause
                                (ExpenseController.category_id kw)
                                (supplied_amount kw)
                                (ExpenseController.description kw)
                                (ExpenseController.expense_date kw)
                                (ExpenseController.payment_method kw)
                                (ExpenseController.notes kw)) e
                      else e)
                   (expenses w)).
Proof.
  pose proof (get_by_id_tables expense_id (Some user_id) w) as Ht.
  unfold ExpenseController.update_expense, bind, ret, result_of, world_of,
    supplied_amount in *.
  destruct (Expense.get_by_id expense_id (Some user_id) w) as [[x|] w1];
    cbn [fst snd] in *; [|left; tauto].
  destruct Ht as [_ [_ [He [_ Hon]]]].
  destruct (ExpenseController.amount kw) as [[a|]|];
    [destruct (a <=? 0) | |]; try (left; tauto);
    rewrite update_unfold;
    destruct (Expense.set_clause _ _ _ _ _ _) as [|u us];
    try (left; split; [reflexivity | exact He]);
    destruct (online w1);
    try (left; split; [reflexivity | exact He]);
    right; (split; [reflexivity|]); exists x;
    (split; [reflexivity|]); cbn [fst snd expenses log set_expenses];
    rewrite He; reflexivity.
Qed.

(** C5: for a user id other than 0, [update_expense] answers "Expense
    not found" and changes no expense when no expense with the given id
    belongs to the user; and when it succeeds, the stored expenses are
    the former ones, each row with another key as it was, and in the row
    with the given key every column not supplied at its prior value and
    every column supplied at the supplied value. *)
Theorem update_expense_partial w expense_id user_id kw :
  user_id <> 0 ->
  let r := ExpenseController.update_expense expense_id user_id kw w in
  ((forall e, In e (expenses w) -> owned expense_id user_id e = false) ->
   result_of r = (false, "Expense not found")
   /\ expenses (world_of r) = expenses w)
  /\ (fst (result_of r) = true ->
      Forall2 (partial_update expense_id kw)
              (expenses w) (expenses (world_of r))).
Proof.
  intros Hu r. split.
  - intros Hnone. subst r.
    pose proof (get_by_id_none expense_id w Hu Hnone) as Hr.
    pose proof (get_by_id_tables expense_id (Some user_id) w) as Ht.
    unfold ExpenseController.update_expense, bind, ret, result_of, world_of
      in *.
    destruct (Expense.get_by_id expense_id (Some user_id) w) as [o w1].
    cbn [fst snd] in *. subst o. cbn [fst snd]. tauto.
  - intros Hok.
    destruct (update_expense_cases expense_id user_id kw w)
      as [[Hfail _] | [_ [x [Hx Hes]]]].
    + fold r in Hfail. congruence.
    + fold r in Hes. rewrite Hes.
      apply get_by_id_some in Hx; [|exact Hu].
      destruct Hx as [e0 [c0 [_ [_ [-> Hown]]]]].
      unfold owned in Hown. apply andb_prop in Hown.
      destruct Hown as [Hid _]. apply Z.eqb_eq in Hid.
      cbn [Expense.of_row ExpenseObject.expense_id]. rewrite Hid.
      apply forall2_map. intros e _.
      unfold partial_update.
      destruct (ExpenseRow.expense_id e =? expense_id).
      * pose proof (set_clause_columns e
                      (ExpenseController.category_id kw)
                      (supplied_amount kw)
                      (ExpenseController.description kw)
                      (ExpenseController.expense_date kw)
                      (ExpenseController.payment_method kw)
                      (ExpenseController.notes kw)) as Hcols.
        cbv zeta in Hcols. tauto.
      * auto.
Qed.

Lemma update_expense_partial_witness :
  let amount_only :=
    ExpenseController.mkKwargs None (Some (ExpenseController.Number 5500))
                               None None None None in
  (result_of (ExpenseController.update_expense 7 1 amount_only Scenario.w0)
   = (false, "Expense not found")
   /\ expenses (world_of (ExpenseController.update_expense 7 1 amount_only
                            Scenario.w0))
      = expenses Scenario.w0)
  /\ Forall2 (partial_update 3 amount_only)
             (expenses Scenario.w0)
             (expenses (world_of (ExpenseController.update_expense 3 1
                                    amount_only Scenario.w0)))
  /\ expenses (world_of (ExpenseController.update_expense 3 1 amount_only
                           Scenario.w0))
     = [Scenario.lunch; Scenario.dinner;
        ExpenseRow.mk 3 1 1 5500 "snack" (Scenario.march 21) "Cash" None;
        Scenario.ticket].
Proof.
  intros amount_only. split; [|split].
  - apply (update_expense_partial Scenario.w0 7 (user_id := 1) amount_only);
      [lia|].
    intros e He. simpl in He.
    destruct He as [<-|[<-|[<-|[<-|[]]]]]; reflexivity.
  - apply (update_expense_partial Scenario.w0 3 (user_id := 1) amount_only);
      [lia | reflexivity].
  - reflexivity.
Defined.

(** C3, as stated, fails: [Expense.update] and [Expense.delete] select
    the row by [expense_id] alone, and [Expense.get_by_id] filters by user
    only when it is given one. Expense 7 belongs to user 2; an object
    with that key, held on behalf of user 1, has it rewritten by [update]
    and removed by [delete], and [get_by_id] without a user returns it. *)
Lemma model_methods_reach_foreign_rows :
  let self := ExpenseObject.mk 7 1 2 70000 "ticket" (mkDate 2024 4 5)
                               "Credit Card" None None None None in
  In Scenario.ticket (expenses Scenario.w0)
  /\ ExpenseRow.user_id Scenario.ticket = 2
  /\ ExpenseObject.user_id self = 1
  /\ Expense.delete self Scenario.w0
     = (true,
        mkWorld (users Scenario.w0) (categories Scenario.w0)
                [Scenario.lunch; Scenario.dinner; Scenario.snack]
                true [DELETE] None)
  /\ Expense.update self None (Some 1) None None None None Scenario.w0
     = (true,
        mkWorld (users Scenario.w0) (categories Scenario.w0)
                [Scenario.lunch; Scenario.dinner; Scenario.snack;
                 ExpenseRow.mk 7 2 2 1 "ticket" (mkDate 2024 4 5)
                               "Credit Card" None]
                true [UPDATE] None)
  /\ option_map ExpenseObject.user_id
       (result_of (Expense.get_by_id 7 None Scenario.w0)) = Some 2.
Proof. vm_compute. intuition. Qed.

(** C3, amended: for a user id other than 0 and with [expense_id] the
    key of [expenses], the paths that carry the requesting user
    ([get_by_id] with that user, [update_expense], [delete_expense])
    return only a row of that user and leave the rows of every other
    user as they were. [Expense.update] and [Expense.delete] themselves
    select by [expense_id] alone: they leave the rows with another key as
    they were, whoever owns them. *)
Theorem expense_paths_scoped_by_user w expense_id user_id :
  user_id <> 0 ->
  expense_key w ->
  (forall x,
      result_of (Expense.get_by_id expense_id (Some user_id) w) = Some x ->
      ExpenseObject.expense_id x = expense_id
      /\ ExpenseObject.user_id x = user_id)
  /\ (forall kw,
         filter (others user_id)
                (expenses (world_of (ExpenseController.update_expense
                                       expense_id user_id kw w)))
         = filter (others user_id) (expenses w))
  /\ filter (others user_id)
            (expenses (world_of (ExpenseController.delete_expense
                                   expense_id user_id w)))
     = filter (others user_id) (expenses w)
  /\ (forall self c a d dt p n,
         filter (other_keys (ExpenseObject.expense_id self))
                (expenses (world_of (Expense.update self c a d dt p n w)))
         = filter (other_keys (ExpenseObject.expense_id self)) (expenses w))
  /\ (forall self,
         filter (other_keys (ExpenseObject.expense_id self))
                (expenses (world_of (Expense.delete self w)))
         = filter (other_keys (ExpenseObject.expense_id self)) (expenses w)).
Proof.
  intros Hu Hkey. split; [|split; [|split; [|split]]].
  - intros x Hx. apply get_by_id_some in Hx; [|exact Hu].
    destruct Hx as [e [c [_ [_ [-> Hown]]]]].
    unfold owned in Hown. apply andb_prop in Hown.
    destruct Hown as [Hid Hown]. apply Z.eqb_eq in Hid, Hown.
    simpl. auto.
  - intros kw.
    destruct (update_expense_cases expense_id user_id kw w)
      as [[_ Hsame] | [_ [x [Hx Hes]]]]; [now rewrite Hsame|].
    rewrite Hes. clear Hes.
    apply get_by_id_some in Hx; [|exact Hu].
    destruct Hx as [e0 [c0 [He0 [_ [-> Hown]]]]].
    unfold owned in Hown. apply andb_prop in Hown.
    destruct Hown as [Hid Hown]. apply Z.eqb_eq in Hid, Hown.
    cbn [Expense.of_row ExpenseObject.expense_id].
    assert (Hmine : forall e, In e (expenses w) ->
                      ExpenseRow.expense_id e = ExpenseRow.expense_id e0 ->
                      ExpenseRow.user_id e = user_id).
    { intros e He Heq.
      now rewrite (nodup_key_unique ExpenseRow.expense_id _ e e0
                     Hkey He He0 Heq). }
    apply filter_map_keyed; intros e He Heq; unfold others.
    + rewrite (Hmine e He Heq), Z.eqb_refl. reflexivity.
    + pose proof (set_clause_columns e
                    (ExpenseController.category_id kw) (supplied_amount kw)
                    (ExpenseController.description kw)
                    (ExpenseController.expense_date kw)
                    (ExpenseController.payment_method kw)
                    (ExpenseController.notes kw)) as Hcols.
      cbv zeta in Hcols. destruct Hcols as [_ [Huser _]].
      rewrite Huser, (Hmine e He Heq), Z.eqb_refl. reflexivity.
  - unfold ExpenseController.delete_expense, Expense.delete_by_id, bind,
      ret, Database.execute_update, world_of.
    destruct (online w); [|reflexivity].
    cbn [fst snd is_not_None expenses log set_expenses].
    apply filter_others_not_owned.
  - intros self c a d dt p n. rewrite update_unfold.
    destruct (Expense.set_clause c a d dt p n) as [|u us] eqn:Hsc;
      [reflexivity|].
    destruct (online w); [|reflexivity].
    cbn [world_of snd expenses log set_expenses].
    apply filter_map_keyed; intros e He Heq; unfold other_keys.
    + rewrite Heq, Z.eqb_refl. reflexivity.
    + pose proof (set_clause_columns e c a d dt p n) as Hcols.
      cbv zeta in Hcols. destruct Hcols as [Hid _].
      rewrite Hsc in Hid. rewrite Hid, Heq, Z.eqb_refl. reflexivity.
  - intros self. unfold Expense.delete, bind, ret, Database.execute_update,
      world_of.
    destruct (online w); [|reflexivity].
    cbn [snd expenses log set_expenses].
    induction (expenses w) as [|e es IH]; [reflexivity|].
    simpl. unfold other_keys in *.
    destruct (ExpenseRow.expense_id e =? ExpenseObject.expense_id self)
      eqn:Hk; simpl; rewrite ?Hk; simpl; now rewrite IH.
Qed.

Lemma scenario_expense_key : expense_key Scenario.w0.
Proof.
  unfold expense_key. simpl.
  repeat constructor; simpl; intuition discriminate.
Qed.

Lemma expense_paths_scoped_by_user_witness :
  let x := Expense.of_row (Scenario.snack, Scenario.food) in
  result_of (Expense.get_by_id 3 (Some 1) Scenario.w0) = Some x
  /\ ExpenseObject.expense_id x = 3
  /\ ExpenseObject.user_id x = 1
  /\ result_of (Expense.get_by_id 7 (Some 1) Scenario.w0) = None
  /\ filter (others 1)
            (expenses (world_of (ExpenseController.update_expense 3 1
                                   (ExpenseController.mkKwargs
                                      None None (Some "mine") None None None)
                                   Scenario.w0)))
     = [Scenario.ticket]
  /\ filter (others 1)
            (expenses (world_of (ExpenseController.delete_expense 3 1
                                   Scenario.w0)))
     = [Scenario.ticket].
Proof.
  intros x.
  destruct (expense_paths_scoped_by_user (w := Scenario.w0) 3 (user_id := 1))
    as [Hget [Hupdate [Hdelete _]]]; [lia | exact scenario_expense_key |].
  destruct (Hget x eq_refl) as [Hid Huser].
  split; [reflexivity | split; [exact Hid | split; [exact Huser|]]].
  split; [reflexivity | split].
  - rewrite Hupdate. reflexivity.
  - rewrite Hdelete. reflexivity.
Defined.

(* ------------------------------------------------------------------ *)
(** ** Login                                                            *)
(* ------------------------------------------------------------------ *)

Section Login.
Variable sha256_hexdigest : string -> string.
Variable sql_eq : string -> string -> bool.

Let login := AuthController.login sha256_hexdigest sql_eq.

(** A login that [authenticate] turns down: the answer and the state
    of the session. *)
Lemma login_rejected username password w :
  nonempty username = true -> nonempty password = true ->
  result_of (User.authenticate sha256_hexdigest sql_eq username password w)
  = None ->
  result_of (login username password w)
  = (false, "Invalid username or password", None)
  /\ current_user (world_of (login username password w)) = current_user w.
Proof.
  intros Hu Hp Hauth. subst login.
  unfold AuthController.login, bind, ret, result_of, world_of in *.
  rewrite Hu, Hp. cbn [negb orb].
  unfold User.authenticate, bind, ret, Database.execute_query in *.
  destruct (online w); cbn [fst snd] in *.
  - destruct (filter _ (users w)) as [|r rest]; cbn [fst snd] in *.
    + split; reflexivity.
    + destruct (Helpers.verify_password _ _ _); [discriminate|].
      split; reflexivity.
  - split; reflexivity.
Qed.

Lemma authenticate_unknown username password w :
  unknown_user sql_eq w username ->
  result_of (User.authenticate sha256_hexdigest sql_eq username password w)
  = None.
Proof.
  intros Hunknown.
  unfold User.authenticate, bind, ret, Database.execute_query, result_of.
  destruct (online w); [|reflexivity]. cbn [fst].
  rewrite filter_none by exact Hunknown. reflexivity.
Qed.

Lemma authenticate_wrong_password username password w :
  wrong_password sha256_hexdigest sql_eq w username password ->
  result_of (User.authenticate sha256_hexdigest sql_eq username password w)
  = None.
Proof.
  intros [r [rest [Hf Hne]]].
  unfold User.authenticate, bind, ret, Database.execute_query, result_of.
  destruct (online w); [|reflexivity]. cbn [fst].
  rewrite Hf. unfold Helpers.verify_password.
  destruct (String.eqb_spec
              (Helpers.hash_password sha256_hexdigest password)
              (UserRow.password r)); [contradiction | reflexivity].
Qed.

(** The answer to a failed login is determined by what was submitted. *)
Lemma login_failure_answer username password w :
  fst (fst (result_of (login username password w))) = false ->
  result_of (login username password w)
  = (false,
     if nonempty username && nonempty password
     then "Invalid username or password"
     else "Please enter username and password",
     None).
Proof.
  subst login.
  unfold AuthController.login, bind, ret, result_of.
  destruct (nonempty username), (nonempty password); cbn [negb orb andb];
    try reflexivity.
  destruct (User.authenticate _ _ _ _ w) as [[u|] w1]; cbn [fst];
    [discriminate | reflexivity].
Qed.

(** C7: in every world, a login with the name of an account and a
    wrong password and a login with a name no account goes by are both
    turned down with the answer "Invalid username or password" and
    leave the session as it was; and whatever is submitted, the answer
    to a failed login is the same in any two worlds. *)
Theorem login_failures_indistinguishable w known wrong unknown any :
  nonempty known = true -> nonempty wrong = true ->
  nonempty unknown = true -> nonempty any = true ->
  wrong_password sha256_hexdigest sql_eq w known wrong ->
  unknown_user sql_eq w unknown ->
  result_of (login known wrong w)
  = (false, "Invalid username or password", None)
  /\ result_of (login unknown any w)
     = (false, "Invalid username or password", None)
  /\ current_user (world_of (login known wrong w)) = current_user w
  /\ current_user (world_of (login unknown any w)) = current_user w
  /\ forall w' username password,
       fst (fst (result_of (login username password w))) = false ->
       fst (fst (result_of (login username password w'))) = false ->
       result_of (login username password w)
       = result_of (login username password w').
Proof.
  intros Hk Hw Hu Ha Hwrong Hunknown.
  destruct (login_rejected known wrong w Hk Hw
              (authenticate_wrong_password Hwrong)) as [H1 H2].
  destruct (login_rejected unknown any w Hu Ha
              (authenticate_unknown any Hunknown)) as [H3 H4].
  repeat split; try assumption.
  intros w' username password Hf Hf'.
  rewrite (login_failure_answer _ _ _ Hf),
          (login_failure_answer _ _ _ Hf').
  reflexivity.
Qed.
End Login.

Lemma login_failures_indistinguishable_witness :
  let login := AuthController.login Scenario.digest String.eqb in
  result_of (login "alice" "wonder2" Scenario.w0)
  = (false, "Invalid username or password", None)
  /\ result_of (login "carol" "wonder1" Scenario.w0)
     = (false, "Invalid username or password", None)
  /\ fst (fst (result_of (login "alice" "wonder1" Scenario.w0))) = true
  /\ result_of (login "bob" "wonder1" Scenario.w0)
     = result_of (login "bob" "wonder1" Scenario.offline).
Proof.
  destruct (@login_failures_indistinguishable Scenario.digest String.eqb
              Scenario.w0 "alice" "wonder2" "carol" "wonder1")
    as [H1 [H2 [_ [_ H5]]]]; try reflexivity.
  - exists Scenario.alice, []. split; [reflexivity | discriminate].
  - intros r Hr. simpl in Hr. destruct Hr as [<-|[<-|[]]]; reflexivity.
  - split; [exact H1 | split; [exact H2 | split; [reflexivity|]]].
    apply H5; reflexivity.
Defined.

(* ------------------------------------------------------------------ *)
(** ** The regular expressions of the validators                        *)
(* ------------------------------------------------------------------ *)

Section RegexSemantics.
Local Open Scope string_scope.

Lemma append_nil_inv (x y : string) :
  x ++ y = EmptyString -> x = EmptyString /\ y = EmptyString.
Proof. destruct x; simpl; [auto | discriminate]. Qed.

Lemma matches_nullable r : Re.nullable r = true <-> Re.matches r EmptyString.
Proof.
  induction r; simpl.
  - split; [discriminate | inversion 1].
  - split; [constructor | reflexivity].
  - split; [discriminate | inversion 1].
  - rewrite andb_true_iff, IHr1, IHr2. split.
    + intros [H1 H2]. change EmptyString with (EmptyString ++ EmptyString).
      now constructor.
    + inversion 1 as [| |? ? x y Hx Hy Heq| | | |]; subst.
      match goal with H : _ ++ _ = EmptyString |- _ =>
        apply append_nil_inv in H; destruct H; subst end.
      auto.
  - rewrite orb_true_iff, IHr1, IHr2. split.
    + intros [H|H]; [now apply Re.m_alt_l | now apply Re.m_alt_r].
    + inversion 1; subst; auto.
  - split; [constructor | reflexivity].
Qed.

Lemma star_cons_inv r c s :
  Re.matches (Re.Star r) (String c s) ->
  exists x y, s = x ++ y /\ Re.matches r (String c x) /\ Re.matches (Re.Star r) y.
Proof.
  intros H. remember (Re.Star r) as q eqn:Hq.
  remember (String c s) as t eqn:Ht. revert s Ht.
  induction H as [| | | | | |r0 x y Hx _ Hy IHy]; intros rest Ht;
    try discriminate.
  injection Hq as ->.
  destruct x as [|a x]; simpl in Ht.
  - apply (IHy eq_refl rest Ht).
  - injection Ht as -> <-. exists x, y. auto.
Qed.

Lemma matches_deriv c r s :
  Re.matches (Re.deriv c r) s <-> Re.matches r (String c s).
Proof.
  revert s. induction r; intros s; simpl.
  - split; inversion 1.
  - split; inversion 1.
  - destruct (p c) eqn:Hp.
    + split.
      * inversion 1; subst. now constructor.
      * inversion 1; subst. constructor.
    + split; [inversion 1|]. inversion 1; subst. congruence.
  - assert (Hcat : Re.matches (Re.Cat (Re.deriv c r1) r2) s
                   <-> exists x y, s = x ++ y /\ Re.matches r1 (String c x)
                                   /\ Re.matches r2 y).
    { split.
      - inversion 1; subst. eexists _, _. split; [reflexivity|].
        split; [now apply IHr1 | assumption].
      - intros [x [y [-> [H1 H2]]]]. constructor; [now apply IHr1 | assumption]. }
    assert (Hsplit : Re.matches (Re.Cat r1 r2) (String c s)
                     <-> (exists x y, s = x ++ y /\ Re.matches r1 (String c x)
                                      /\ Re.matches r2 y)
                         \/ (Re.matches r1 EmptyString
                             /\ Re.matches r2 (String c s))).
    { split.
      - inversion 1 as [| |? ? x y Hx Hy Heq| | | |]; subst.
        destruct x as [|a x]; simpl in *.
        + right. subst. auto.
        + left. match goal with H : String _ _ = String _ _ |- _ =>
            injection H as -> <- end.
          eauto.
      - intros [[x [y [-> [H1 H2]]]] | [H1 H2]].
        + change (String c (x ++ y)) with (String c x ++ y). now constructor.
        + change (String c s) with (EmptyString ++ String c s).
          now constructor. }
    rewrite Hsplit.
    destruct (Re.nullable r1) eqn:Hn.
    + split.
      * inversion 1; subst.
        -- left. now apply Hcat.
        -- right. split; [now apply matches_nullable | now apply IHr2].
      * intros [H|[_ H]].
        -- apply Re.m_alt_l. now apply Hcat.
        -- apply Re.m_alt_r. now apply IHr2.
    + rewrite Hcat. split; [auto|].
      intros [H|[H _]]; [exact H|].
      apply matches_nullable in H. congruence.
  - split.
    + inversion 1; subst; [apply Re.m_alt_l; now apply IHr1
                          | apply Re.m_alt_r; now apply IHr2].
    + inversion 1; subst; [apply Re.m_alt_l; now apply IHr1
                          | apply Re.m_alt_r; now apply IHr2].
  - split.
    + inversion 1; subst.
      change (String c (x ++ y)) with (String c x ++ y).
      constructor; [now apply IHr | assumption].
    + intros H. apply star_cons_inv in H.
      destruct H as [x [y [-> [H1 H2]]]].
      constructor; [now apply IHr | assumption].
Qed.

Lemma accepts_matches r s : Re.accepts r s = true <-> Re.matches r s.
Proof.
  revert r. induction s as [|c s IH]; intros r; simpl.
  - apply matches_nullable.
  - rewrite IH. apply matches_deriv.
Qed.

Lemma length_append (x y : string) :
  String.length (x ++ y) = (String.length x + String.length y)%nat.
Proof. induction x; simpl; auto. Qed.

Lemma every_append p (x y : string) :
  Re.every p (x ++ y) = Re.every p x && Re.every p y.
Proof.
  induction x as [|c x IH]; simpl; [reflexivity|].
  rewrite IH. apply andb_assoc.
Qed.

Lemma matches_times_class p n s :
  Re.matches (Re.times n (Re.Class p)) s
  <-> String.length s = n /\ Re.every p s = true.
Proof.
  revert s. induction n as [|n IH]; intros s; simpl.
  - split.
    + inversion 1; subst. auto.
    + intros [Hl _]. destruct s; [constructor | discriminate].
  - split.
    + inversion 1 as [| |? ? x y Hx Hy Heq| | | |]; subst.
      inversion Hx; subst. apply IH in Hy. destruct Hy as [Hl He].
      simpl. rewrite Hl, He. split; [reflexivity|].
      match goal with H : p _ = true |- _ => now rewrite H end.
    + intros [Hl He]. destruct s as [|c s]; [discriminate|].
      simpl in *. apply andb_prop in He. destruct He as [Hc He].
      change (String c s) with (String c EmptyString ++ s).
      constructor; [now constructor|]. apply IH. split; [lia | exact He].
Qed.

Lemma matches_upto_class p n s :
  Re.matches (Re.upto n (Re.Class p)) s
  <-> (String.length s <= n)%nat /\ Re.every p s = true.
Proof.
  revert s. induction n as [|n IH]; intros s; simpl.
  - split.
    + inversion 1; subst. auto.
    + intros [Hl _]. destruct s; [constructor | simpl in Hl; lia].
  - split.
    + inversion 1 as [| | |? ? x Hx|? ? x Hx| |]; subst.
      * inversion Hx; subst. simpl. split; [lia | reflexivity].
      * inversion Hx as [| |? ? a b Ha Hb Heq| | | |]; subst.
        inversion Ha; subst. apply IH in Hb. destruct Hb as [Hl He].
        simpl. rewrite He. split; [lia|].
        match goal with H : p _ = true |- _ => now rewrite H end.
    + intros [Hl He]. destruct s as [|c s].
      * apply Re.m_alt_l. constructor.
      * simpl in *. apply andb_prop in He. destruct He as [Hc He].
        apply Re.m_alt_r.
        change (String c s) with (String c EmptyString ++ s).
        constructor; [now constructor|]. apply IH. split; [lia | exact He].
Qed.

Lemma split_at (n : nat) (s : string) :
  (n <= String.length s)%nat ->
  exists x y, s = x ++ y /\ String.length x = n.
Proof.
  revert s. induction n as [|n IH]; intros s Hl.
  - exists EmptyString, s. auto.
  - destruct s as [|c s]; simpl in Hl; [lia|].
    destruct (IH s) as [x [y [-> Hx]]]; [lia|].
    exists (String c x), y. simpl. auto.
Qed.

Lemma matches_between_class p m n s :
  (m <= n)%nat ->
  Re.matches (Re.between m n (Re.Class p)) s
  <-> (m <= String.length s <= n)%nat /\ Re.every p s = true.
Proof.
  intros Hmn. unfold Re.between. split.
  - inversion 1 as [| |? ? x y Hx Hy Heq| | | |]; subst.
    apply matches_times_class in Hx. apply matches_upto_class in Hy.
    rewrite length_append, every_append.
    destruct Hx as [Hx1 Hx2], Hy as [Hy1 Hy2].
    rewrite Hx2, Hy2. split; [lia | reflexivity].
  - intros [Hl He].
    destruct (@split_at m s) as [x [y [-> Hx]]]; [lia|].
    rewrite length_append in Hl. rewrite every_append in He.
    apply andb_prop in He. destruct He as [He1 He2].
    constructor.
    + apply matches_times_class. auto.
    + apply matches_upto_class. split; [lia | exact He2].
Qed.

Lemma ends_with_append c (t : string) :
  Re.ends_with c (t ++ String c EmptyString) = true.
Proof.
  induction t as [|a t IH]; simpl.
  - apply Ascii.eqb_refl.
  - destruct (t ++ String c EmptyString) eqn:Ht; [|exact IH].
    destruct t; discriminate.
Qed.

Lemma match_anchored_iff body s :
  Re.match_anchored body s = true
  <-> Re.matches body s
      \/ exists t, s = t ++ String Re.newline EmptyString /\ Re.matches body t.
Proof.
  unfold Re.match_anchored. rewrite accepts_matches. split.
  - inversion 1 as [| |? ? x y Hx Hy Heq| | | |]; subst.
    inversion Hy as [| | |? ? z Hz|? ? z Hz| |]; subst.
    + inversion Hz; subst. left.
      replace (x ++ EmptyString) with x; [exact Hx|].
      clear. induction x; simpl; congruence.
    + inversion Hz as [|? c Hc| | | | |]; subst.
      apply Ascii.eqb_eq in Hc. subst c. right. eauto.
  - intros [H | [t [-> H]]].
    + replace s with (s ++ EmptyString)
        by (clear; induction s; simpl; congruence).
      constructor; [exact H|]. apply Re.m_alt_l. constructor.
    + constructor; [exact H|]. apply Re.m_alt_r. constructor.
      apply Ascii.eqb_refl.
Qed.

Lemma match_anchored_exact body s :
  Re.ends_with Re.newline s = false ->
  Re.match_anchored body s = Re.accepts body s.
Proof.
  intros Hend. apply eq_true_iff_eq.
  rewrite match_anchored_iff, accepts_matches. split; [|auto].
  intros [H | [t [-> _]]]; [exact H|].
  rewrite ends_with_append in Hend. discriminate.
Qed.

Lemma validate_username_exact s :
  Re.ends_with Re.newline s = false ->
  Helpers.validate_username s
  = ((3 <=? String.length s)%nat && (String.length s <=? 20)%nat
     && Re.every Helpers.word_char s).
Proof.
  intros Hend. unfold Helpers.validate_username.
  rewrite match_anchored_exact by exact Hend.
  apply eq_true_iff_eq.
  rewrite accepts_matches. unfold Helpers.username_pattern.
  rewrite matches_between_class by lia.
  rewrite !andb_true_iff, !Nat.leb_le. tauto.
Qed.
End RegexSemantics.

(** The validators on the inputs the specification names, and on a user
    name that ends in a newline. *)
Example validators_on_samples :
  Helpers.validate_username "ab" = false
  /\ Helpers.validate_username "bob_99" = true
  /\ Helpers.validate_username "a-b-c" = false
  /\ Helpers.validate_username "aaaaaaaaaaaaaaaaaaaaa" = false
  /\ Helpers.validate_username
       (String "b" (String "o" (String "b"
          (String Re.newline EmptyString)))) = true
  /\ Helpers.validate_email "not-an-email" = false
  /\ Helpers.validate_email "a.b@mail.example.com" = true
  /\ Helpers.validate_email "a@b.c" = false
  /\ Helpers.validate_password "abcdef"
     = (false, "Password must contain at least one number")
  /\ Helpers.validate_password "12345"
     = (false, "Password must be at least 6 characters")
  /\ Helpers.validate_password "123456"
     = (false, "Password must contain at least one letter")
  /\ Helpers.validate_password "abc123" = (true, "Password is valid").
Proof. vm_compute. repeat split; reflexivity. Qed.

(* ------------------------------------------------------------------ *)
(** ** Registration                                                     *)
(* ------------------------------------------------------------------ *)


Lemma count_positive {A} (p : A -> bool) (l : list A) :
  (0 <? SQL.COUNT (filter p l)) = existsb p l.
Proof.
  unfold SQL.COUNT. induction l as [|a l IH]; [reflexivity|].
  simpl. destruct (p a); simpl; [|exact IH].
  apply Z.ltb_lt. lia.
Qed.

Lemma next_id_positive (ids : list Z) : 0 < User.next_id ids.
Proof.
  unfold User.next_id.
  assert (0 <= fold_right Z.max 0 ids)
    by (induction ids; simpl; lia).
  lia.
Qed.

Section Registration.
Variable sha256_hexdigest : string -> string.
Variable sql_eq : string -> string -> bool.

(** The two queries of [User.exists], for a name and an address that
    are not empty. *)
Lemma exists_unfold username email w :
  nonempty username = true -> nonempty email = true ->
  User.exists_ sql_eq (Some username) (Some email) w
  = if username_taken sql_eq w username
    then ((true, Some "username"), log SELECT w)
    else if online w
         then ((email_taken sql_eq w email,
                if email_taken sql_eq w email then Some "email" else None),
               log SELECT (log SELECT w))
         else ((false, None), w).
Proof.
  intros Hu He.
  unfold User.exists_, User.count_users, bind, ret, Database.execute_query,
    truthy_str, username_taken, email_taken.
  rewrite Hu, He.
  destruct (online w) eqn:Hon; cbn [andb User.found].
  - rewrite count_positive.
    destruct (existsb _ (users w)); [reflexivity|].
    cbn [online log users]. rewrite Hon.
    cbn [User.found]. rewrite count_positive.
    destruct (existsb _ (users w)); reflexivity.
  - rewrite Hon. reflexivity.
Qed.

(** What [User.create] does. *)
Lemma create_unfold username email password full_name w :
  User.create sha256_hexdigest username email password full_name w
  = if online w
    then
      let id := User.next_id (map UserRow.user_id (users w)) in
      (Some (UserObject.mk id username email full_name true),
       log INSERT
         (set_users
            (users w
             ++ [UserRow.mk id username email
                   (Helpers.hash_password sha256_hexdigest password)
                   full_name true])
            w))
    else (None, w).
Proof.
  unfold User.create, bind, ret, Database.execute_update,
    User.insert_user.
  destruct (online w); [|reflexivity].
  cbv zeta. unfold truthy.
  pose proof (next_id_positive (map UserRow.user_id (users w))) as Hpos.
  destruct (Z.eqb_spec (User.next_id (map UserRow.user_id (users w))) 0)
    as [Heq|_]; [lia | reflexivity].
Qed.

(** [register] returns the message of the first of its checks that
    fails, and adds a row only when none does. *)
Lemma register_cascade
        w username email password confirm_password full_name :
  let r := AuthController.register sha256_hexdigest sql_eq username email
             password confirm_password full_name w in
  let new_row :=
    UserRow.mk (User.next_id (map UserRow.user_id (users w)))
               username email
               (Helpers.hash_password sha256_hexdigest password)
               full_name true in
  result_of r
  = match first_failure
            (register_checks sql_eq w username email password
                            confirm_password full_name) with
    | Some (_, message) => (false, message, None)
    | None =>
        if online w
        then (true, "Registration successful! Welcome!",
              Some (User.of_row new_row))
        else (false, "Registration failed. Please try again.", None)
    end
  /\ users (world_of r)
     = (if fst (fst (result_of r)) then users w ++ [new_row]
        else users w)
  /\ NoDup ("Registration failed. Please try again."
            :: map snd (register_checks sql_eq w username email password
                                       confirm_password full_name)).
Proof.
  intros r new_row. split; [|split].
  3: { cbn [register_checks checks_from_name all_fields map snd].
       repeat constructor; cbn [In]; intuition discriminate. }
  all: subst r new_row;
    unfold AuthController.register, register_checks, checks_from_name,
      all_fields,
      first_failure, Helpers.validate_password, result_of, world_of;
    cbn [find fst snd negb forallb];
    destruct (nonempty username) eqn:Hu; cbn [andb negb];
      [|reflexivity];
    destruct (nonempty email) eqn:He; cbn [andb negb]; [|reflexivity];
    destruct (nonempty password); cbn [andb negb]; [|reflexivity];
    destruct (nonempty confirm_password); cbn [andb negb];
      [|reflexivity];
    destruct (nonempty full_name); cbn [andb negb]; [|reflexivity];
    destruct (Helpers.validate_username username); cbn [negb];
      [|reflexivity];
    destruct (Helpers.validate_email email); cbn [negb]; [|reflexivity];
    rewrite Nat.ltb_antisym;
    destruct (6 <=? String.length password)%nat; cbn [negb];
      [|reflexivity];
    destruct (Re.search Re.letter password); cbn [negb]; [|reflexivity];
    destruct (Re.search Re.digit password); cbn [negb]; [|reflexivity];
    destruct (String.eqb password confirm_password); cbn [negb];
      [|reflexivity];
    unfold bind; rewrite exists_unfold by assumption;
    destruct (username_taken sql_eq w username) eqn:Hut; cbn [negb];
      [reflexivity|];
    unfold username_taken in Hut; unfold email_taken;
    destruct (online w) eqn:Hon; cbn [andb negb] in *.
  all: try (destruct (existsb _ (users w)); [discriminate|]).
  all: try (destruct (existsb (fun r => sql_eq (UserRow.email r) email)
                              (users w)); cbn [negb]; [reflexivity|]).
  all: rewrite create_unfold; cbn [online log]; rewrite ?Hon;
    reflexivity.
Qed.

End Registration.

(* ================================================================== *)
(** * Further properties of the models and the controllers              *)
(* ================================================================== *)

(* ------------------------------------------------------------------ *)
(** ** Totals by month, by day and by year                              *)
(* ------------------------------------------------------------------ *)

Lemma filter_filter_and {A} (p q : A -> bool) (l : list A) :
  filter p (filter q l) = filter (fun x => q x && p x) l.
Proof.
  induction l as [|a l IH]; simpl; [reflexivity|].
  destruct (q a); simpl; [destruct (p a)|]; now rewrite IH.
Qed.

Lemma sum_map_one {A} (l : list A) :
  sum (map (fun _ => 1) l) = Z.of_nat (List.length l).
Proof.
  induction l as [|a l IH]; [reflexivity|].
  unfold sum in *. cbn [map fold_right List.length]. rewrite IH. lia.
Qed.

(** Splitting a list by the value of a key: the parts add up to the
    whole. *)
Lemma sum_by_key {A} (key f : A -> Z) (keys : list Z) (l : list A) :
  NoDup keys ->
  (forall a, In a l -> In (key a) keys) ->
  sum (map (fun k => sum (map f (filter (fun a => key a =? k) l))) keys)
  = sum (map f l).
Proof.
  intros Hnd. induction l as [|a l IH]; intros Hin.
  - simpl. apply sum_map_zero.
  - assert (Hsplit : forall k,
               sum (map f (filter (fun x => key x =? k) (a :: l)))
               = (if k =? key a then f a else 0)
                 + sum (map f (filter (fun x => key x =? k) l))).
    { intros k. simpl. rewrite (Z.eqb_sym k).
      destruct (key a =? k); reflexivity. }
    rewrite (map_ext _ _ Hsplit), sum_map_add, IH.
    + rewrite (sum_at_key (fun k => k)); [reflexivity | | ].
      * now rewrite map_id.
      * rewrite map_id. apply Hin. now left.
    + intros x Hx. apply Hin. now right.
Qed.

Lemma in_group_by_iff {R} (key : R -> Z) (rows : list R) k g :
  In (k, g) (SQL.group_by key rows)
  <-> In k (map key rows) /\ g = filter (fun r => key r =? k) rows.
Proof.
  split; [apply in_group_by|].
  intros [Hk ->]. unfold SQL.group_by. apply in_map_iff.
  exists k. split; [reflexivity | now apply nodup_In].
Qed.

Lemma group_by_keys {R} (key : R -> Z) (rows : list R) :
  map fst (SQL.group_by key rows) = nodup Z.eq_dec (map key rows).
Proof.
  unfold SQL.group_by. rewrite map_map. apply map_id.
Qed.

(** The groups of [GROUP BY] add up to the rows grouped. *)
Lemma sum_of_groups {R} (key f : R -> Z) (rows : list R) :
  sum (map (fun kg => sum (map f (snd kg))) (SQL.group_by key rows))
  = sum (map f rows).
Proof.
  unfold SQL.group_by. rewrite map_map. cbn [snd].
  apply sum_by_key; [apply NoDup_nodup|].
  intros a Ha. apply nodup_In. now apply in_map.
Qed.

Lemma dict_get_set_same {V} k (v : V) d :
  Dict.get k (Dict.set k v d) = Some v.
Proof.
  induction d as [|[k0 v0] d IH]; simpl.
  - now rewrite Z.eqb_refl.
  - destruct (k0 =? k) eqn:Hk; simpl; [now rewrite Z.eqb_refl|].
    now rewrite Hk.
Qed.

Lemma fill_get_in rows d row :
  NoDup (map MonthTotal.month rows) -> In row rows ->
  Dict.get (MonthTotal.month row) (Expense.fill rows d) = Some row.
Proof.
  revert d. induction rows as [|r rows IH]; intros d Hnd Hin;
    [contradiction|].
  inversion Hnd as [|? ? Hnot Hnd']; subst.
  change (Expense.fill (r :: rows) d)
    with (Expense.fill rows (Dict.set (MonthTotal.month r) r d)).
  destruct Hin as [->|Hin].
  - rewrite fill_get_other by exact Hnot. apply dict_get_set_same.
  - now apply IH.
Qed.

Lemma dict_values_by_get {V} (g : Z -> V) (d : Dict.t V) :
  NoDup (map fst d) ->
  (forall k, In k (map fst d) -> Dict.get k d = Some (g k)) ->
  Dict.values d = map g (map fst d).
Proof.
  induction d as [|[k v] d IH]; intros Hnd Hget; [reflexivity|].
  inversion Hnd as [|? ? Hnot Hnd']; subst.
  unfold Dict.values in *. simpl. f_equal.
  - specialize (Hget k (or_introl eq_refl)). simpl in Hget.
    rewrite Z.eqb_refl in Hget. congruence.
  - apply IH; [exact Hnd'|]. intros k' Hk'.
    specialize (Hget k' (or_intror Hk')). simpl in Hget.
    destruct (k =? k') eqn:Hkk; [|exact Hget].
    apply Z.eqb_eq in Hkk. subst. contradiction.
Qed.

Lemma monthly_rows_iff user_id year_ w row :
  let mine := filter (Expense.in_year user_id year_) (expenses w) in
  let key := fun e => month (ExpenseRow.expense_date e) in
  In row (Expense.monthly_rows user_id year_ w)
  <-> exists k, In k (map key mine)
                /\ row = Expense.month_total
                           (k, filter (fun e => key e =? k) mine).
Proof.
  intros mine key. unfold Expense.monthly_rows.
  rewrite in_order_by, in_map_iff. split.
  - intros [[k g] [<- Hin]]. apply in_group_by_iff in Hin.
    destruct Hin as [Hk ->]. now exists k.
  - intros [k [Hk ->]]. eexists. split; [reflexivity|].
    apply in_group_by_iff. auto.
Qed.

Lemma monthly_rows_distinct user_id year_ w :
  NoDup (map MonthTotal.month (Expense.monthly_rows user_id year_ w)).
Proof.
  unfold Expense.monthly_rows.
  eapply Permutation_NoDup.
  - apply Permutation_sym, Permutation_map, order_by_perm.
  - rewrite map_map.
    rewrite (map_ext _ fst); [|intros [k g]; reflexivity].
    rewrite group_by_keys. apply NoDup_nodup.
Qed.

Lemma monthly_entries_online w user_id year_ :
  online w = true ->
  dates_valid w ->
  result_of (Expense.get_monthly_totals user_id year_ w)
  = map (month_entry user_id year_ w) [1; 2; 3; 4; 5; 6; 7; 8; 9; 10; 11; 12].
Proof.
  intros Hon Hvalid.
  unfold Expense.get_monthly_totals, bind, ret, Database.execute_query,
    result_of.
  rewrite Hon. cbn [fst].
  set (rows := Expense.monthly_rows user_id year_ w).
  set (zero := map (fun i => (i, MonthTotal.mk i 0 0)) (range 1 13)).
  assert (Hmonth : forall row, In row rows ->
                     1 <= MonthTotal.month row <= 12).
  { intros row Hrow. apply monthly_rows_month in Hrow.
    destruct Hrow as [e [He [_ <-]]].
    unfold dates_valid in Hvalid. rewrite Forall_forall in Hvalid.
    apply (Hvalid e He). }
  assert (Hkeys : map fst (Expense.fill rows zero)
                  = [1; 2; 3; 4; 5; 6; 7; 8; 9; 10; 11; 12]).
  { rewrite fill_keys; [reflexivity|].
    intros row Hrow. specialize (Hmonth row Hrow).
    change (map fst zero) with [1; 2; 3; 4; 5; 6; 7; 8; 9; 10; 11; 12].
    simpl. lia. }
  rewrite <- Hkeys. apply dict_values_by_get.
  - rewrite Hkeys. repeat constructor; simpl; intuition discriminate.
  - intros k Hk. rewrite Hkeys in Hk.
    set (mine := filter (Expense.in_year user_id year_) (expenses w)).
    set (key := fun e : ExpenseRow.t => month (ExpenseRow.expense_date e)).
    assert (Hentry : month_entry user_id year_ w k
                     = Expense.month_total
                         (k, filter (fun e => key e =? k) mine)).
    { unfold month_entry, Expense.month_total, mine.
      rewrite filter_filter_and, coalesce_sum. reflexivity. }
    destruct (in_dec Z.eq_dec k (map MonthTotal.month rows)) as [Hin|Hout].
    + apply in_map_iff in Hin. destruct Hin as [row [Hrk Hrow]].
      pose proof (@fill_get_in rows zero row
                    (monthly_rows_distinct user_id year_ w) Hrow) as Hget.
      rewrite Hrk in Hget. rewrite Hget.
      apply monthly_rows_iff in Hrow. destruct Hrow as [k' [_ Heq]].
      rewrite Heq in Hrk. simpl in Hrk. subst k'.
      now rewrite Hentry, Heq.
    + rewrite fill_get_other by exact Hout.
      assert (Hnone : filter (fun e => key e =? k) mine = []).
      { apply filter_none. intros e He. apply Z.eqb_neq. intros Heq.
        apply Hout. apply in_map_iff.
        exists (Expense.month_total
                  (k, filter (fun e => key e =? k) mine)).
        split; [reflexivity|]. apply monthly_rows_iff.
        exists k. split; [|reflexivity].
        rewrite <- Heq. now apply in_map. }
      rewrite Hentry, Hnone.
      simpl in Hk.
      repeat (destruct Hk as [<-|Hk]; [reflexivity|]). contradiction.
Qed.

(** X1. With calendar dates in [expenses], [get_monthly_totals] is the
    list of the twelve months in order, each with the sum and the number
    of the expenses of the user dated in that month of the year; when
    the server cannot be reached, each with total 0 and count 0. *)
Theorem get_monthly_totals_entries w user_id year_ :
  dates_valid w ->
  result_of (Expense.get_monthly_totals user_id year_ w)
  = map (if online w then month_entry user_id year_ w
         else fun m => MonthTotal.mk m 0 0)
        [1; 2; 3; 4; 5; 6; 7; 8; 9; 10; 11; 12].
Proof.
  intros Hvalid. destruct (online w) eqn:Hon.
  - now apply monthly_entries_online.
  - unfold Expense.get_monthly_totals, bind, ret, Database.execute_query,
      result_of.
    rewrite Hon. reflexivity.
Qed.

Lemma get_monthly_totals_entries_witness :
  nth 2 (result_of (Expense.get_monthly_totals 1 2024 Scenario.w0))
      (MonthTotal.mk 0 0 0)
  = MonthTotal.mk 3 40000 3.
Proof.
  rewrite (@get_monthly_totals_entries Scenario.w0 1 2024).
  - reflexivity.
  - unfold dates_valid, valid_date. simpl.
    repeat constructor; simpl; lia.
Defined.

Lemma year_window (y : Z) (d : date) :
  valid_date d ->
  date_leb (mkDate y 1 1) d && date_leb d (mkDate y 12 31) = (year d =? y).
Proof.
  intros [Hm Hd]. destruct d as [dy dm dd].
  unfold date_leb. cbn [year month day] in *.
  compare_all.
Qed.

Lemma sum_of_month_entries (f : ExpenseRow.t -> Z) user_id year_ w :
  dates_valid w ->
  sum (map (fun m =>
              sum (map f
                     (filter (fun e => Expense.in_year user_id year_ e
                                       && (month (ExpenseRow.expense_date e)
                                           =? m))
                             (expenses w))))
           [1; 2; 3; 4; 5; 6; 7; 8; 9; 10; 11; 12])
  = sum (map f (filter (Expense.in_year user_id year_) (expenses w))).
Proof.
  intros Hvalid.
  rewrite <- (sum_by_key (fun e => month (ExpenseRow.expense_date e)) f
                (keys := [1; 2; 3; 4; 5; 6; 7; 8; 9; 10; 11; 12])).
  - f_equal. apply map_ext. intros m. now rewrite filter_filter_and.
  - repeat constructor; simpl; intuition discriminate.
  - intros e He. apply filter_In in He. destruct He as [He _].
    unfold dates_valid in Hvalid. rewrite Forall_forall in Hvalid.
    destruct (Hvalid e He) as [Hm _]. simpl. lia.
Qed.

(** X2. With calendar dates in [expenses], the twelve totals of
    [get_monthly_totals] add up to the value of [get_total_expenses]
    from 1 January to 31 December of the year, and the twelve counts to
    the count of [get_expense_stats] over the same range. *)
Theorem monthly_totals_add_up_to_year (F : Type) (float : Z -> F)
        w user_id year_ :
  dates_valid w ->
  let months := result_of (Expense.get_monthly_totals user_id year_ w) in
  let first_day := Some (mkDate year_ 1 1) in
  let last_day := Some (mkDate year_ 12 31) in
  float (sum (map MonthTotal.total months))
  = result_of (Expense.get_total_expenses float user_id first_day last_day
                                          None w)
  /\ sum (map MonthTotal.count months)
     = Stats.count (result_of (Expense.get_expense_stats user_id first_day
                                                         last_day w)).
Proof.
  intros Hvalid months first_day last_day. subst months.
  assert (Hsame : filter (fun e => (ExpenseRow.user_id e =? user_id)
                                   && Expense.and_dates first_day last_day e)
                         (expenses w)
                  = filter (Expense.in_year user_id year_) (expenses w)).
  { apply filter_ext_in. intros e He.
    unfold dates_valid in Hvalid. rewrite Forall_forall in Hvalid.
    unfold Expense.and_dates, Expense.in_year, first_day, last_day.
    now rewrite (year_window year_ (Hvalid e He)). }
  destruct (online w) eqn:Hon.
  - rewrite monthly_entries_online by assumption.
    rewrite !map_map. unfold month_entry. cbn [MonthTotal.total
                                                MonthTotal.count].
    rewrite (sum_of_month_entries ExpenseRow.amount user_id year_ Hvalid).
    rewrite (map_ext _ (fun m =>
               sum (map (fun _ => 1)
                      (filter (fun e => Expense.in_year user_id year_ e
                                        && (month (ExpenseRow.expense_date e)
                                            =? m))
                              (expenses w)))));
      [|intros m; now rewrite sum_map_one].
    rewrite (sum_of_month_entries (fun _ => 1) user_id year_ Hvalid).
    rewrite sum_map_one.
    unfold Expense.get_total_expenses, Expense.get_expense_stats, bind, ret,
      Database.execute_query, result_of.
    rewrite Hon. cbn [fst Stats.count Expense.stats_row].
    rewrite coalesce_sum. split.
    + do 3 f_equal. rewrite <- Hsame. apply filter_ext. intros e.
      now rewrite andb_true_r.
    + unfold SQL.COUNT. rewrite length_map, Hsame. reflexivity.
  - unfold Expense.get_monthly_totals, Expense.get_total_expenses,
      Expense.get_expense_stats, bind, ret, Database.execute_query,
      result_of.
    rewrite Hon. split; reflexivity.
Qed.

Lemma monthly_totals_add_up_to_year_witness :
  sum (map MonthTotal.total
         (result_of (Expense.get_monthly_totals 1 2024 Scenario.w0)))
  = 40000
  /\ result_of (Expense.get_total_expenses (fun cents => cents) 1
                  (Some (mkDate 2024 1 1)) (Some (mkDate 2024 12 31)) None
                  Scenario.w0)
     = 40000.
Proof.
  destruct (@monthly_totals_add_up_to_year Z (fun cents => cents)
              Scenario.w0 1 2024) as [Htotal _].
  - unfold dates_valid, valid_date. simpl.
    repeat constructor; simpl; lia.
  - split; [|reflexivity]. rewrite Htotal. reflexivity.
Defined.

Lemma sorted_distinct_strict {A} (key : A -> Z) (l : list A) :
  StronglySorted (fun a b => key a <= key b) l ->
  NoDup (map key l) ->
  StronglySorted (fun a b => key a < key b) l.
Proof.
  induction 1 as [|a l Hs IH Hall]; intros Hnd; constructor.
  - apply IH. now inversion Hnd.
  - inversion Hnd as [|? ? Hnot _]; subst.
    rewrite Forall_forall in *. intros b Hb.
    specialize (Hall b Hb).
    assert (key a <> key b)
      by (intros Heq; apply Hnot; rewrite Heq; now apply in_map).
    lia.
Qed.

Lemma daily_rows_online w user_id year_ month_ :
  online w = true ->
  result_of (Expense.get_daily_totals user_id year_ month_ w)
  = SQL.order_by Expense.day_asc
      (map Expense.day_total
         (SQL.group_by (fun e => day (ExpenseRow.expense_date e))
            (filter (Expense.in_month user_id year_ month_) (expenses w)))).
Proof.
  intros Hon.
  unfold Expense.get_daily_totals, bind, ret, Database.execute_query,
    result_of.
  rewrite Hon. cbn [fst]. destruct (SQL.order_by _ _); reflexivity.
Qed.

(** X3. With calendar dates in [expenses] and a month from 1 to 12, the
    rows of [get_daily_totals] add up, in total and in count, to the
    entry of that month in [get_monthly_totals]; every row stands for at
    least one expense, and the days are strictly increasing. *)
Theorem daily_totals_partition_month w user_id year_ month_ :
  dates_valid w ->
  1 <= month_ <= 12 ->
  let days := result_of
                (Expense.get_daily_totals user_id year_ month_ w) in
  In (MonthTotal.mk month_ (sum (map DayTotal.total days))
                    (sum (map DayTotal.count days)))
     (result_of (Expense.get_monthly_totals user_id year_ w))
  /\ Forall (fun d => 1 <= DayTotal.count d) days
  /\ StronglySorted (fun a b => DayTotal.day a < DayTotal.day b) days.
Proof.
  intros Hvalid Hmonth days. subst days.
  assert (Hlisted : In month_ [1; 2; 3; 4; 5; 6; 7; 8; 9; 10; 11; 12])
    by (simpl; lia).
  destruct (online w) eqn:Hon.
  - rewrite daily_rows_online, monthly_entries_online by assumption.
    set (mine := filter (Expense.in_month user_id year_ month_)
                        (expenses w)).
    set (key := fun e : ExpenseRow.t => day (ExpenseRow.expense_date e)).
    set (groups := SQL.group_by key mine).
    pose proof (order_by_perm Expense.day_asc
                  (map Expense.day_total groups)) as Hperm.
    split; [|split].
    + apply in_map_iff. exists month_. split; [|exact Hlisted].
      unfold month_entry. f_equal.
      * rewrite (sum_perm (Permutation_map DayTotal.total Hperm)), map_map.
        rewrite (map_ext _ (fun kg =>
                   sum (map ExpenseRow.amount (snd kg))));
          [|intros [k g]; simpl; apply coalesce_sum].
        unfold groups. rewrite sum_of_groups. reflexivity.
      * rewrite (sum_perm (Permutation_map DayTotal.count Hperm)), map_map.
        rewrite (map_ext _ (fun kg => sum (map (fun _ => 1) (snd kg))));
          [|intros [k g]; simpl; now rewrite sum_map_one].
        unfold groups. rewrite sum_of_groups, sum_map_one. reflexivity.
    + rewrite Forall_forall. intros d Hd.
      apply in_order_by, in_map_iff in Hd.
      destruct Hd as [[k g] [<- Hg]]. apply in_group_by_iff in Hg.
      destruct Hg as [Hk ->]. apply in_map_iff in Hk.
      destruct Hk as [e [Hek He]].
      assert (Hin : In e (filter (fun r => key r =? k) mine))
        by (apply filter_In; split; [exact He | now apply Z.eqb_eq]).
      simpl. unfold SQL.COUNT.
      destruct (filter (fun r => key r =? k) mine);
        [contradiction | simpl; lia].
    + apply sorted_distinct_strict.
      * eapply strongly_sorted_weaken;
          [|apply order_by_sorted with (before := Expense.day_asc)].
        -- intros a b H. unfold Expense.day_asc in H. lia.
        -- unfold Expense.day_asc. intros a b H. lia.
        -- unfold Expense.day_asc. intros a b c Hab Hbc. lia.
      * eapply Permutation_NoDup.
        -- apply Permutation_sym, Permutation_map, Hperm.
        -- rewrite map_map.
           rewrite (map_ext _ fst); [|intros [k g]; reflexivity].
           unfold groups. rewrite group_by_keys. apply NoDup_nodup.
  - unfold Expense.get_daily_totals, Expense.get_monthly_totals, bind, ret,
      Database.execute_query, result_of.
    rewrite Hon. cbn [fst]. split; [|split; constructor].
    simpl in Hlisted. simpl.
    repeat (destruct Hlisted as [<-|Hlisted]; [tauto|]). contradiction.
Qed.

Lemma daily_totals_partition_month_witness :
  let days := result_of (Expense.get_daily_totals 1 2024 3 Scenario.w0) in
  map DayTotal.day days = [2; 9; 21]
  /\ In (MonthTotal.mk 3 (sum (map DayTotal.total days))
                       (sum (map DayTotal.count days)))
        (result_of (Expense.get_monthly_totals 1 2024 Scenario.w0)).
Proof.
  intros days. split; [reflexivity|].
  apply (@daily_totals_partition_month Scenario.w0 1 2024 3); [|lia].
  unfold dates_valid, valid_date. simpl. repeat constructor; simpl; lia.
Defined.

(* ------------------------------------------------------------------ *)
(** ** Statistics                                                       *)
(* ------------------------------------------------------------------ *)

Lemma div_round_between (a b lo hi : Z) :
  0 < b -> lo * b <= a <= hi * b -> lo <= SQL.div_round a b <= hi.
Proof.
  intros Hb [Hlo Hhi]. unfold SQL.div_round.
  destruct (Z.lt_trichotomy a 0) as [Hneg | [-> | Hpos]].
  - rewrite Z.sgn_neg, Z.abs_neq by lia.
    assert (- hi <= (2 * - a + b) / (2 * b))
      by (apply Z.div_le_lower_bound; nia).
    assert ((2 * - a + b) / (2 * b) < - lo + 1)
      by (apply Z.div_lt_upper_bound; nia).
    lia.
  - simpl. nia.
  - rewrite Z.sgn_pos, Z.abs_eq by lia.
    assert (lo <= (2 * a + b) / (2 * b))
      by (apply Z.div_le_lower_bound; nia).
    assert ((2 * a + b) / (2 * b) < hi + 1)
      by (apply Z.div_lt_upper_bound; nia).
    lia.
Qed.

Lemma fold_max_spec (x : Z) (t : list Z) :
  In (fold_right Z.max x t) (x :: t)
  /\ Forall (fun a => a <= fold_right Z.max x t) (x :: t).
Proof.
  induction t as [|y t [IHin IHall]]; simpl.
  - split; [now left | repeat constructor; lia].
  - split.
    + destruct (Z.max_spec y (fold_right Z.max x t)) as [[_ ->]|[_ ->]].
      * destruct IHin as [<-|Hin]; [now left | right; now right].
      * right. now left.
    + inversion IHall as [|? ? Hx Ht]; subst.
      constructor; [lia | constructor; [lia|]].
      eapply Forall_impl; [|exact Ht]. intros a Ha. simpl in Ha. lia.
Qed.

Lemma fold_min_spec (x : Z) (t : list Z) :
  In (fold_right Z.min x t) (x :: t)
  /\ Forall (fun a => fold_right Z.min x t <= a) (x :: t).
Proof.
  induction t as [|y t [IHin IHall]]; simpl.
  - split; [now left | repeat constructor; lia].
  - split.
    + destruct (Z.min_spec y (fold_right Z.min x t)) as [[_ ->]|[_ ->]].
      * right. now left.
      * destruct IHin as [<-|Hin]; [now left | right; now right].
    + inversion IHall as [|? ? Hx Ht]; subst.
      constructor; [lia | constructor; [lia|]].
      eapply Forall_impl; [|exact Ht]. intros a Ha. simpl in Ha. lia.
Qed.

Lemma sum_between (lo hi : Z) (l : list Z) :
  Forall (fun a => lo <= a <= hi) l ->
  lo * Z.of_nat (List.length l) <= sum l <= hi * Z.of_nat (List.length l).
Proof.
  induction 1 as [|a l Ha _ IH]; unfold sum in *;
    cbn [fold_right List.length]; [lia|].
  rewrite Nat2Z.inj_succ. lia.
Qed.

(** X4. When the server is reachable and at least one expense of the
    user lies in the range, the row of [get_expense_stats] carries the
    sum and the number of the amounts in the range, its maximum and
    minimum are amounts of the range that bound all the others, and the
    average (in millionths) lies between the minimum and the maximum. *)
Theorem stats_within_bounds w user_id start_date end_date :
  online w = true ->
  stats_amounts user_id start_date end_date w <> [] ->
  let amounts := stats_amounts user_id start_date end_date w in
  let s := result_of
             (Expense.get_expense_stats user_id start_date end_date w) in
  Stats.total s = sum amounts
  /\ Stats.count s = Z.of_nat (List.length amounts)
  /\ In (Stats.max_expense s) amounts
  /\ In (Stats.min_expense s) amounts
  /\ Forall (fun a => Stats.min_expense s <= a <= Stats.max_expense s)
            amounts
  /\ Stats.min_expense s * 10000 <= Stats.average s
     <= Stats.max_expense s * 10000.
Proof.
  intros Hon Hne amounts s. subst s amounts.
  rewrite get_expense_stats_online by exact Hon.
  destruct (stats_amounts user_id start_date end_date w) as [|x t];
    [congruence|].
  unfold Expense.stats_row.
  cbn [Stats.total Stats.count Stats.max_expense Stats.min_expense
       Stats.average SQL.SUM SQL.MAX SQL.MIN SQL.AVG SQL.COALESCE].
  destruct (fold_max_spec x t) as [Hmax_in Hmax].
  destruct (fold_min_spec x t) as [Hmin_in Hmin].
  assert (Hall : Forall (fun a => fold_right Z.min x t <= a
                                  <= fold_right Z.max x t) (x :: t)).
  { rewrite Forall_forall in *. intros a Hin.
    split; [now apply Hmin | now apply Hmax]. }
  split; [reflexivity | split; [reflexivity|]].
  split; [exact Hmax_in | split; [exact Hmin_in | split; [exact Hall|]]].
  apply div_round_between.
  - unfold SQL.COUNT. cbn [List.length]. lia.
  - pose proof (sum_between Hall) as Hs. unfold sum, SQL.COUNT in *. nia.
Qed.

Lemma stats_within_bounds_witness :
  let s := result_of (Expense.get_expense_stats 1 None None Scenario.w0) in
  Stats.min_expense s = 4950
  /\ Stats.max_expense s = 25050
  /\ Stats.min_expense s * 10000 <= Stats.average s
     <= Stats.max_expense s * 10000.
Proof.
  intros s.
  destruct (@stats_within_bounds Scenario.w0 1 None None eq_refl)
    as [_ [_ [_ [_ [_ Havg]]]]]; [discriminate|].
  split; [reflexivity | split; [reflexivity | exact Havg]].
Defined.

(** X5. When no expense of the user lies in the range, or the server
    cannot be reached, [get_expense_stats] returns total, average,
    maximum, minimum and count all 0, and [get_total_expenses] returns
    the float of 0. *)
Theorem stats_of_nothing (F : Type) (float : Z -> F)
        w user_id start_date end_date :
  online w = false \/ stats_amounts user_id start_date end_date w = [] ->
  result_of (Expense.get_expense_stats user_id start_date end_date w)
  = Stats.mk 0 0 0 0 0
  /\ result_of (Expense.get_total_expenses float user_id start_date
                                           end_date None w)
     = float 0.
Proof.
  intros Hcase.
  destruct (online w) eqn:Hon.
  - destruct Hcase as [Hoff|Hnone]; [discriminate|].
    rewrite get_expense_stats_online by exact Hon. rewrite Hnone.
    split; [reflexivity|].
    unfold Expense.get_total_expenses, bind, ret, Database.execute_query,
      result_of.
    rewrite Hon. cbn [fst].
    unfold stats_amounts in Hnone.
    rewrite (filter_ext _ (in_filters user_id start_date end_date));
      [now rewrite Hnone|].
    intros e. unfold in_filters. now rewrite andb_true_r.
  - unfold Expense.get_expense_stats, Expense.get_total_expenses, bind, ret,
      Database.execute_query, result_of.
    rewrite Hon. split; reflexivity.
Qed.

Lemma stats_of_nothing_witness :
  result_of (Expense.get_expense_stats 1 (Some (mkDate 2025 1 1)) None
                                       Scenario.w0)
  = Stats.mk 0 0 0 0 0
  /\ result_of (Expense.get_expense_stats 1 None None Scenario.offline)
     = Stats.mk 0 0 0 0 0.
Proof.
  split.
  - apply (@stats_of_nothing Z (fun cents => cents) Scenario.w0 1
             (Some (mkDate 2025 1 1)) None).
    right. reflexivity.
  - apply (@stats_of_nothing Z (fun cents => cents) Scenario.offline 1
             None None).
    left. reflexivity.
Defined.

(* ------------------------------------------------------------------ *)
(** ** The list of a user's expenses                                    *)
(* ------------------------------------------------------------------ *)

Lemma date_leb_iff (a b : date) :
  date_leb a b = true
  <-> year a < year b
      \/ (year a = year b
          /\ (month a < month b \/ (month a = month b /\ day a <= day b))).
Proof.
  unfold date_leb.
  rewrite !orb_true_iff, !andb_true_iff, !orb_true_iff, !andb_true_iff,
    !Z.ltb_lt, !Z.eqb_eq, Z.leb_le.
  reflexivity.
Qed.

Lemma date_leb_total (a b : date) :
  date_leb a b = false -> date_leb b a = true.
Proof.
  intros H. apply date_leb_iff.
  assert (Hn : ~ date_leb a b = true) by congruence.
  rewrite date_leb_iff in Hn. lia.
Qed.

Lemma date_leb_trans (a b c : date) :
  date_leb a b = true -> date_leb b c = true -> date_leb a c = true.
Proof.
  rewrite !date_leb_iff. lia.
Qed.

Section NewestFirst.
Variable created_at : ExpenseRow.t -> Z.
Let before := Expense.newest_first created_at.

Lemma newest_first_date a b :
  before a b = true ->
  date_leb (ExpenseRow.expense_date (fst b))
           (ExpenseRow.expense_date (fst a)) = true.
Proof.
  unfold before, Expense.newest_first. cbv zeta.
  destruct (date_leb (ExpenseRow.expense_date (fst a))
                     (ExpenseRow.expense_date (fst b))) eqn:Hab;
    cbn [negb orb].
  - intros H. now apply andb_prop in H.
  - intros _. now apply date_leb_total.
Qed.

Lemma newest_first_total a b : before a b = false -> before b a = true.
Proof.
  unfold before, Expense.newest_first. cbv zeta.
  destruct (date_leb (ExpenseRow.expense_date (fst a))
                     (ExpenseRow.expense_date (fst b))) eqn:Hab,
           (date_leb (ExpenseRow.expense_date (fst b))
                     (ExpenseRow.expense_date (fst a))) eqn:Hba;
    cbn [negb orb andb]; try discriminate; try reflexivity.
  intros H. apply Z.leb_gt in H. apply Z.leb_le. lia.
Qed.

Lemma newest_first_trans a b c :
  before a b = true -> before b c = true -> before a c = true.
Proof.
  unfold before, Expense.newest_first. cbv zeta.
  set (da := ExpenseRow.expense_date (fst a)).
  set (db := ExpenseRow.expense_date (fst b)).
  set (dc := ExpenseRow.expense_date (fst c)).
  rewrite !orb_true_iff, !andb_true_iff, !negb_true_iff, !Z.leb_le.
  intros Hab Hbc.
  assert (Hnot : forall x y, date_leb x y = false <-> ~ date_leb x y = true)
    by (intros x y; destruct (date_leb x y); split; congruence).
  rewrite !Hnot, !date_leb_iff in *. lia.
Qed.

Lemma newest_first_sorted l :
  StronglySorted
    (fun a b => date_leb (ExpenseRow.expense_date (fst b))
                         (ExpenseRow.expense_date (fst a)) = true)
    (SQL.order_by before l).
Proof.
  eapply strongly_sorted_weaken; [|apply order_by_sorted].
  - intros a b. apply newest_first_date.
  - apply newest_first_total.
  - apply newest_first_trans.
Qed.
End NewestFirst.

Lemma strongly_sorted_firstn {A} (R : A -> A -> Prop) n (l : list A) :
  StronglySorted R l -> StronglySorted R (firstn n l).
Proof.
  intros Hs. revert n. induction Hs as [|a l Hs IH Hall]; intros [|n];
    simpl; constructor; [apply IH|].
  rewrite Forall_forall in *. intros b Hb. apply Hall.
  rewrite <- (firstn_skipn n l). apply in_or_app. now left.
Qed.

Lemma strongly_sorted_skipn {A} (R : A -> A -> Prop) n (l : list A) :
  StronglySorted R l -> StronglySorted R (skipn n l).
Proof.
  intros Hs. revert n. induction Hs as [|a l Hs IH Hall]; intros [|n];
    simpl; try constructor; auto.
Qed.

Lemma strongly_sorted_map {A B} (f : A -> B) (R : B -> B -> Prop)
      (l : list A) :
  StronglySorted (fun a b => R (f a) (f b)) l ->
  StronglySorted R (map f l).
Proof.
  induction 1 as [|a l Hs IH Hall]; simpl; constructor; [exact IH|].
  rewrite Forall_forall in *. intros b Hb. apply in_map_iff in Hb.
  destruct Hb as [x [<- Hx]]. now apply Hall.
Qed.

Lemma limit_offset_incl {R} limit offset (rows : list R) x :
  In x (Expense.limit_offset limit offset rows) -> In x rows.
Proof.
  unfold Expense.limit_offset. destruct limit as [[|n]|]; try tauto.
  intros Hin.
  rewrite <- (firstn_skipn offset rows). apply in_or_app. right.
  rewrite <- (firstn_skipn (S n) (skipn offset rows)).
  apply in_or_app. now left.
Qed.

Lemma row_of_of_row e c : row_of (Expense.of_row (e, c)) = e.
Proof. destruct e. reflexivity. Qed.

(** X6. Every expense that [get_user_expenses] returns is a stored row
    of the user that passes the date and category filters given; the
    list is ordered by date, newest first; and under a limit other than
    0 it has at most that many entries. *)
Theorem get_user_expenses_filtered_sorted
        (created_at : ExpenseRow.t -> Z) w user_id start_date end_date
        category_id limit offset :
  let r := result_of (Expense.get_user_expenses created_at user_id
                        start_date end_date category_id limit offset w) in
  Forall (fun x => In (row_of x) (expenses w)
                   /\ ExpenseObject.user_id x = user_id
                   /\ Expense.and_dates start_date end_date (row_of x) = true
                   /\ Expense.and_category category_id (row_of x) = true)
         r
  /\ StronglySorted
       (fun x y => date_leb (ExpenseObject.expense_date y)
                            (ExpenseObject.expense_date x) = true) r
  /\ match limit with
     | Some (S n) => (List.length r <= S n)%nat
     | _ => True
     end.
Proof.
  intros r. subst r.
  unfold Expense.get_user_expenses, bind, ret, Database.execute_query,
    result_of.
  destruct (online w); cbn [fst];
    [|split; [apply Forall_nil
             | split; [apply SSorted_nil
                      | destruct limit as [[|?]|]; simpl; lia]]].
  match goal with
  | |- context [SQL.order_by ?b (filter ?p ?l)] =>
      set (matching := filter p l); set (sorted := SQL.order_by b matching)
  end.
  split; [|split].
  - rewrite Forall_forall. intros x Hx. apply in_map_iff in Hx.
    destruct Hx as [[e c] [<- Hin]].
    apply limit_offset_incl in Hin. apply in_order_by in Hin.
    apply filter_In in Hin. destruct Hin as [Hjoin Hp].
    apply in_join in Hjoin. destruct Hjoin as [He _].
    cbn [fst] in Hp. apply andb_prop in Hp. destruct Hp as [Hp Hcat].
    apply andb_prop in Hp. destruct Hp as [Huser Hdates].
    rewrite row_of_of_row. apply Z.eqb_eq in Huser.
    repeat split; try assumption.
  - apply strongly_sorted_map.
    assert (Hs : StronglySorted
                   (fun a b : ExpenseRow.t * CategoryRow.t =>
                      date_leb
                        (ExpenseObject.expense_date (Expense.of_row b))
                        (ExpenseObject.expense_date (Expense.of_row a))
                      = true) sorted).
    { eapply strongly_sorted_weaken; [|apply newest_first_sorted].
      intros [e1 c1] [e2 c2] H. exact H. }
    unfold Expense.limit_offset. destruct limit as [[|n]|]; try exact Hs.
    apply strongly_sorted_firstn, strongly_sorted_skipn, Hs.
  - destruct limit as [[|n]|]; try exact I.
    rewrite length_map. cbn [Expense.limit_offset]. apply firstn_le_length.
Qed.

Lemma firstn_app_skipn {A} (a b : nat) (l : list A) :
  firstn a l ++ firstn b (skipn a l) = firstn (a + b) l.
Proof.
  revert l. induction a as [|a IH]; intros l; [reflexivity|].
  destruct l as [|x l]; [now destruct b|].
  simpl. now rewrite IH.
Qed.

Lemma skipn_add {A} (a b : nat) (l : list A) :
  skipn (a + b) l = skipn b (skipn a l).
Proof.
  revert l. induction a as [|a IH]; intros l; [reflexivity|].
  destruct l as [|x l]; [now destruct b | apply IH].
Qed.

(** Under an order without ties a list has one sorted arrangement. *)
Lemma sorted_arrangement_unique {A} (before : A -> A -> bool)
      (l1 l2 : list A) :
  (forall a b, In a l1 -> In b l1 ->
               before a b = true -> before b a = true -> a = b) ->
  Permutation l1 l2 ->
  StronglySorted (fun a b => before a b = true) l1 ->
  StronglySorted (fun a b => before a b = true) l2 ->
  l1 = l2.
Proof.
  revert l2. induction l1 as [|a l1 IH]; intros l2 Hanti Hperm Hs1 Hs2.
  - apply Permutation_nil in Hperm. now subst.
  - destruct l2 as [|b l2];
      [apply Permutation_sym, Permutation_nil in Hperm; discriminate|].
    inversion Hs1 as [|? ? Hs1' Hall1]; subst.
    inversion Hs2 as [|? ? Hs2' Hall2]; subst.
    rewrite Forall_forall in Hall1, Hall2.
    assert (Hab : a = b).
    { assert (Ha : In a (b :: l2))
        by (apply (Permutation_in _ Hperm); now left).
      assert (Hb : In b (a :: l1))
        by (apply (Permutation_in _ (Permutation_sym Hperm)); now left).
      destruct Ha as [Ha|Ha]; [now subst|].
      destruct Hb as [Hb|Hb]; [now subst|].
      apply Hanti; [now left | now right | now apply Hall1
                   | now apply Hall2]. }
    subst b. f_equal. apply Permutation_cons_inv in Hperm.
    apply IH; try assumption.
    intros x y Hx Hy. apply Hanti; now right.
Qed.

Lemma date_leb_antisym (a b : date) :
  date_leb a b = true -> date_leb b a = true -> a = b.
Proof.
  rewrite !date_leb_iff. destruct a as [ya ma da], b as [yb mb db].
  cbn [year month day]. intros H1 H2.
  assert (ya = yb /\ ma = mb /\ da = db) as [-> [-> ->]] by lia.
  reflexivity.
Qed.

(** Two rows that may each stand before the other tie on the date and
    on [created_at]. *)
Lemma newest_first_tie (created_at : ExpenseRow.t -> Z) a b :
  Expense.newest_first created_at a b = true ->
  Expense.newest_first created_at b a = true ->
  ExpenseRow.expense_date (fst a) = ExpenseRow.expense_date (fst b)
  /\ created_at (fst a) = created_at (fst b).
Proof.
  unfold Expense.newest_first. cbv zeta.
  destruct (date_leb (ExpenseRow.expense_date (fst a))
                     (ExpenseRow.expense_date (fst b))) eqn:Hab,
           (date_leb (ExpenseRow.expense_date (fst b))
                     (ExpenseRow.expense_date (fst a))) eqn:Hba;
    cbn [negb orb andb]; try discriminate.
  - intros H1 H2. apply Z.leb_le in H1, H2.
    split; [now apply date_leb_antisym | lia].
  - apply date_leb_total in Hab. congruence.
Qed.

(** X7. When no two expenses of the user tie on the date and on
    [created_at], and [category_id] is the key of [categories], the
    order of [get_user_expenses] is settled: whatever list of the
    selected rows the server returns under the ORDER BY clause, the
    page cut from it is the page returned (and there is such a list).
    Pages then fit together: the
    page of [n + 1] rows at an offset followed by the next page of
    [n + 1] rows is the page of twice as many rows at that offset; and
    a limit of 0 is no limit: it returns the whole list, as does an
    absent limit, whatever the offset. *)
Theorem get_user_expenses_pages
        (created_at : ExpenseRow.t -> Z) w user_id start_date end_date
        category_id :
  category_key w ->
  no_ties created_at user_id w ->
  let page := fun limit offset =>
    result_of (Expense.get_user_expenses created_at user_id start_date
                 end_date category_id limit offset w) in
  (online w = true ->
   (exists returned,
       newest_first_order created_at
         (selected user_id start_date end_date category_id w) returned)
   /\ forall returned limit offset,
       newest_first_order created_at
         (selected user_id start_date end_date category_id w) returned ->
       page limit offset
       = map Expense.of_row (Expense.limit_offset limit offset returned))
  /\ (forall n offset,
         page (Some (S n)) offset ++ page (Some (S n)) (offset + S n)%nat
         = page (Some (S n + S n)%nat) offset)
  /\ (forall offset, page (Some 0%nat) offset = page None 0%nat)
  /\ (forall offset, page None offset = page None 0%nat).
Proof.
  intros Hkey Hties page. subst page. cbv beta.
  unfold Expense.get_user_expenses, bind, ret, Database.execute_query,
    result_of.
  split.
  - intros Hon. split.
    { exists (SQL.order_by (Expense.newest_first created_at)
                (selected user_id start_date end_date category_id w)).
      split; [apply order_by_perm|].
      apply order_by_sorted;
        [apply newest_first_total | apply newest_first_trans]. }
    intros returned limit offset [Hperm Hsorted].
    rewrite Hon. cbn [fst]. do 2 f_equal.
    fold (selected user_id start_date end_date category_id w).
    symmetry. apply (sorted_arrangement_unique
                       (Expense.newest_first created_at)).
    + intros [e1 c1] [e2 c2] H1 H2 Hab Hba.
      apply (Permutation_in _ Hperm) in H1, H2.
      unfold selected in H1, H2.
      apply filter_In in H1, H2. cbn [fst] in H1, H2.
      destruct H1 as [Hj1 Hp1], H2 as [Hj2 Hp2].
      rewrite !andb_true_iff in Hp1, Hp2.
      destruct Hp1 as [[Hu1 _] _], Hp2 as [[Hu2 _] _].
      apply Z.eqb_eq in Hu1, Hu2.
      apply in_join in Hj1, Hj2.
      destruct Hj1 as [He1 [Hc1 Hon1]], Hj2 as [He2 [Hc2 Hon2]].
      apply Z.eqb_eq in Hon1, Hon2.
      destruct (newest_first_tie _ _ _ Hab Hba) as [Hdate Hcreated].
      cbn [fst] in Hdate, Hcreated.
      assert (He : e1 = e2)
        by (apply Hties; assumption).
      subst e2. f_equal.
      apply (nodup_key_unique CategoryRow.category_id (categories w));
        [exact Hkey | assumption | assumption | congruence].
    + eapply perm_trans; [exact Hperm|].
      apply Permutation_sym, order_by_perm.
    + exact Hsorted.
    + apply order_by_sorted;
        [apply newest_first_total | apply newest_first_trans].
  - destruct (online w); cbn [fst]; [|repeat split].
    split; [|split; reflexivity].
    intros n offset. rewrite <- map_app. f_equal.
    unfold Expense.limit_offset. cbn [Nat.add].
    rewrite skipn_add. apply (firstn_app_skipn (S n) (S n)).
Qed.

Lemma get_user_expenses_pages_witness :
  let page := fun limit offset =>
    map ExpenseObject.expense_id
        (result_of (Expense.get_user_expenses ExpenseRow.expense_id 1 None
                      None None limit offset Scenario.w0)) in
  page (Some 1%nat) 0%nat = [3]
  /\ page (Some 1%nat) 1%nat = [2]
  /\ page (Some 2%nat) 0%nat = [3; 2]
  /\ result_of (Expense.get_user_expenses ExpenseRow.expense_id 1 None
                  None None (Some 1%nat) 0%nat Scenario.w0)
     ++ result_of (Expense.get_user_expenses ExpenseRow.expense_id 1 None
                     None None (Some 1%nat) 1%nat Scenario.w0)
     = result_of (Expense.get_user_expenses ExpenseRow.expense_id 1 None
                    None None (Some 2%nat) 0%nat Scenario.w0).
Proof.
  intros page.
  destruct (@get_user_expenses_pages ExpenseRow.expense_id Scenario.w0 1
              None None None) as [_ [Hpages _]].
  - exact scenario_category_key.
  - intros e1 e2 H1 H2 Hu1 Hu2 Hdate _.
    cbn in H1, H2.
    destruct H1 as [<-|[<-|[<-|[<-|[]]]]];
      destruct H2 as [<-|[<-|[<-|[<-|[]]]]];
      first [reflexivity | discriminate Hdate | discriminate Hu1
            | discriminate Hu2].
  - split; [reflexivity|]. split; [reflexivity|]. split; [reflexivity|].
    exact (Hpages 0%nat 0%nat).
Defined.

(* ------------------------------------------------------------------ *)
(** ** What a user's reports depend on                                  *)
(* ------------------------------------------------------------------ *)

Lemma filter_within {A} (p q : A -> bool) (l : list A) :
  (forall x, p x = true -> q x = true) ->
  filter p (filter q l) = filter p l.
Proof.
  intros Himp. rewrite filter_filter_and. apply filter_ext.
  intros x. destruct (p x) eqn:Hp; [now rewrite (Himp x Hp)|].
  apply andb_false_r.
Qed.

Lemma join_within {A B} (on : A -> B -> bool) (p : A * B -> bool)
      (q : A -> bool) (l : list A) (r : list B) :
  (forall a b, p (a, b) = true -> q a = true) ->
  filter p (SQL.join on (filter q l) r) = filter p (SQL.join on l r).
Proof.
  intros Himp. unfold SQL.join.
  induction l as [|a l IH]; [reflexivity|].
  simpl. destruct (q a) eqn:Hq; simpl.
  - now rewrite !filter_app, IH.
  - rewrite filter_app, IH.
    rewrite (filter_none p (map (fun b => (a, b)) (filter (on a) r)));
      [reflexivity|].
    intros x Hin. apply in_map_iff in Hin.
    destruct Hin as [b [<- _]].
    destruct (p (a, b)) eqn:Hp; [|reflexivity].
    rewrite (Himp a b Hp) in Hq. discriminate.
Qed.

(** X8. What the reading methods return for a user does not depend on
    the rows of the other users: on the table cut down to the rows of
    the user they return what they return on the whole table. *)
Theorem reports_ignore_other_users (F : Type) (float : Z -> F)
        (created_at : ExpenseRow.t -> Z) w user_id :
  let mine := own_rows user_id w in
  (forall s e c,
      result_of (Expense.get_total_expenses float user_id s e c mine)
      = result_of (Expense.get_total_expenses float user_id s e c w))
  /\ (forall s e,
         result_of (Expense.get_category_totals user_id s e mine)
         = result_of (Expense.get_category_totals user_id s e w))
  /\ (forall y,
         result_of (Expense.get_monthly_totals user_id y mine)
         = result_of (Expense.get_monthly_totals user_id y w))
  /\ (forall y m,
         result_of (Expense.get_daily_totals user_id y m mine)
         = result_of (Expense.get_daily_totals user_id y m w))
  /\ (forall s e,
         result_of (Expense.get_expense_stats user_id s e mine)
         = result_of (Expense.get_expense_stats user_id s e w))
  /\ (forall s e c limit offset,
         result_of (Expense.get_user_expenses created_at user_id s e c
                                              limit offset mine)
         = result_of (Expense.get_user_expenses created_at user_id s e c
                                                limit offset w)).
Proof.
  intros mine. subst mine.
  assert (Huser : forall (rest : ExpenseRow.t -> bool) x,
             (ExpenseRow.user_id x =? user_id) && rest x = true ->
             (ExpenseRow.user_id x =? user_id) = true)
    by (intros rest x H; now apply andb_prop in H).
  unfold Expense.get_total_expenses, Expense.get_category_totals,
    Expense.get_monthly_totals, Expense.get_daily_totals,
    Expense.get_expense_stats, Expense.get_user_expenses,
    Expense.monthly_rows, Expense.expenses_with_category, bind, ret,
    Database.execute_query, result_of, own_rows.
  cbn [online set_expenses expenses categories].
  destruct (online w); cbn [fst]; [|repeat split].
  split; [|split; [|split; [|split; [|split]]]].
  - intros s e c. rewrite filter_within; [reflexivity|].
    intros x H. apply andb_prop in H. destruct H as [H _].
    now apply andb_prop in H.
  - intros s e. unfold SQL.left_join.
    rewrite (flat_map_ext _
               (fun a => match filter (Expense.on_category user_id s e a)
                                      (expenses w) with
                         | [] => [(a, None)]
                         | bs => map (fun b => (a, Some b)) bs
                         end)); [reflexivity|].
    intros c. rewrite filter_within; [reflexivity|].
    intros x H. unfold Expense.on_category in H.
    apply andb_prop in H. destruct H as [H _].
    now apply andb_prop in H.
  - intros y. rewrite filter_within; [reflexivity|].
    intros x H. now apply andb_prop in H.
  - intros y m. rewrite filter_within; [reflexivity|].
    intros x H. unfold Expense.in_month in H.
    apply andb_prop in H. destruct H as [H _].
    now apply andb_prop in H.
  - intros s e. rewrite filter_within; [reflexivity|].
    intros x H. now apply andb_prop in H.
  - intros s e c limit offset.
    rewrite (join_within _ _ (fun x => ExpenseRow.user_id x =? user_id));
      [reflexivity|].
    intros a b H. cbn [fst] in H.
    apply andb_prop in H. destruct H as [H _].
    now apply andb_prop in H.
Qed.

(* ------------------------------------------------------------------ *)
(** ** Adding, reading back and deleting an expense                     *)
(* ------------------------------------------------------------------ *)

Lemma next_id_fresh (ids : list Z) (i : Z) :
  In i ids -> i < User.next_id ids.
Proof.
  unfold User.next_id. induction ids as [|a ids IH]; [contradiction|].
  intros [->|Hin]; cbn [fold_right]; [lia|]. specialize (IH Hin). lia.
Qed.

Lemma create_unfold_expense user_id category_id amount description
      expense_date payment_method notes w :
  Expense.create user_id category_id amount description expense_date
                 payment_method notes w
  = if online w
    then
      let id := User.next_id (map ExpenseRow.expense_id (expenses w)) in
      (Some (ExpenseObject.mk id user_id category_id amount description
               expense_date payment_method notes None None None),
       log INSERT
         (set_expenses
            (expenses w
             ++ [ExpenseRow.mk id user_id category_id amount description
                               expense_date payment_method notes])
            w))
    else (None, w).
Proof.
  unfold Expense.create, bind, ret, Database.execute_update,
    Expense.insert_expense.
  destruct (online w); [|reflexivity].
  cbv zeta. unfold truthy.
  pose proof (next_id_positive (map ExpenseRow.expense_id (expenses w)))
    as Hpos.
  destruct (Z.eqb_spec
              (User.next_id (map ExpenseRow.expense_id (expenses w))) 0)
    as [Heq|_]; [lia | reflexivity].
Qed.

(** X9. [add_expense] either returns an [Expense] or changes nothing.
    When it returns one, the call was given a user, a category, a
    description and a date, the amount the object carries is the number
    read from the input and is not at most 0, and the table has grown by
    exactly one row, under a key that no stored row had, which carries
    the key, user, category, description, date, payment method and
    notes of that object; the amount of the row is what the column
    stores for the amount given, and nothing is said of it. When it
    returns none it reports failure and [expenses] is as it was. Either
    way [expense_id] stays a key. *)
Theorem add_expense_appends_one_row
        w user_id category_id amount description expense_date
        payment_method notes :
  let r := ExpenseController.add_expense user_id category_id amount
             description expense_date payment_method notes w in
  match snd (result_of r) with
  | Some x =>
      fst (fst (result_of r)) = true
      /\ (exists stored,
             expenses (world_of r) = expenses w ++ [stored]
             /\ same_but_amount stored (row_of x))
      /\ ~ In (ExpenseObject.expense_id x)
              (map ExpenseRow.expense_id (expenses w))
      /\ row_of x
         = ExpenseRow.mk (ExpenseObject.expense_id x) user_id category_id
                         (ExpenseObject.amount x) description
                         (ExpenseObject.expense_date x) payment_method notes
      /\ ExpenseController.float_of amount = Some (ExpenseObject.amount x)
      /\ ~ ExpenseObject.amount x <= 0
      /\ expense_date = Some (ExpenseObject.expense_date x)
      /\ user_id <> 0 /\ category_id <> 0 /\ nonempty description = true
  | None =>
      fst (fst (result_of r)) = false
      /\ expenses (world_of r) = expenses w
  end
  /\ (expense_key w -> expense_key (world_of r)).
Proof.
  intros r. subst r.
  unfold ExpenseController.add_expense, bind, ret, result_of, world_of,
    truthy.
  destruct expense_date as [on_date|]; [|cbn [fst snd]; tauto].
  destruct (Z.eqb_spec user_id 0) as [Hu|Hu];
    cbn [negb andb fst snd]; [tauto|].
  destruct (Z.eqb_spec category_id 0) as [Hc|Hc];
    cbn [negb andb fst snd]; [tauto|].
  destruct (ExpenseController.amount_given amount) eqn:Hgiven;
    cbn [negb andb fst snd]; [|tauto].
  destruct (nonempty description) eqn:Hd;
    cbn [negb andb fst snd]; [|tauto].
  destruct (ExpenseController.float_of amount) as [cents|] eqn:Hfloat;
    [|cbn [fst snd]; tauto].
  destruct (Z.leb_spec cents 0) as [Hle|Hpos]; [cbn [fst snd]; tauto|].
  rewrite create_unfold_expense.
  destruct (online w); cbv zeta; cbn [fst snd]; [|tauto].
  cbn [expenses log set_expenses row_of ExpenseObject.expense_id
       ExpenseObject.user_id ExpenseObject.category_id ExpenseObject.amount
       ExpenseObject.description ExpenseObject.expense_date
       ExpenseObject.payment_method ExpenseObject.notes].
  assert (Hfresh : ~ In (User.next_id
                           (map ExpenseRow.expense_id (expenses w)))
                        (map ExpenseRow.expense_id (expenses w))).
  { intros Hin. apply next_id_fresh in Hin. lia. }
  split; [repeat split; try assumption; try reflexivity; try lia;
          eexists; split; [reflexivity | repeat split]|].
  intros Hkey. unfold expense_key in *.
  cbn [expenses log set_expenses]. rewrite map_app.
  apply NoDup_app; [exact Hkey | repeat constructor; simpl; tauto |].
  intros x Hx [<-|[]]. cbn [ExpenseRow.expense_id] in Hx. contradiction.
Qed.

Lemma add_expense_appends_one_row_witness :
  let r := ExpenseController.add_expense 2 3
             (ExpenseController.Amount 1999) "power" (Some (Scenario.march 30))
             "UPI" None Scenario.w0 in
  (exists stored,
      expenses (world_of r) = expenses Scenario.w0 ++ [stored]
      /\ same_but_amount
           stored
           (ExpenseRow.mk 8 2 3 1999 "power" (Scenario.march 30) "UPI"
                          None))
  /\ expense_key (world_of r).
Proof.
  intros r.
  destruct (add_expense_appends_one_row Scenario.w0 2 3
              (ExpenseController.Amount 1999) "power"
              (Some (Scenario.march 30)) "UPI" None) as [Hcase Hkey].
  split; [|exact (Hkey scenario_expense_key)].
  destruct Hcase as [_ [Hrow _]]. exact Hrow.
Defined.

(** The world and the object of an [add_expense] that returns one. *)
Lemma add_expense_some w user_id category_id amount description
      expense_date payment_method notes x :
  snd (result_of (ExpenseController.add_expense user_id category_id amount
                    description expense_date payment_method notes w))
  = Some x ->
  user_id <> 0
  /\ online w = true
  /\ ExpenseObject.expense_id x
     = User.next_id (map ExpenseRow.expense_id (expenses w))
  /\ ExpenseObject.user_id x = user_id
  /\ ExpenseObject.category_id x = category_id
  /\ world_of (ExpenseController.add_expense user_id category_id amount
                 description expense_date payment_method notes w)
     = log INSERT (set_expenses (expenses w ++ [row_of x]) w).
Proof.
  unfold ExpenseController.add_expense, bind, ret, result_of, world_of,
    truthy.
  destruct expense_date as [on_date|]; [|discriminate].
  destruct (Z.eqb_spec user_id 0) as [Hu|Hu];
    cbn [negb andb fst snd]; [discriminate|].
  destruct (Z.eqb_spec category_id 0) as [Hc|Hc];
    cbn [negb andb fst snd]; [discriminate|].
  destruct (ExpenseController.amount_given amount);
    cbn [negb andb fst snd]; [|discriminate].
  destruct (nonempty description); cbn [negb andb fst snd]; [|discriminate].
  destruct (ExpenseController.float_of amount) as [cents|];
    [|discriminate].
  destruct (cents <=? 0); [discriminate|].
  rewrite create_unfold_expense.
  destruct (online w); cbv zeta; cbn [fst snd]; [|discriminate].
  intros [= <-]. repeat split; try assumption; reflexivity.
Qed.

Lemma join_app {A B} (on : A -> B -> bool) (l1 l2 : list A) (r : list B) :
  SQL.join on (l1 ++ l2) r = SQL.join on l1 r ++ SQL.join on l2 r.
Proof. unfold SQL.join. apply flat_map_app. Qed.

(** X10. An expense that [add_expense] returns is read back by
    [get_by_id] under its new key and its user, with the key, user,
    category, description, date, payment method and notes of the
    object returned and with the name of its category, provided its
    category is a row of [categories]. The amount read back is the one
    the column stores, and nothing is said of it. *)
Theorem add_then_get_by_id
        w user_id category_id amount description expense_date
        payment_method notes x :
  let r := ExpenseController.add_expense user_id category_id amount
             description expense_date payment_method notes w in
  snd (result_of r) = Some x ->
  In category_id (map CategoryRow.category_id (categories w)) ->
  exists x',
    result_of (Expense.get_by_id (ExpenseObject.expense_id x)
                                 (Some user_id) (world_of r))
    = Some x'
    /\ same_but_amount (row_of x') (row_of x)
    /\ exists c, In c (categories w)
                 /\ CategoryRow.category_id c = category_id
                 /\ ExpenseObject.category_name x'
                    = Some (CategoryRow.category_name c).
Proof.
  intros r Hsome Hcat. subst r.
  apply add_expense_some in Hsome.
  destruct Hsome as [Hu [Hon [Hid [Huser [Hcid Hworld]]]]].
  rewrite Hworld.
  unfold Expense.get_by_id, Expense.expenses_with_category, bind, ret,
    Database.execute_query, result_of.
  cbn [online log set_expenses expenses categories]. rewrite Hon.
  cbn [fst]. rewrite join_app, filter_app.
  rewrite filter_none.
  - unfold SQL.join. cbn [flat_map]. rewrite app_nil_r. cbn [app].
    apply in_map_iff in Hcat. destruct Hcat as [c0 [Hc0 Hin0]].
    assert (Hmatch : In c0 (filter
                              (fun c => ExpenseRow.category_id (row_of x)
                                        =? CategoryRow.category_id c)
                              (categories w))).
    { apply filter_In. split; [exact Hin0|].
      cbn [row_of ExpenseRow.category_id]. rewrite Hcid, Hc0.
      apply Z.eqb_refl. }
    destruct (filter _ (categories w)) as [|c cs] eqn:Hf; [contradiction|].
    assert (Hc : In c (categories w)
                 /\ CategoryRow.category_id c = category_id).
    { assert (Hin : In c (c :: cs)) by now left.
      rewrite <- Hf in Hin. apply filter_In in Hin.
      destruct Hin as [Hin Heq]. split; [exact Hin|].
      apply Z.eqb_eq in Heq. cbn [row_of ExpenseRow.category_id] in Heq.
      congruence. }
    cbn [map filter fst].
    cbn [row_of ExpenseRow.expense_id ExpenseRow.user_id].
    rewrite Z.eqb_refl. unfold Expense.and_user, truthy.
    apply Z.eqb_neq in Hu. rewrite Hu. cbn [negb].
    cbn [row_of ExpenseRow.user_id]. rewrite Huser, Z.eqb_refl. cbn [andb].
    eexists. split; [reflexivity|].
    split; [destruct x; repeat split|].
    exists c. destruct Hc as [Hin Heq].
    split; [exact Hin | split; [exact Heq | reflexivity]].
  - intros [e c] Hin. apply in_join in Hin. destruct Hin as [He _].
    cbn [fst]. apply andb_false_intro1. apply Z.eqb_neq.
    rewrite Hid. apply (in_map ExpenseRow.expense_id) in He.
    apply next_id_fresh in He. lia.
Qed.

Lemma add_then_get_by_id_witness :
  let r := ExpenseController.add_expense 2 3
             (ExpenseController.Amount 1999) "power" (Some (Scenario.march 30))
             "UPI" None Scenario.w0 in
  exists x',
    result_of (Expense.get_by_id 8 (Some 2) (world_of r)) = Some x'
    /\ same_but_amount
         (row_of x')
         (ExpenseRow.mk 8 2 3 1999 "power" (Scenario.march 30) "UPI" None).
Proof.
  intros r.
  destruct (@add_then_get_by_id Scenario.w0 2 3
              (ExpenseController.Amount 1999) "power"
              (Some (Scenario.march 30)) "UPI" None
              (ExpenseObject.mk 8 2 3 1999 "power" (Scenario.march 30)
                                "UPI" None None None None)
              eq_refl)
    as [x' [Hget [Hrow _]]].
  - simpl. tauto.
  - exists x'. split; [exact Hget | exact Hrow].
Defined.

Lemma delete_expense_world w expense_id user_id :
  online w = true ->
  ExpenseController.delete_expense expense_id user_id w
  = ((true, "Expense deleted successfully!"),
     log DELETE
       (set_expenses
          (filter (fun e => negb (owned expense_id user_id e)) (expenses w))
          w)).
Proof.
  intros Hon.
  unfold ExpenseController.delete_expense, Expense.delete_by_id, bind, ret,
    Database.execute_update.
  rewrite Hon. reflexivity.
Qed.

(** X11. After [delete_expense] has been carried out for an expense id
    and a user other than 0, [get_by_id] finds no expense under that id
    for that user, [update_expense] on it is answered "Expense not
    found", and deleting once more changes nothing in [expenses]. *)
Theorem delete_then_not_found w expense_id user_id :
  online w = true ->
  user_id <> 0 ->
  let w1 := world_of (ExpenseController.delete_expense expense_id user_id w)
  in
  result_of (Expense.get_by_id expense_id (Some user_id) w1) = None
  /\ (forall kw,
         result_of (ExpenseController.update_expense expense_id user_id kw
                                                     w1)
         = (false, "Expense not found"))
  /\ expenses (world_of (ExpenseController.delete_expense expense_id
                                                          user_id w1))
     = expenses w1.
Proof.
  intros Hon Hu w1. subst w1.
  rewrite delete_expense_world by exact Hon. cbn [world_of snd].
  set (w1 := log DELETE _).
  assert (Hnone : forall e, In e (expenses w1) ->
                            owned expense_id user_id e = false).
  { intros e He. unfold w1 in He. cbn [expenses log set_expenses] in He.
    apply filter_In in He. destruct He as [_ He].
    now apply negb_true_iff in He. }
  pose proof (get_by_id_none expense_id w1 Hu Hnone) as Hget.
  split; [exact Hget | split].
  - intros kw.
    unfold ExpenseController.update_expense, bind, ret, result_of in *.
    destruct (Expense.get_by_id expense_id (Some user_id) w1) as [o w2].
    cbn [fst] in Hget. subst o. reflexivity.
  - rewrite delete_expense_world by exact Hon.
    cbn [world_of snd expenses log set_expenses].
    apply filter_all. intros e He. apply filter_In in He.
    tauto.
Qed.

Lemma delete_then_not_found_witness :
  let w1 := world_of (ExpenseController.delete_expense 3 1 Scenario.w0) in
  expenses w1 = [Scenario.lunch; Scenario.dinner; Scenario.ticket]
  /\ result_of (Expense.get_by_id 3 (Some 1) w1) = None.
Proof.
  intros w1. split; [reflexivity|].
  apply (@delete_then_not_found Scenario.w0 3 1 eq_refl). lia.
Defined.




Lemma filter_map_same {A} (p : A -> bool) (h : A -> A) (l : list A) :
  (forall x, p (h x) = p x) -> filter p (map h l) = map h (filter p l).
Proof.
  intros Hp. induction l as [|a l IH]; [reflexivity|].
  simpl. rewrite Hp. destruct (p a); simpl; now rewrite IH.
Qed.



(* ------------------------------------------------------------------ *)
(** ** Accounts and the session                                         *)
(* ------------------------------------------------------------------ *)

Lemma existsb_false {A} (p : A -> bool) (l : list A) :
  existsb p l = false -> forall x, In x l -> p x = false.
Proof.
  intros H x Hin. destruct (p x) eqn:Hp; [|reflexivity].
  rewrite <- H. symmetry. apply existsb_exists. eauto.
Qed.

Lemma first_failure_none (checks : list (bool * string)) :
  first_failure checks = None ->
  forall c, In c checks -> fst c = true.
Proof.
  intros Hnone c Hin. unfold first_failure in Hnone.
  pose proof (find_none _ _ Hnone c Hin) as H. cbv beta in H.
  now destruct (fst c).
Qed.

Lemma first_failure_some (checks : list (bool * string)) c :
  In c checks -> fst c = false ->
  exists message, first_failure checks = Some (false, message).
Proof.
  intros Hin Hc. unfold first_failure.
  destruct (find _ checks) as [[b m]|] eqn:Hfind.
  - apply find_some in Hfind. destruct Hfind as [_ Hb].
    cbn [fst] in Hb. destruct b; [discriminate|]. eauto.
  - pose proof (find_none _ _ Hfind c Hin) as H. cbv beta in H.
    rewrite Hc in H. discriminate.
Qed.

Lemma for_all_ord_pairs_snoc {A} (R : A -> A -> Prop) (l : list A) x :
  ForallOrdPairs R l -> Forall (fun a => R a x) l ->
  ForallOrdPairs R (l ++ [x]).
Proof.
  induction 1 as [|a l Ha Hl IH]; intros Hx; simpl.
  - constructor; constructor.
  - inversion Hx; subst. constructor; [|now apply IH].
    apply Forall_app. split; [exact Ha | now constructor].
Qed.

Section Accounts.
Variable sha256_hexdigest : string -> string.
Variable sql_eq : string -> string -> bool.

(** What [register] leaves of the world besides [users]. *)
Lemma register_session
      w username email password confirm_password full_name :
  let r := AuthController.register sha256_hexdigest sql_eq username email
             password confirm_password full_name w in
  online (world_of r) = online w
  /\ categories (world_of r) = categories w
  /\ expenses (world_of r) = expenses w
  /\ current_user (world_of r)
     = (if fst (fst (result_of r)) then snd (result_of r)
        else current_user w).
Proof.
  intros r. subst r.
  unfold AuthController.register, Helpers.validate_password, result_of,
    world_of.
  cbn [forallb].
  destruct (nonempty username) eqn:Hu; cbn [andb negb];
    [|repeat split; reflexivity].
  destruct (nonempty email) eqn:He; cbn [andb negb];
    [|repeat split; reflexivity].
  destruct (nonempty password); cbn [andb negb];
    [|repeat split; reflexivity].
  destruct (nonempty confirm_password); cbn [andb negb];
    [|repeat split; reflexivity].
  destruct (nonempty full_name); cbn [andb negb];
    [|repeat split; reflexivity].
  destruct (Helpers.validate_username username); cbn [negb];
    [|repeat split; reflexivity].
  destruct (Helpers.validate_email email); cbn [negb];
    [|repeat split; reflexivity].
  destruct (String.length password <? 6)%nat; cbn [negb];
    [repeat split; reflexivity|].
  destruct (Re.search Re.letter password); cbn [negb];
    [|repeat split; reflexivity].
  destruct (Re.search Re.digit password); cbn [negb];
    [|repeat split; reflexivity].
  destruct (String.eqb password confirm_password); cbn [negb];
    [|repeat split; reflexivity].
  unfold bind. rewrite exists_unfold by assumption.
  unfold username_taken, email_taken.
  destruct (online w) eqn:Hon; cbn [andb].
  - destruct (existsb _ (users w)); [repeat split; assumption|].
    destruct (existsb _ (users w)); [repeat split; assumption|].
    rewrite create_unfold. cbn [online log]. rewrite Hon.
    repeat split; assumption.
  - rewrite create_unfold. rewrite Hon. repeat split; assumption.
Qed.

(** What a registration that succeeds has checked. *)
Lemma register_success
      w username email password confirm_password full_name :
  fst (fst (result_of (AuthController.register sha256_hexdigest sql_eq
                         username email password confirm_password
                         full_name w))) = true ->
  online w = true
  /\ (forall c, In c (register_checks sql_eq w username email password
                                      confirm_password full_name) ->
                fst c = true).
Proof.
  intros Hok.
  destruct (register_cascade sha256_hexdigest sql_eq w username email
              password confirm_password full_name) as [Hres _].
  cbv zeta in Hres. rewrite Hres in Hok. clear Hres.
  destruct (first_failure _) as [[b m]|] eqn:Hfirst; [discriminate|].
  destruct (online w); [|discriminate].
  split; [reflexivity|]. now apply first_failure_none.
Qed.

(** The first row that matches a login name decides [login]. *)
Lemma login_selected username password w r0 rest :
  nonempty username = true -> nonempty password = true ->
  online w = true ->
  filter (User.login_match sql_eq username) (users w) = r0 :: rest ->
  let l := AuthController.login sha256_hexdigest sql_eq username password w
  in
  (Helpers.hash_password sha256_hexdigest password = UserRow.password r0 ->
   result_of l
   = (true, ("Welcome back, " ++ UserRow.full_name r0 ++ "!")%string,
      Some (User.of_row r0))
   /\ current_user (world_of l) = Some (User.of_row r0)
   /\ users (world_of l) = users w)
  /\ (Helpers.hash_password sha256_hexdigest password <> UserRow.password r0
      -> result_of l = (false, "Invalid username or password", None)
         /\ current_user (world_of l) = current_user w
         /\ users (world_of l) = users w).
Proof.
  intros Hu Hp Hon Hsel l. subst l.
  unfold AuthController.login, User.authenticate, bind, ret,
    Database.execute_query, set_current_user, result_of, world_of,
    Helpers.verify_password.
  rewrite Hu, Hp. cbn [negb orb]. rewrite Hon. cbv beta iota.
  rewrite Hsel.
  split; intros Hhash.
  - rewrite Hhash, String.eqb_refl. cbn [fst snd]. repeat split.
  - apply String.eqb_neq in Hhash. rewrite Hhash. cbn [fst snd].
    repeat split.
Qed.

(** X13. A registration that succeeds can be followed by a login under
    the registered name and password, provided the collation makes the
    name equal to itself and no stored address equals the name: the
    login answers with the greeting of the full name and the account
    that the registration returned, and that account is the session. A
    login under the name with a password of another digest is
    refused. *)
Theorem register_then_login
        w username email password confirm_password full_name :
  sql_eq username username = true ->
  (forall r, In r (users w) -> sql_eq (UserRow.email r) username = false) ->
  let r := AuthController.register sha256_hexdigest sql_eq username email
             password confirm_password full_name w in
  let login := AuthController.login sha256_hexdigest sql_eq in
  fst (fst (result_of r)) = true ->
  exists u,
    snd (result_of r) = Some u
    /\ UserObject.username u = username
    /\ UserObject.email u = email
    /\ UserObject.full_name u = full_name
    /\ result_of (login username password (world_of r))
       = (true, ("Welcome back, " ++ full_name ++ "!")%string, Some u)
    /\ current_user (world_of (login username password (world_of r)))
       = Some u
    /\ forall other,
        nonempty other = true ->
        Helpers.hash_password sha256_hexdigest other
        <> Helpers.hash_password sha256_hexdigest password ->
        result_of (login username other (world_of r))
        = (false, "Invalid username or password", None).
Proof.
  intros Hrefl Hmail r login Hok. subst login.
  destruct (register_cascade sha256_hexdigest sql_eq w username email
              password confirm_password full_name) as [Hres [Husers _]].
  destruct (register_session w username email password confirm_password
                             full_name) as [Hon' _].
  destruct (register_success _ _ _ _ _ _ Hok) as [Hon Hchecks].
  cbv zeta in Hres, Husers, Hon'. fold r in Hres, Husers, Hon'.
  rewrite Hok in Husers. rewrite Hon in Hon'.
  set (new_row := UserRow.mk (User.next_id (map UserRow.user_id (users w)))
                    username email
                    (Helpers.hash_password sha256_hexdigest password)
                    full_name true) in *.
  assert (Hr : snd (result_of r) = Some (User.of_row new_row)).
  { rewrite Hres. rewrite Hres in Hok.
    destruct (first_failure _) as [[b m]|]; [discriminate|].
    rewrite Hon. reflexivity. }
  assert (Hfields : forallb nonempty [username; email; password;
                                      confirm_password; full_name] = true).
  { apply (Hchecks (all_fields username email password confirm_password
                               full_name)).
    left. reflexivity. }
  cbn [forallb] in Hfields. rewrite !andb_true_iff in Hfields.
  destruct Hfields as [Hu [_ [Hp _]]].
  assert (Hfree : existsb (fun r => sql_eq (UserRow.username r) username)
                          (users w) = false).
  { assert (H : fst (negb (username_taken sql_eq w username),
                       "Username already taken") = true).
    { apply Hchecks. unfold register_checks, checks_from_name.
      cbn [In]. tauto. }
    unfold username_taken in H. rewrite Hon in H. cbn [andb fst] in H.
    now apply negb_true_iff. }
  assert (Hsel : filter (User.login_match sql_eq username)
                        (users (world_of r)) = [new_row]).
  { rewrite Husers, filter_app, filter_none.
    - cbn [filter app]. unfold User.login_match. subst new_row.
      cbn [UserRow.username UserRow.email UserRow.is_active].
      rewrite Hrefl. reflexivity.
    - intros x Hx. unfold User.login_match.
      rewrite (existsb_false _ _ Hfree x Hx), (Hmail x Hx). reflexivity. }
  exists (User.of_row new_row).
  split; [exact Hr|]. split; [reflexivity|]. split; [reflexivity|].
  split; [reflexivity|].
  destruct (@login_selected username password (world_of r) new_row []
              Hu Hp Hon' Hsel) as [Hgood _].
  destruct (Hgood eq_refl) as [Hanswer [Hsession _]].
  split; [exact Hanswer|]. split; [exact Hsession|].
  intros other Ho Hdigest.
  destruct (@login_selected username other (world_of r) new_row []
              Hu Ho Hon' Hsel) as [_ Hbad].
  apply Hbad. exact Hdigest.
Qed.

End Accounts.

Lemma register_then_login_witness :
  let register := AuthController.register Scenario.digest String.eqb in
  let login := AuthController.login Scenario.digest String.eqb in
  let w1 := world_of (register "carol" "carol@example.com" "abc123" "abc123"
                               "Carol" Scenario.w0) in
  result_of (login "carol" "abc123" w1)
  = (true, "Welcome back, Carol!",
     Some (UserObject.mk 3 "carol" "carol@example.com" "Carol" true)).
Proof.
  intros register login w1.
  destruct (@register_then_login Scenario.digest String.eqb Scenario.w0
              "carol" "carol@example.com" "abc123" "abc123" "Carol")
    as [u [Hu [_ [_ [_ [Hlogin _]]]]]].
  - reflexivity.
  - intros r [<-|[<-|[]]]; reflexivity.
  - reflexivity.
  - injection Hu as <-. exact Hlogin.
Defined.

Section Uniqueness.
Variable sha256_hexdigest : string -> string.
Variable sql_eq : string -> string -> bool.

(** X14. [register] keeps the table [users] well keyed: if the user ids
    are pairwise distinct before the call they are so after it, and the
    same holds of the user names and of the addresses under the
    collation, whatever the outcome of the call. *)
Theorem register_keeps_accounts_distinct
        w username email password confirm_password full_name :
  let r := AuthController.register sha256_hexdigest sql_eq username email
             password confirm_password full_name w in
  (user_key w -> user_key (world_of r))
  /\ (names_distinct sql_eq (users w) ->
      names_distinct sql_eq (users (world_of r)))
  /\ (addresses_distinct sql_eq (users w) ->
      addresses_distinct sql_eq (users (world_of r))).
Proof.
  intros r.
  destruct (register_cascade sha256_hexdigest sql_eq w username email
              password confirm_password full_name) as [_ [Husers _]].
  cbv zeta in Husers. fold r in Husers.
  unfold user_key, names_distinct, addresses_distinct. rewrite Husers.
  destruct (fst (fst (result_of r))) eqn:Hok; [|tauto].
  subst r. destruct (register_success _ _ _ _ _ _ _ _ Hok) as [Hon Hchecks].
  assert (Hname : fst (negb (username_taken sql_eq w username),
                       "Username already taken") = true).
  { apply Hchecks. unfold register_checks, checks_from_name.
    cbn [In]. tauto. }
  assert (Haddress : fst (negb (email_taken sql_eq w email),
                          "Email already registered") = true).
  { apply Hchecks. unfold register_checks, checks_from_name.
    cbn [In]. tauto. }
  unfold username_taken, email_taken in *. rewrite Hon in *.
  cbn [andb fst] in *. apply negb_true_iff in Hname, Haddress.
  split; [|split].
  - intros Hkey. rewrite map_app. cbn [map UserRow.user_id].
    eapply Permutation_NoDup; [apply Permutation_cons_append|].
    constructor; [|exact Hkey].
    intros Hin. apply next_id_fresh in Hin. lia.
  - intros Hdistinct. apply for_all_ord_pairs_snoc; [exact Hdistinct|].
    apply Forall_forall. intros a Ha. cbn [UserRow.username].
    exact (existsb_false _ _ Hname a Ha).
  - intros Hdistinct. apply for_all_ord_pairs_snoc; [exact Hdistinct|].
    apply Forall_forall. intros a Ha. cbn [UserRow.email].
    exact (existsb_false _ _ Haddress a Ha).
Qed.

(** X15. [register] never succeeds under a user name or an address
    that a stored row carries: the call reports failure, adds no row and
    leaves the session as it was. *)
Theorem register_refuses_taken
        w username email password confirm_password full_name taken :
  In taken (users w) ->
  sql_eq (UserRow.username taken) username = true
  \/ sql_eq (UserRow.email taken) email = true ->
  let r := AuthController.register sha256_hexdigest sql_eq username email
             password confirm_password full_name w in
  fst (fst (result_of r)) = false
  /\ snd (result_of r) = None
  /\ users (world_of r) = users w
  /\ current_user (world_of r) = current_user w.
Proof.
  intros Hin Htaken r.
  destruct (register_cascade sha256_hexdigest sql_eq w username email
              password confirm_password full_name) as [Hres [Husers _]].
  destruct (register_session sha256_hexdigest sql_eq w username email
              password confirm_password full_name) as [_ [_ [_ Hcur]]].
  cbv zeta in Hres, Husers, Hcur. fold r in Hres, Husers, Hcur.
  assert (Hfail : fst (fst (result_of r)) = false
                  /\ snd (result_of r) = None).
  { rewrite Hres. destruct (online w) eqn:Hon.
    - destruct Htaken as [Hname | Haddress].
      + destruct (@first_failure_some
                    (register_checks sql_eq w username email password
                                     confirm_password full_name)
                    (negb (username_taken sql_eq w username),
                     "Username already taken")) as [m ->].
        * unfold register_checks, checks_from_name. cbn [In]. tauto.
        * unfold username_taken. rewrite Hon. cbn [andb fst].
          apply negb_false_iff, existsb_exists. eauto.
        * split; reflexivity.
      + destruct (@first_failure_some
                    (register_checks sql_eq w username email password
                                     confirm_password full_name)
                    (negb (email_taken sql_eq w email),
                     "Email already registered")) as [m ->].
        * unfold register_checks, checks_from_name. cbn [In]. tauto.
        * unfold email_taken. rewrite Hon. cbn [andb fst].
          apply negb_false_iff, existsb_exists. eauto.
        * split; reflexivity.
    - destruct (first_failure _) as [[b m]|]; split; reflexivity. }
  destruct Hfail as [Hfalse Hnone].
  rewrite Hfalse in Husers, Hcur. tauto.
Qed.

End Uniqueness.

Lemma register_keeps_accounts_distinct_witness :
  let r := AuthController.register Scenario.digest String.eqb "carol"
             "carol@example.com" "abc123" "abc123" "Carol" Scenario.w0 in
  map UserRow.user_id (users (world_of r)) = [1; 2; 3]
  /\ user_key (world_of r)
  /\ names_distinct String.eqb (users (world_of r)).
Proof.
  intros r.
  destruct (register_keeps_accounts_distinct Scenario.digest String.eqb
              Scenario.w0 "carol" "carol@example.com" "abc123" "abc123"
              "Carol") as [Hkey [Hnames _]].
  split; [reflexivity|]. split.
  - apply Hkey. unfold user_key. cbn.
    repeat constructor; cbn [In]; intuition discriminate.
  - apply Hnames. unfold names_distinct. repeat constructor.
Defined.

Lemma register_refuses_taken_witness :
  let r := AuthController.register Scenario.digest String.eqb "bob"
             "robert@example.com" "abc123" "abc123" "Robert" Scenario.w0 in
  fst (fst (result_of r)) = false /\ users (world_of r) = users Scenario.w0.
Proof.
  intros r.
  destruct (@register_refuses_taken Scenario.digest String.eqb Scenario.w0
              "bob" "robert@example.com" "abc123" "abc123" "Robert"
              Scenario.bob) as [Hfail [_ [Husers _]]].
  - right. left. reflexivity.
  - left. reflexivity.
  - split; [exact Hfail | exact Husers].
Defined.

Lemma valid_password_nonempty (password : string) :
  fst (Helpers.validate_password password) = true ->
  nonempty password = true.
Proof.
  destruct password; [discriminate | reflexivity].
Qed.

Section PasswordChange.
Variable sha256_hexdigest : string -> string.
Variable sql_eq : string -> string -> bool.

(** What [change_password] does to the world. *)
Lemma change_password_outcome w u old_password new_password
      confirm_password :
  current_user w = Some u ->
  let r := AuthController.change_password sha256_hexdigest old_password
             new_password confirm_password w in
  let hashed := Helpers.hash_password sha256_hexdigest new_password in
  (if fst (result_of r)
   then online w = true
        /\ fst (Helpers.validate_password new_password) = true
        /\ new_password = confirm_password
        /\ users (world_of r)
           = map (fun row => if UserRow.user_id row =? UserObject.user_id u
                             then with_password hashed row else row)
                 (users w)
   else users (world_of r) = users w)
  /\ current_user (world_of r) = Some u
  /\ online (world_of r) = online w.
Proof.
  intros Hcur r hashed. subst r hashed.
  unfold AuthController.change_password, bind, get_current_user, ret,
    result_of, world_of.
  rewrite Hcur.
  destruct (String.eqb_spec new_password confirm_password) as [Heq|Hne];
    cbn [negb]; [|cbn [fst snd]; tauto].
  destruct (Helpers.validate_password new_password) as [valid msg] eqn:Hv.
  destruct valid; cbn [negb]; [|cbn [fst snd]; tauto].
  unfold User.change_password, bind, ret, Database.execute_query,
    Database.execute_update, User.update_password.
  destruct (online w) eqn:Hon; [|cbn [negb fst snd]; tauto].
  match goal with
  | |- context [negb ?v] => destruct v
  end; cbn [negb online log fst snd users current_user set_users];
    [|tauto].
  rewrite Hon. cbn [is_not_None fst snd online log users current_user
                      set_users].
  repeat split; assumption.
Qed.

(** X16. After [change_password] has succeeded for the account in the
    session, a login under a name that selects that account succeeds
    with the new password, and fails with the old one unless the two
    have the same digest. The change replaces the stored hash in the
    rows of that account and leaves every other row, and every other
    column, as it was. *)
Theorem change_password_then_login
        w u name old_password new_password confirm_password r0 rest :
  current_user w = Some u ->
  nonempty name = true ->
  filter (User.login_match sql_eq name) (users w) = r0 :: rest ->
  UserRow.user_id r0 = UserObject.user_id u ->
  let r := AuthController.change_password sha256_hexdigest old_password
             new_password confirm_password w in
  let login := AuthController.login sha256_hexdigest sql_eq in
  let hashed := Helpers.hash_password sha256_hexdigest new_password in
  fst (result_of r) = true ->
  result_of (login name new_password (world_of r))
  = (true, ("Welcome back, " ++ UserRow.full_name r0 ++ "!")%string,
     Some (User.of_row r0))
  /\ (Helpers.hash_password sha256_hexdigest old_password <> hashed ->
      fst (fst (result_of (login name old_password (world_of r)))) = false)
  /\ users (world_of r)
     = map (fun row => if UserRow.user_id row =? UserObject.user_id u
                       then with_password hashed row else row)
           (users w).
Proof.
  intros Hcur Hname Hsel Hid r login hashed Hok. subst login.
  destruct (@change_password_outcome w u old_password new_password
              confirm_password Hcur) as [Hout [_ Hon']].
  cbv zeta in Hout, Hon'. fold r hashed in Hout, Hon'.
  rewrite Hok in Hout. destruct Hout as [Hon [Hvalid [_ Husers]]].
  rewrite Hon in Hon'.
  set (upd := fun row => if UserRow.user_id row =? UserObject.user_id u
                         then with_password hashed row else row) in *.
  assert (Hsel' : filter (User.login_match sql_eq name)
                         (users (world_of r))
                  = with_password hashed r0 :: map upd rest).
  { rewrite Husers, filter_map_same.
    - rewrite Hsel. cbn [map]. unfold upd at 1.
      rewrite Hid, Z.eqb_refl. reflexivity.
    - intros x. unfold upd, User.login_match.
      destruct (UserRow.user_id x =? UserObject.user_id u); reflexivity. }
  split; [|split; [|exact Husers]].
  - destruct (@login_selected sha256_hexdigest sql_eq name new_password
                (world_of r) _ _ Hname
                (valid_password_nonempty _ Hvalid) Hon' Hsel')
      as [Hgood _].
    destruct (Hgood eq_refl) as [Hanswer _]. exact Hanswer.
  - intros Hdigest.
    destruct (nonempty old_password) eqn:Hold.
    + destruct (@login_selected sha256_hexdigest sql_eq name old_password
                  (world_of r) _ _ Hname Hold Hon' Hsel') as [_ Hbad].
      destruct (Hbad Hdigest) as [-> _]. reflexivity.
    + unfold AuthController.login, result_of. rewrite Hold, Hname.
      reflexivity.
Qed.

End PasswordChange.

Lemma change_password_then_login_witness :
  let w := logged_in (User.of_row Scenario.alice) Scenario.w0 in
  let r := AuthController.change_password Scenario.digest "wonder1"
             "looking2" "looking2" w in
  result_of (AuthController.login Scenario.digest String.eqb "alice"
                                  "looking2" (world_of r))
  = (true, "Welcome back, Alice!", Some (User.of_row Scenario.alice))
  /\ fst (fst (result_of
                 (AuthController.login Scenario.digest String.eqb "alice"
                                       "wonder1" (world_of r)))) = false.
Proof.
  intros w r.
  destruct (@change_password_then_login Scenario.digest String.eqb w
              (User.of_row Scenario.alice) "alice" "wonder1" "looking2"
              "looking2" Scenario.alice [])
    as [Hnew [Hold _]]; try reflexivity.
  split; [exact Hnew|]. apply Hold. discriminate.
Defined.

Section Profile.
Variable sql_eq : string -> string -> bool.

(** [User.exists] reads and does not write. *)
Lemma exists_reads username email w :
  let r := User.exists_ sql_eq username email w in
  world_of r = w \/ world_of r = log SELECT w
  \/ world_of r = log SELECT (log SELECT w).
Proof.
  intros r. subst r.
  unfold User.exists_, User.count_users, bind, ret, Database.execute_query,
    world_of.
  destruct username as [u|], email as [e|];
    repeat match goal with
           | |- context [truthy_str ?v] => destruct (truthy_str v)
           end;
    destruct (online w) eqn:Hon;
    repeat first
      [ progress cbn [log online snd fst User.found users]
      | progress rewrite Hon
      | match goal with
        | |- context [0 <? ?c] => destruct (0 <? c)
        end ];
    auto.
Qed.
(** What [User.update] does to the world. *)
Lemma user_update_outcome (u : UserObject.t) full_name email w :
  let r := User.update u full_name email w in
  (if result_of r
   then online w = true
        /\ users (world_of r)
           = map (fun row => if UserRow.user_id row =? UserObject.user_id u
                             then profile_row full_name email row else row)
                 (users w)
   else users (world_of r) = users w)
  /\ current_user (world_of r) = current_user w
  /\ online (world_of r) = online w.
Proof.
  intros r. subst r.
  unfold User.update, bind, ret, Database.execute_update, User.update_users,
    result_of, world_of.
  destruct full_name as [[|c n]|], email as [[|c' e]|];
    cbn [User.given truthy_str nonempty app fst snd]; try tauto;
    (destruct (online w) eqn:Hon;
     cbn [fst snd is_not_None log set_users users current_user online];
     [|tauto]);
    (split; [split; [reflexivity|] | tauto]);
    apply map_ext; intros row;
    destruct (UserRow.user_id row =? UserObject.user_id u);
    destruct row; reflexivity.
Qed.

(** What [update_profile] does to the world when an account is in the
    session. *)
Lemma update_profile_outcome w u full_name email :
  current_user w = Some u ->
  let r := AuthController.update_profile sql_eq full_name email w in
  if fst (result_of r)
  then online w = true
       /\ users (world_of r)
          = map (fun row => if UserRow.user_id row =? UserObject.user_id u
                            then profile_row full_name email row else row)
                (users w)
       /\ current_user (world_of r) = Some (profile_object full_name email u)
  else users (world_of r) = users w /\ current_user (world_of r) = Some u.
Proof.
  intros Hcur r. subst r.
  unfold AuthController.update_profile, bind, get_current_user, ret,
    result_of, world_of.
  rewrite Hcur.
  match goal with
  | |- context [truthy_str email && negb ?v] =>
      destruct (truthy_str email && negb v)
  end; [cbn [fst snd]; tauto|].
  { match goal with
    | |- context [let (a, w') := ?check w in _] =>
        assert (Hfacts : exists t w1,
                   check w = (t, w1)
                   /\ users w1 = users w /\ online w1 = online w
                   /\ current_user w1 = current_user w)
    end.
    { destruct (truthy_str email && _); [|eauto 6].
      pose proof (exists_reads None email w) as Hreads.
      cbv zeta in Hreads. unfold world_of in Hreads.
      destruct (User.exists_ sql_eq None email w) as [[t f] w1].
      cbn [snd] in Hreads. exists t, w1. split; [reflexivity|].
      destruct Hreads as [ -> | [ -> | -> ] ]; repeat split. }
    destruct Hfacts as [t [w1 [-> [Hus [Hon Hc]]]]].
    destruct t; [cbn [fst snd]; rewrite Hus, Hc; tauto|].
    pose proof (user_update_outcome u full_name email w1) as Hupdate.
    cbv zeta in Hupdate. unfold result_of, world_of in Hupdate.
    destruct (User.update u full_name email w1) as [success w2].
    cbn [fst snd] in Hupdate.
    destruct Hupdate as [Hrows [Hc2 Hon2]].
    destruct success; unfold set_current_user;
      cbn [fst snd users current_user online].
    - destruct Hrows as [Hon1 Hrows]. rewrite Hrows, Hus, <- Hon.
      split; [exact Hon1|]. split; [reflexivity|]. f_equal.
      unfold profile_object, supplied_text, truthy_str.
      destruct full_name as [[|c n]|], email as [[|c' e]|];
        destruct u; reflexivity.
    - rewrite Hrows, Hus, Hc2, Hc. tauto. }
Qed.

(** X17. [update_profile] keeps the session in step with the table: if
    the account cached in the session agrees with every stored row of
    its key before the call, it does so after it. Without a session the
    call answers "Not logged in" and changes nothing; with one, a call
    that succeeds writes the supplied name and address, where they are
    not empty, into the rows of that key and into the cached account
    alike, and a call that fails leaves both as they were. *)
Theorem update_profile_keeps_session_coherent w full_name email :
  session_coherent w ->
  let r := AuthController.update_profile sql_eq full_name email w in
  session_coherent (world_of r)
  /\ match current_user w with
     | None => result_of r = (false, "Not logged in") /\ world_of r = w
     | Some u =>
         if fst (result_of r)
         then users (world_of r)
              = map (fun row =>
                       if UserRow.user_id row =? UserObject.user_id u
                       then profile_row full_name email row else row)
                    (users w)
              /\ current_user (world_of r)
                 = Some (profile_object full_name email u)
         else users (world_of r) = users w
              /\ current_user (world_of r) = Some u
     end.
Proof.
  intros Hcoherent r.
  destruct (current_user w) as [u|] eqn:Hcur.
  - pose proof (@update_profile_outcome w u full_name email Hcur) as Hout.
    cbv zeta in Hout. fold r in Hout.
    destruct (fst (result_of r)).
    + destruct Hout as [_ [Hrows Hsession]].
      split; [|split; assumption].
      intros u' Hu' row' Hin Hid. rewrite Hsession in Hu'.
      injection Hu' as <-. rewrite Hrows in Hin.
      apply in_map_iff in Hin. destruct Hin as [row [<- Hin]].
      destruct (Z.eqb_spec (UserRow.user_id row) (UserObject.user_id u))
        as [Hsame|Hother].
      * rewrite <- (Hcoherent u Hcur row Hin Hsame).
        destruct row; reflexivity.
      * exfalso. apply Hother. exact Hid.
    + destruct Hout as [Hrows Hsession].
      split; [|split; assumption].
      intros u' Hu' row Hin Hid. rewrite Hrows in Hin.
      rewrite Hsession in Hu'. injection Hu' as <-.
      exact (Hcoherent u Hcur row Hin Hid).
  - assert (Hnone : r = ((false, "Not logged in"), w)).
    { subst r. unfold AuthController.update_profile, bind, get_current_user.
      rewrite Hcur. reflexivity. }
    rewrite Hnone. cbn [world_of result_of fst snd].
    split; [exact Hcoherent | split; reflexivity].
Qed.

End Profile.

Lemma update_profile_keeps_session_coherent_witness :
  let w := logged_in (User.of_row Scenario.alice) Scenario.w0 in
  let r := AuthController.update_profile String.eqb (Some "Alice L.") None w
  in
  session_coherent (world_of r)
  /\ current_user (world_of r)
     = Some (UserObject.mk 1 "alice" "alice@example.com" "Alice L." true).
Proof.
  intros w r.
  destruct (@update_profile_keeps_session_coherent String.eqb w
              (Some "Alice L.") None) as [Hcoherent Hcase].
  - intros u Hu row Hin Hid. injection Hu as <-.
    destruct Hin as [<-|[<-|[]]]; [reflexivity | discriminate].
  - split; [exact Hcoherent|]. exact (proj2 Hcase).
Defined.

(* ------------------------------------------------------------------ *)
(** ** What the validators accept                                       *)
(* ------------------------------------------------------------------ *)

Section Validators.
Local Open Scope string_scope.

Lemma matches_star_class p s :
  Re.matches (Re.Star (Re.Class p)) s <-> Re.every p s = true.
Proof.
  split.
  - intros H. remember (Re.Star (Re.Class p)) as r eqn:Hr.
    induction H as [| | | | | |r0 x y Hx _ Hy IH]; try discriminate.
    + reflexivity.
    + injection Hr as ->. inversion Hx as [|? c Hc| | | | |]; subst.
      simpl. rewrite Hc. now apply IH.
  - revert p. induction s as [|c s IH]; intros p He.
    + constructor.
    + simpl in He. apply andb_prop in He. destruct He as [Hc He].
      change (String c s) with (String c EmptyString ++ s).
      constructor; [now constructor | now apply IH].
Qed.

Lemma matches_at_least_class p m s :
  Re.matches (Re.at_least m (Re.Class p)) s
  <-> (m <= String.length s)%nat /\ Re.every p s = true.
Proof.
  unfold Re.at_least. split.
  - inversion 1 as [| |? ? x y Hx Hy Heq| | | |]; subst.
    apply matches_times_class in Hx. apply matches_star_class in Hy.
    rewrite length_append, every_append.
    destruct Hx as [Hx1 Hx2]. rewrite Hx2, Hy. split; [lia | reflexivity].
  - intros [Hl He].
    destruct (@split_at m s Hl) as [x [y [-> Hx]]].
    rewrite every_append in He. apply andb_prop in He.
    destruct He as [He1 He2].
    constructor; [now apply matches_times_class
                 | now apply matches_star_class].
Qed.

Lemma matches_cat_iff r1 r2 s :
  Re.matches (Re.Cat r1 r2) s
  <-> exists x y, s = x ++ y /\ Re.matches r1 x /\ Re.matches r2 y.
Proof.
  split.
  - inversion 1 as [| |? ? x y Hx Hy Heq| | | |]; subst. eauto.
  - intros [x [y [-> [Hx Hy]]]]. now constructor.
Qed.

Lemma matches_char_iff a s :
  Re.matches (Re.Class (Ascii.eqb a)) s <-> s = String a EmptyString.
Proof.
  split.
  - inversion 1 as [|? c Hc| | | | |]; subst.
    apply Ascii.eqb_eq in Hc. now subst.
  - intros ->. constructor. apply Ascii.eqb_refl.
Qed.

(** X18. [validate_username] accepts exactly the strings made of 3 to
    20 letters, digits and underscores, and those strings followed by
    one newline: the [$] of the pattern also holds before a final
    newline. *)
Theorem validate_username_accepts (s : string) :
  Helpers.validate_username s = true
  <-> exists name,
        (s = name \/ s = name ++ String Re.newline EmptyString)
        /\ (3 <= String.length name <= 20)%nat
        /\ Re.every Helpers.word_char name = true.
Proof.
  unfold Helpers.validate_username, Helpers.username_pattern.
  rewrite match_anchored_iff. split.
  - intros [H | [t [-> H]]]; apply matches_between_class in H; try lia;
      [exists s | exists t]; tauto.
  - intros [name [[-> | ->] Hname]].
    + left. apply matches_between_class; [lia | exact Hname].
    + right. exists name. split; [reflexivity|].
      apply matches_between_class; [lia | exact Hname].
Qed.

(** X19. [validate_email] accepts exactly the strings of the form
    local part, [@], domain, [.], ending, possibly followed by one
    newline, where the local part is one or more letters, digits or
    characters of [._%+-], the domain one or more letters, digits, dots
    or hyphens, and the ending two or more letters. *)
Theorem validate_email_accepts (s : string) :
  Helpers.validate_email s = true
  <-> exists local_part domain ending,
        let address :=
          local_part ++ "@" ++ domain ++ "." ++ ending in
        (s = address \/ s = address ++ String Re.newline EmptyString)
        /\ (1 <= String.length local_part)%nat
        /\ Re.every (fun c => Re.alnum c || Re.one_of "._%+-" c) local_part
           = true
        /\ (1 <= String.length domain)%nat
        /\ Re.every (fun c => Re.alnum c || Re.one_of ".-" c) domain = true
        /\ (2 <= String.length ending)%nat
        /\ Re.every Re.letter ending = true.
Proof.
  unfold Helpers.validate_email.
  assert (Hshape : forall t,
             Re.matches Helpers.email_pattern t
             <-> exists local_part domain ending,
                   t = local_part ++ "@" ++ domain ++ "." ++ ending
                   /\ (1 <= String.length local_part)%nat
                   /\ Re.every (fun c => Re.alnum c
                                         || Re.one_of "._%+-" c) local_part
                      = true
                   /\ (1 <= String.length domain)%nat
                   /\ Re.every (fun c => Re.alnum c || Re.one_of ".-" c)
                               domain = true
                   /\ (2 <= String.length ending)%nat
                   /\ Re.every Re.letter ending = true).
  { intros t. unfold Helpers.email_pattern, Re.plus. split.
    - intros H.
      apply matches_cat_iff in H. destruct H as [l [t1 [-> [Hl H]]]].
      apply matches_cat_iff in H. destruct H as [a [t2 [-> [Ha H]]]].
      apply matches_cat_iff in H. destruct H as [d [t3 [-> [Hd H]]]].
      apply matches_cat_iff in H. destruct H as [b [e [-> [Hb He]]]].
      apply matches_char_iff in Ha, Hb. subst a b.
      apply matches_at_least_class in Hl, Hd, He.
      exists l, d, e. simpl. tauto.
    - intros [l [d [e [-> [Hl1 [Hl2 [Hd1 [Hd2 [He1 He2]]]]]]]]].
      constructor; [now apply matches_at_least_class|].
      change ("@" ++ d ++ "." ++ e) with (String "@" EmptyString ++ d ++ "." ++ e).
      constructor; [now apply matches_char_iff|].
      constructor; [now apply matches_at_least_class|].
      change ("." ++ e) with (String "." EmptyString ++ e).
      constructor; [now apply matches_char_iff|].
      now apply matches_at_least_class. }
  rewrite match_anchored_iff. cbv zeta. split.
  - intros [H | [t [-> H]]]; apply Hshape in H;
      destruct H as [l [d [e [-> H]]]]; exists l, d, e; tauto.
  - intros [l [d [e [[-> | ->] H]]]].
    + left. apply Hshape. exists l, d, e. tauto.
    + right. eexists. split; [reflexivity|].
      apply Hshape. exists l, d, e. tauto.
Qed.

End Validators.

(* ------------------------------------------------------------------ *)
(** ** Texts and month names                                            *)
(* ------------------------------------------------------------------ *)

Section Texts.
Local Open Scope string_scope.

Lemma length_take (n : nat) (s : string) :
  String.length (Helpers.take n s) = Nat.min n (String.length s).
Proof.
  revert s. induction n as [|n IH]; intros [|c s]; simpl; auto.
Qed.

Lemma take_prefix (n : nat) (s : string) :
  exists rest, s = Helpers.take n s ++ rest.
Proof.
  revert s. induction n as [|n IH]; intros s.
  - exists s. destruct s; reflexivity.
  - destruct s as [|c s]; [exists EmptyString; reflexivity|].
    destruct (IH s) as [rest Hrest]. exists rest. simpl. now f_equal.
Qed.

(** X20. With a limit of at least 3, [truncate_text] returns a text no
    longer than the limit: the text itself when it fits, and otherwise
    its first [max_length - 3] characters followed by three dots, which
    is exactly [max_length] characters long. Truncating a second time
    changes nothing. *)
Theorem truncate_text_fits (text : string) (max_length : Z) :
  3 <= max_length ->
  let short := Helpers.truncate_text text max_length in
  Z.of_nat (String.length short) <= max_length
  /\ (Z.of_nat (String.length text) <= max_length -> short = text)
  /\ (max_length < Z.of_nat (String.length text) ->
      exists head rest,
        short = head ++ "..."
        /\ text = head ++ rest
        /\ Z.of_nat (String.length head) = max_length - 3
        /\ Z.of_nat (String.length short) = max_length)
  /\ Helpers.truncate_text short max_length = short.
Proof.
  intros Hmax short.
  assert (Hcut : max_length < Z.of_nat (String.length text) ->
                 exists head rest,
                   short = head ++ "..."
                   /\ text = head ++ rest
                   /\ Z.of_nat (String.length head) = max_length - 3
                   /\ Z.of_nat (String.length short) = max_length).
  { intros Hlong. subst short. unfold Helpers.truncate_text.
    destruct (Z.leb_spec (Z.of_nat (String.length text)) max_length);
      [lia|].
    unfold Helpers.slice_to.
    destruct (Z.leb_spec 0 (max_length - 3)); [|lia].
    destruct (take_prefix (Z.to_nat (max_length - 3)) text) as [rest Hrest].
    exists (Helpers.take (Z.to_nat (max_length - 3)) text), rest.
    split; [reflexivity|]. split; [exact Hrest|].
    rewrite length_append, length_take. simpl. lia. }
  assert (Hfit : Z.of_nat (String.length text) <= max_length ->
                 short = text).
  { intros Hshort. subst short. unfold Helpers.truncate_text.
    destruct (Z.leb_spec (Z.of_nat (String.length text)) max_length);
      [reflexivity | lia]. }
  assert (Hlen : Z.of_nat (String.length short) <= max_length).
  { destruct (Z.le_gt_cases (Z.of_nat (String.length text)) max_length)
      as [Hshort|Hlong].
    - rewrite (Hfit Hshort). exact Hshort.
    - destruct (Hcut Hlong) as [_ [_ [_ [_ [_ Hl]]]]]. lia. }
  repeat split; try assumption.
  unfold Helpers.truncate_text at 1.
  destruct (Z.leb_spec (Z.of_nat (String.length short)) max_length);
    [reflexivity | lia].
Qed.

(** X21. With a limit below 3, a text longer than the limit is not
    shortened to it: what [truncate_text] returns is longer than the
    limit, for it ends in the three dots. *)
Theorem truncate_text_below_three (text : string) (max_length : Z) :
  max_length < 3 ->
  max_length < Z.of_nat (String.length text) ->
  let short := Helpers.truncate_text text max_length in
  max_length < Z.of_nat (String.length short)
  /\ exists head, short = head ++ "...".
Proof.
  intros Hmax Hlong short. subst short. unfold Helpers.truncate_text.
  destruct (Z.leb_spec (Z.of_nat (String.length text)) max_length); [lia|].
  split; [|eauto].
  rewrite length_append. simpl. lia.
Qed.

(** X22. The short name of a month is the first three letters of its
    name; both are empty outside 1..12, the names of the twelve months
    are not, and different months have different names. *)
Theorem month_names_agree (m n : Z) :
  Helpers.get_month_short_name m = Helpers.take 3 (Helpers.get_month_name m)
  /\ (Helpers.get_month_name m = EmptyString <-> ~ 1 <= m <= 12)
  /\ (1 <= m <= 12 -> 1 <= n <= 12 ->
      Helpers.get_month_short_name m = Helpers.get_month_short_name n ->
      m = n).
Proof.
  assert (Hcases : forall k, 1 <= k <= 12 ->
                             k = 1 \/ k = 2 \/ k = 3 \/ k = 4 \/ k = 5
                             \/ k = 6 \/ k = 7 \/ k = 8 \/ k = 9 \/ k = 10
                             \/ k = 11 \/ k = 12) by (intros; lia).
  split; [|split].
  - unfold Helpers.get_month_short_name, Helpers.get_month_name.
    destruct (Z.leb_spec 1 m); cbn [andb]; [|reflexivity].
    destruct (Z.leb_spec m 12); [|reflexivity].
    destruct (Hcases m) as [->|[->|[->|[->|[->|[->|[->|[->|[->|[->|[->| ->]]]]]]]]]]];
      [lia | reflexivity ..].
  - unfold Helpers.get_month_name.
    destruct (Z.leb_spec 1 m); cbn [andb]; [|split; [lia | reflexivity]].
    destruct (Z.leb_spec m 12); [|split; [lia | reflexivity]].
    split; [|lia].
    destruct (Hcases m) as [->|[->|[->|[->|[->|[->|[->|[->|[->|[->|[->| ->]]]]]]]]]]];
      [lia | discriminate ..].
  - intros Hm Hn.
    destruct (Hcases m Hm) as [->|[->|[->|[->|[->|[->|[->|[->|[->|[->|[->| ->]]]]]]]]]]];
      destruct (Hcases n Hn) as [->|[->|[->|[->|[->|[->|[->|[->|[->|[->|[->| ->]]]]]]]]]]];
      intros H; first [reflexivity | discriminate H].
Qed.

End Texts.

Lemma truncate_text_fits_witness :
  Helpers.truncate_text "monthly groceries" 10 = "monthly..."
  /\ Helpers.truncate_text "monthly..." 10 = "monthly...".
Proof.
  destruct (@truncate_text_fits "monthly groceries" 10)
    as [_ [_ [_ Hidem]]]; [lia|].
  split; [reflexivity | exact Hidem].
Defined.

Lemma truncate_text_below_three_witness :
  Helpers.truncate_text "abcdef" 2 = "abcde..."
  /\ 2 < Z.of_nat (String.length (Helpers.truncate_text "abcdef" 2)).
Proof.
  destruct (@truncate_text_below_three "abcdef" 2) as [Hlong _];
    [lia | simpl; lia |].
  split; [reflexivity | exact Hlong].
Defined.

(* ------------------------------------------------------------------ *)
(** ** The dashboard                                                    *)
(* ------------------------------------------------------------------ *)

Lemma filter_or_disjoint {A} (p q : A -> bool) (l : list A) :
  (forall x, In x l -> p x && q x = false) ->
  Permutation (filter (fun x => p x || q x) l) (filter p l ++ filter q l).
Proof.
  induction l as [|a l IH]; intros Hdis; [constructor|].
  assert (Hrest : forall x, In x l -> p x && q x = false)
    by (intros x Hx; apply Hdis; now right).
  specialize (IH Hrest). simpl.
  pose proof (Hdis a (or_introl eq_refl)) as Ha.
  destruct (p a), (q a); try discriminate; cbn [orb app].
  - now constructor.
  - now apply Permutation_cons_app.
  - exact IH.
Qed.

Section DashboardFacts.
Variable F : Type.
Variable float : Z -> F.
Variable float_millionths : Z -> F.
Variable created_at : ExpenseRow.t -> Z.
Variable today : date.
Variable month_label : date -> string.

Let dashboard_of (user_id : Z) :=
  ExpenseController.get_dashboard_data float float_millionths created_at
    today month_label user_id.

(** Every figure of the dashboard is what its method returns on the
    tables as they stand at the call, and the call leaves them so. *)
Lemma dashboard_snapshot user_id w :
  let first_day := ExpenseController.month_start today in
  let last_day := ExpenseController.month_end today in
  let stats := result_of (Expense.get_expense_stats user_id (Some first_day)
                            (Some last_day) w) in
  result_of (dashboard_of user_id w)
  = ExpenseController.mkDashboard
      (float (Stats.total stats))
      (float_millionths (Stats.average stats))
      (Stats.count stats)
      (result_of (Expense.get_total_expenses float user_id (Some today)
                    (Some today) None w))
      (result_of (Expense.get_total_expenses float user_id
                    (Some (mkDate (year today) 1 1))
                    (Some (mkDate (year today) 12 31)) None w))
      (result_of (Expense.get_category_totals user_id (Some first_day)
                    (Some last_day) w))
      (result_of (Expense.get_recent_expenses created_at user_id
                    (Some 5%nat) w))
      (result_of (Expense.get_monthly_totals user_id (year today) w))
      (month_label today)
  /\ users (world_of (dashboard_of user_id w)) = users w
  /\ categories (world_of (dashboard_of user_id w)) = categories w
  /\ expenses (world_of (dashboard_of user_id w)) = expenses w
  /\ current_user (world_of (dashboard_of user_id w)) = current_user w.
Proof.
  intros first_day last_day stats. subst stats dashboard_of.
  unfold ExpenseController.get_dashboard_data, Expense.get_expense_stats,
    Expense.get_total_expenses, Expense.get_category_totals,
    Expense.get_recent_expenses, Expense.get_user_expenses,
    Expense.get_monthly_totals, bind, ret, Database.execute_query,
    result_of, world_of.
  destruct (online w) eqn:Hon;
    repeat first
      [ progress cbn [online log fst snd users categories expenses
                        current_user]
      | progress rewrite Hon ];
    repeat split.
Qed.

(** The window of the monthly figures: the month of [today], and the
    first day of the month after it. *)
Lemma month_window user_id (e : ExpenseRow.t) :
  valid_date today ->
  valid_date (ExpenseRow.expense_date e) ->
  in_filters user_id (Some (ExpenseController.month_start today))
             (Some (ExpenseController.month_end today)) e
  = Expense.in_month user_id (year today) (month today) e
    || dated user_id (ExpenseController.month_end today) e
  /\ Expense.in_month user_id (year today) (month today) e
     && dated user_id (ExpenseController.month_end today) e = false.
Proof.
  intros [Hm Hd] [Hem Hed].
  unfold in_filters, Expense.and_dates, Expense.in_month, dated, date_eqb,
    date_leb, ExpenseController.month_start, ExpenseController.month_end.
  destruct (ExpenseRow.expense_date e) as [ey em ed].
  destruct today as [ty tm td]. cbn [year month day] in *.
  destruct (Z.eqb_spec tm 12) as [->|Hne]; cbn [year month day];
    split; compare_all.
Qed.

(** X23. The figures of the dashboard fit together. With calendar dates
    in [expenses], the yearly total is the sum of the twelve totals of
    the monthly trend; with [category_id] the key of [categories] and
    every expense in a category, the monthly total is the sum of the
    totals of the category breakdown; the recent expenses are at most
    five, all of the user; and the call changes no table and not the
    session. *)
Theorem dashboard_reconciles user_id w :
  dates_valid w ->
  category_key w ->
  category_reference w ->
  let r := ExpenseController.get_dashboard_data float float_millionths
             created_at today month_label user_id w in
  let d := result_of r in
  ExpenseController.yearly_total d
  = float (sum (map MonthTotal.total (ExpenseController.monthly_trend d)))
  /\ ExpenseController.monthly_total d
     = float (sum (map CategoryTotal.total
                     (ExpenseController.category_totals d)))
  /\ (List.length (ExpenseController.recent_expenses d) <= 5)%nat
  /\ Forall (fun x => ExpenseObject.user_id x = user_id)
            (ExpenseController.recent_expenses d)
  /\ users (world_of r) = users w
  /\ categories (world_of r) = categories w
  /\ expenses (world_of r) = expenses w
  /\ current_user (world_of r) = current_user w.
Proof.
  intros Hvalid Hkey Href r d. subst d r.
  destruct (dashboard_snapshot user_id w) as [Hd Htables].
  cbv zeta in Hd. unfold dashboard_of in Hd, Htables. rewrite Hd.
  cbn [ExpenseController.yearly_total ExpenseController.monthly_trend
       ExpenseController.monthly_total ExpenseController.category_totals
       ExpenseController.recent_expenses].
  split; [|split; [|split; [|split; [|exact Htables]]]].
  - (* the year *)
    assert (Hsame : filter (fun e => (ExpenseRow.user_id e =? user_id)
                                     && Expense.and_dates
                                          (Some (mkDate (year today) 1 1))
                                          (Some (mkDate (year today) 12 31))
                                          e
                                     && Expense.and_category None e)
                           (expenses w)
                    = filter (Expense.in_year user_id (year today))
                             (expenses w)).
    { apply filter_ext_in. intros e He.
      unfold dates_valid in Hvalid. rewrite Forall_forall in Hvalid.
      unfold Expense.and_dates, Expense.in_year, Expense.and_category.
      rewrite andb_true_r.
      now rewrite (year_window (year today) (Hvalid e He)). }
    unfold Expense.get_total_expenses, bind, ret, Database.execute_query,
      result_of.
    destruct (online w) eqn:Hon; cbn [fst].
    + rewrite Hsame, coalesce_sum.
      pose proof (@monthly_entries_online w user_id (year today) Hon Hvalid)
        as Hmonths.
      unfold result_of in Hmonths. rewrite Hmonths.
      rewrite map_map. unfold month_entry. cbn [MonthTotal.total].
      now rewrite (sum_of_month_entries ExpenseRow.amount user_id
                     (year today) Hvalid).
    + unfold Expense.get_monthly_totals, bind, ret, Database.execute_query.
      rewrite Hon. reflexivity.
  - (* the month, by category *)
    f_equal. destruct (online w) eqn:Hon.
    + rewrite get_expense_stats_online, get_category_totals_online
        by assumption.
      rewrite (sum_perm (Permutation_map CategoryTotal.total
                           (order_by_perm Expense.total_desc _))).
      rewrite map_map. cbn [category_entry CategoryTotal.total].
      rewrite sum_over_categories; [| exact Hkey | exact Href].
      unfold Expense.stats_row, stats_amounts. cbn [Stats.total].
      apply coalesce_sum.
    + unfold Expense.get_expense_stats, Expense.get_category_totals, bind,
        ret, Database.execute_query, result_of.
      rewrite Hon. reflexivity.
  - (* at most five *)
    unfold Expense.get_recent_expenses, Expense.get_user_expenses, bind, ret,
      Database.execute_query, result_of.
    destruct (online w); cbn [fst List.length]; [|lia].
    rewrite length_map. unfold Expense.limit_offset.
    apply firstn_le_length.
  - unfold Expense.get_recent_expenses, Expense.get_user_expenses, bind, ret,
      Database.execute_query, result_of.
    destruct (online w); cbn [fst]; [|constructor].
    apply Forall_forall. intros x Hx. apply in_map_iff in Hx.
    destruct Hx as [[e c] [<- Hin]].
    apply limit_offset_incl in Hin. apply in_order_by in Hin.
    apply filter_In in Hin. destruct Hin as [_ Hp].
    cbn [fst] in Hp. rewrite !andb_true_iff in Hp.
    destruct Hp as [[Hu _] _]. apply Z.eqb_eq in Hu.
    destruct e. exact Hu.
Qed.

(** X24. The monthly figures of the dashboard cover one day more than
    the month: with calendar dates, they count the expenses of the user
    dated in the month of [today] and also those dated on the first day
    of the month after it. *)
Theorem dashboard_month_window user_id w :
  valid_date today ->
  dates_valid w ->
  online w = true ->
  let d := result_of
             (ExpenseController.get_dashboard_data float float_millionths
                created_at today month_label user_id w) in
  let this_month :=
    filter (Expense.in_month user_id (year today) (month today))
           (expenses w) in
  let next_first :=
    filter (dated user_id (ExpenseController.month_end today))
           (expenses w) in
  ExpenseController.monthly_count d
  = Z.of_nat (List.length this_month) + Z.of_nat (List.length next_first)
  /\ ExpenseController.monthly_total d
     = float (sum (map ExpenseRow.amount this_month)
              + sum (map ExpenseRow.amount next_first)).
Proof.
  intros Htoday Hvalid Hon d this_month next_first. subst d.
  destruct (dashboard_snapshot user_id w) as [Hd _].
  cbv zeta in Hd. unfold dashboard_of in Hd. rewrite Hd.
  cbn [ExpenseController.monthly_count ExpenseController.monthly_total].
  rewrite get_expense_stats_online by exact Hon.
  unfold dates_valid in Hvalid. rewrite Forall_forall in Hvalid.
  assert (Hwindow : Permutation
                      (filter (in_filters user_id
                                 (Some (ExpenseController.month_start today))
                                 (Some (ExpenseController.month_end today)))
                              (expenses w))
                      (this_month ++ next_first)).
  { rewrite (filter_ext_in _
               (fun e => Expense.in_month user_id (year today) (month today)
                                          e
                         || dated user_id (ExpenseController.month_end today)
                                  e)).
    - apply filter_or_disjoint. intros e He.
      exact (proj2 (month_window user_id e Htoday (Hvalid e He))).
    - intros e He.
      exact (proj1 (month_window user_id e Htoday (Hvalid e He))). }
  unfold Expense.stats_row, stats_amounts.
  cbn [Stats.count Stats.total]. rewrite coalesce_sum. split.
  - unfold SQL.COUNT. rewrite length_map.
    rewrite (Permutation_length Hwindow), length_app. lia.
  - f_equal.
    rewrite (sum_perm (Permutation_map ExpenseRow.amount Hwindow)).
    rewrite map_app. unfold sum. rewrite fold_right_app.
    generalize (map ExpenseRow.amount this_month) as l.
    induction l as [|a l IH]; simpl; [reflexivity | lia].
Qed.

End DashboardFacts.

Lemma dashboard_reconciles_witness :
  let d := result_of
             (ExpenseController.get_dashboard_data
                (fun cents => cents) (fun millionths => millionths)
                ExpenseRow.expense_id (mkDate 2024 3 21)
                (fun _ => "March 2024") 1 Scenario.w0) in
  ExpenseController.yearly_total d = 40000
  /\ sum (map MonthTotal.total (ExpenseController.monthly_trend d)) = 40000
  /\ sum (map CategoryTotal.total (ExpenseController.category_totals d))
     = 40000.
Proof.
  intros d.
  destruct (@dashboard_reconciles Z (fun cents => cents)
              (fun millionths => millionths) ExpenseRow.expense_id
              (mkDate 2024 3 21) (fun _ => "March 2024") 1 Scenario.w0)
    as [Hyear [Hmonth _]].
  - unfold dates_valid, valid_date. simpl.
    repeat constructor; simpl; lia.
  - exact scenario_category_key.
  - exact scenario_category_reference.
  - fold d in Hyear, Hmonth. rewrite <- Hyear, <- Hmonth.
    repeat split.
Defined.

Lemma dashboard_month_window_witness :
  let d := result_of
             (ExpenseController.get_dashboard_data
                (fun cents => cents) (fun millionths => millionths)
                ExpenseRow.expense_id (mkDate 2024 3 21)
                (fun _ => "March 2024") 2
                (set_expenses
                   [ExpenseRow.mk 8 2 2 1500 "bus" (mkDate 2024 3 30) "Cash"
                                  None;
                    ExpenseRow.mk 9 2 2 900 "tram" (mkDate 2024 4 1) "Cash"
                                  None;
                    ExpenseRow.mk 10 2 2 700 "ferry" (mkDate 2024 4 2) "Cash"
                                  None]
                   Scenario.w0)) in
  ExpenseController.monthly_count d = 2
  /\ ExpenseController.monthly_total d = 2400.
Proof.
  intros d.
  destruct (@dashboard_month_window Z (fun cents => cents)
              (fun millionths => millionths) ExpenseRow.expense_id
              (mkDate 2024 3 21) (fun _ => "March 2024") 2
              (set_expenses
                 [ExpenseRow.mk 8 2 2 1500 "bus" (mkDate 2024 3 30) "Cash"
                                None;
                  ExpenseRow.mk 9 2 2 900 "tram" (mkDate 2024 4 1) "Cash"
                                None;
                  ExpenseRow.mk 10 2 2 700 "ferry" (mkDate 2024 4 2) "Cash"
                                None]
                 Scenario.w0))
    as [Hcount Htotal].
  - unfold valid_date. simpl. lia.
  - unfold dates_valid, valid_date. simpl.
    repeat constructor; simpl; lia.
  - reflexivity.
  - fold d in Hcount, Htotal. rewrite Hcount, Htotal. split; reflexivity.
Defined.

(* ------------------------------------------------------------------ *)
(** ** The session, and the answers of [add_expense]                    *)
(* ------------------------------------------------------------------ *)

Section Session.
Variable sha256_hexdigest : string -> string.
Variable sql_eq : string -> string -> bool.

(** X25. [logout] always succeeds and closes the session: after it
    [is_logged_in] answers no, and [update_profile] and
    [change_password] answer "Not logged in" without a statement
    reaching the server; the tables are as before the logout. A login
    that succeeds opens the session for the account it returns, and one
    that fails leaves the session it found. *)
Theorem logout_closes_session w :
  let w1 := world_of (AuthController.logout w) in
  result_of (AuthController.logout w) = (true, "Logged out successfully")
  /\ users w1 = users w /\ categories w1 = categories w
  /\ expenses w1 = expenses w
  /\ result_of (AuthController.is_logged_in w1) = false
  /\ (forall full_name email,
         AuthController.update_profile sql_eq full_name email w1
         = ((false, "Not logged in"), w1))
  /\ (forall old_password new_password confirm_password,
         AuthController.change_password sha256_hexdigest old_password
           new_password confirm_password w1
         = ((false, "Not logged in"), w1))
  /\ (forall username password,
         let l := AuthController.login sha256_hexdigest sql_eq username
                    password w1 in
         result_of (AuthController.is_logged_in (world_of l))
         = fst (fst (result_of l))
         /\ current_user (world_of l) = snd (result_of l)).
Proof.
  intros w1. subst w1.
  unfold AuthController.logout, AuthController.is_logged_in,
    AuthController.update_profile, AuthController.change_password,
    get_current_user, set_current_user, bind, ret, result_of, world_of.
  cbn [fst snd users categories expenses current_user is_not_None].
  repeat split.
  all: unfold AuthController.login, User.authenticate, bind, ret,
         Database.execute_query, set_current_user.
  all: destruct (nonempty username), (nonempty password);
         cbn [negb orb fst snd current_user is_not_None online];
         try reflexivity.
  all: destruct (online w); cbn [fst snd current_user is_not_None log];
         try reflexivity.
  all: destruct (filter _ _) as [|user_data rest];
         cbn [fst snd current_user is_not_None log]; try reflexivity.
  all: destruct (Helpers.verify_password _ _ _);
         cbn [fst snd current_user is_not_None log]; reflexivity.
Qed.

End Session.

(** X26. What [add_expense] answers about the amount, when user,
    category, description and date are given. The number 0 counts as a
    field left empty and is answered "Please fill all required fields",
    while a text that reads as 0 is answered "Amount must be greater
    than 0", as are the negative amounts, and nothing else; "Invalid
    amount" is the answer to the texts that are not empty and do not
    read as a number, and to nothing else. *)
Theorem add_expense_amount_answers
        w user_id category_id amount description expense_date
        payment_method notes :
  let answer :=
    snd (fst (result_of
                (ExpenseController.add_expense user_id category_id amount
                   description expense_date payment_method notes w))) in
  let others_given :=
    user_id <> 0 /\ category_id <> 0 /\ nonempty description = true
    /\ expense_date <> None in
  (amount = ExpenseController.Amount 0 ->
   answer = "Please fill all required fields")
  /\ (answer = "Amount must be greater than 0"
      <-> others_given
          /\ exists cents,
               (amount = ExpenseController.Amount cents /\ cents < 0)
               \/ (amount = ExpenseController.Numeral cents /\ cents <= 0))
  /\ (answer = "Invalid amount"
      <-> others_given
          /\ exists text, amount = ExpenseController.Text text
                          /\ nonempty text = true).
Proof.
  intros answer others_given. subst answer others_given.
  unfold ExpenseController.add_expense, bind, ret, result_of, truthy.
  destruct expense_date as [on_date|].
  2: { cbn [fst snd]. split; [reflexivity|].
       split; (split; [discriminate | intros [[_ [_ [_ H]]] _]; congruence]). }
  destruct (Z.eqb_spec user_id 0) as [Hu|Hu]; cbn [negb andb fst snd].
  { split; [reflexivity|].
    split; (split; [discriminate | intros [[H _] _]; congruence]). }
  destruct (Z.eqb_spec category_id 0) as [Hc|Hc]; cbn [negb andb fst snd].
  { split; [reflexivity|].
    split; (split; [discriminate | intros [[_ [H _]] _]; congruence]). }
  destruct (nonempty description) eqn:Hd; rewrite ?andb_true_r,
    ?andb_false_r; cbn [negb fst snd].
  2: { split; [reflexivity|].
       split; (split; [discriminate | intros [[_ [_ [H _]]] _]; congruence]). }
  assert (Hgiven : user_id <> 0 /\ category_id <> 0 /\ true = true
                   /\ Some on_date <> None)
    by (repeat split; congruence).
  destruct amount as [cents|cents|text];
    cbn [ExpenseController.amount_given ExpenseController.float_of].
  - destruct (Z.eqb_spec cents 0) as [Hz|Hz]; cbn [negb fst snd].
    + split; [reflexivity|].
      split; (split; [discriminate|]).
      * intros [_ [c [[Hc0 Hneg]|[Hc0 _]]]]; [|discriminate].
        injection Hc0 as <-. lia.
      * intros [_ [t [Ht _]]]. discriminate.
    + split; [intros H; injection H as ->; contradiction|].
      destruct (Z.leb_spec cents 0) as [Hle|Hgt]; cbn [fst snd].
      * split; split; try discriminate.
        -- intros _. split; [exact Hgiven|].
           exists cents. left. split; [reflexivity | lia].
        -- reflexivity.
        -- intros [_ [t [Ht _]]]. discriminate.
      * rewrite create_unfold_expense.
        destruct (online w); cbv zeta; cbn [fst snd];
          (split; (split; [discriminate|]));
          try (intros [_ [t [Ht _]]]; discriminate);
          (intros [_ [c [[Hc0 Hneg]|[Hc0 _]]]]; [|discriminate]);
          injection Hc0 as <-; lia.
  - cbn [negb]. split; [discriminate|].
    destruct (Z.leb_spec cents 0) as [Hle|Hgt]; cbn [fst snd].
    + split; split; try discriminate.
      * intros _. split; [exact Hgiven|].
        exists cents. right. split; [reflexivity | exact Hle].
      * reflexivity.
      * intros [_ [t [Ht _]]]. discriminate.
    + rewrite create_unfold_expense.
      destruct (online w); cbv zeta; cbn [fst snd];
        (split; (split; [discriminate|]));
        try (intros [_ [t [Ht _]]]; discriminate);
        (intros [_ [c [[Hc0 _]|[Hc0 Hneg]]]]; [discriminate|]);
        injection Hc0 as <-; lia.
  - destruct (nonempty text) eqn:Ht; cbn [negb fst snd].
    + split; [discriminate|]. split; split; try discriminate.
      * intros [_ [c [[Hc0 _]|[Hc0 _]]]]; discriminate.
      * intros _. split; [exact Hgiven|]. eauto.
      * reflexivity.
    + split; [discriminate|]. split; (split; [discriminate|]).
      * intros [_ [c [[Hc0 _]|[Hc0 _]]]]; discriminate.
      * intros [_ [t [Ht0 Hne]]]. injection Ht0 as <-. congruence.
Qed.

Section LoginSound.
Variable sha256_hexdigest : string -> string.
Variable sql_eq : string -> string -> bool.

(** X27. [login] opens a session only for a stored account: when it
    returns an account, name and password were not empty, a row of
    [users] carries that account, the row is active, its user name or
    its address equals the name entered under the collation, and its
    stored hash is the digest of the password entered; the account is
    then the session, and the call reports success. *)
Theorem login_sound w username password u :
  let l := AuthController.login sha256_hexdigest sql_eq username password w
  in
  snd (result_of l) = Some u ->
  fst (fst (result_of l)) = true
  /\ current_user (world_of l) = Some u
  /\ nonempty username = true /\ nonempty password = true
  /\ exists r,
      In r (users w)
      /\ User.of_row r = u
      /\ UserRow.is_active r = true
      /\ (sql_eq (UserRow.username r) username = true
          \/ sql_eq (UserRow.email r) username = true)
      /\ UserRow.password r
         = Helpers.hash_password sha256_hexdigest password.
Proof.
  intros l. subst l.
  unfold AuthController.login, User.authenticate, bind, ret,
    Database.execute_query, set_current_user, result_of, world_of,
    Helpers.verify_password.
  destruct (nonempty username); cbn [negb orb fst snd]; [|discriminate].
  destruct (nonempty password); cbn [negb orb fst snd]; [|discriminate].
  destruct (online w); cbn [fst snd]; [|discriminate].
  destruct (filter (User.login_match sql_eq username) (users w))
    as [|r rest] eqn:Hsel; cbn [fst snd]; [discriminate|].
  destruct (String.eqb_spec
              (Helpers.hash_password sha256_hexdigest password)
              (UserRow.password r)) as [Hhash|_];
    cbn [fst snd current_user]; [|discriminate].
  intros [= <-]. repeat split.
  assert (Hin : In r (filter (User.login_match sql_eq username) (users w)))
    by (rewrite Hsel; now left).
  apply filter_In in Hin. destruct Hin as [Hin Hmatch].
  unfold User.login_match in Hmatch. apply andb_prop in Hmatch.
  destruct Hmatch as [Hname Hactive]. apply orb_prop in Hname.
  exists r. repeat split; auto.
Qed.

End LoginSound.

Lemma login_sound_witness :
  let l := AuthController.login Scenario.digest String.eqb
             "bob@example.com" "builder2" Scenario.w0 in
  snd (result_of l) = Some (User.of_row Scenario.bob)
  /\ current_user (world_of l) = Some (User.of_row Scenario.bob).
Proof.
  intros l.
  destruct (@login_sound Scenario.digest String.eqb Scenario.w0
              "bob@example.com" "builder2" (User.of_row Scenario.bob))
    as [_ [Hsession _]]; [reflexivity|].
  split; [reflexivity | exact Hsession].
Defined.

(* ------------------------------------------------------------------ *)
(** ** The order of the checks of registration                          *)
(* ------------------------------------------------------------------ *)

Section FinalNewline.
Local Open Scope string_scope.









End FinalNewline.

Section RegistrationOrder.
Variable sha256_hexdigest : string -> string.
Variable sql_eq : string -> string -> bool.


End RegistrationOrder.

